(** * linkedin-job-scraper: a shallow embedding of [url_utils.py], [ai_parser.py]
    and [linkedin_job_scraper.py]

    Python [str] values are modelled as [string]s whose characters are code
    points below 256 (ASCII and Latin-1), on which [str.lower] maps one
    character to one character and a case-insensitive search folds the
    letters as [str.lower] does; what is proved of a string is proved of
    the Python strings of such characters, and of no others.  Python
    [int]s are modelled as [Z]; lengths as [nat].  Calls that
    leave the program (the browser page, the sub-process that runs a generated
    script, the code-synthesis service, [ast.parse] and [compile]) are
    modelled by records of responses that the functions receive as
    arguments.  A call that raises where the code has no handler ends the
    function with the exception; Python [float]s are IEEE binary64
    values. *)

From Stdlib Require Import Bool Arith ZArith NArith Lia List.
From Stdlib Require Import Ascii String DecimalString.
From Stdlib Require Import Sorted Permutation SpecFloat.
Import ListNotations.

Local Open Scope string_scope.
Local Open Scope bool_scope.

(* ================================================================== *)
(** * Part I: definitions                                              *)
(* ================================================================== *)

(** ** Python string primitives *)

Module PyStr.

Definition code (c : ascii) : N := N_of_ascii c.

Definition in_range (lo hi : N) (c : ascii) : bool :=
  (N.leb lo (code c)) && (N.leb (code c) hi).

(** [str.lower] on one character: A-Z, and the Latin-1 capitals
    0xC0-0xDE without the multiplication sign 0xD7. *)
Definition lower_char (c : ascii) : ascii :=
  if in_range 65 90 c
     || (in_range 192 222 c && negb (N.eqb (code c) 215))
  then ascii_of_N (code c + 32)
  else c.

Fixpoint lower (s : string) : string :=
  match s with
  | EmptyString => EmptyString
  | String c s' => String (lower_char c) (lower s')
  end.

(** [str.isspace] on one character: TAB..CR, FS..US, SPACE, NEL, NBSP. *)
Definition is_space (c : ascii) : bool :=
  in_range 9 13 c || in_range 28 32 c
  || N.eqb (code c) 133 || N.eqb (code c) 160.

Fixpoint lstrip (s : string) : string :=
  match s with
  | EmptyString => EmptyString
  | String c s' => if is_space c then lstrip s' else s
  end.

Fixpoint rstrip (s : string) : string :=
  match s with
  | EmptyString => EmptyString
  | String c s' =>
      match rstrip s' with
      | EmptyString => if is_space c then EmptyString else String c EmptyString
      | r => String c r
      end
  end.

(** [s.strip()] *)
Definition strip (s : string) : string := rstrip (lstrip s).

(** [s[:n]] *)
Definition take (n : nat) (s : string) : string := substring 0 n s.

(** [p in s] for strings: [p] occurs in [s] as a contiguous block. *)
Fixpoint contains (p s : string) : bool :=
  if prefix p s then true
  else match s with
       | EmptyString => false
       | String _ s' => contains p s'
       end.

(** Truthiness of a string: [bool(s)]. *)
Definition truthy (s : string) : bool :=
  match s with EmptyString => false | _ => true end.

(** [str(n)] for integers. *)
Definition of_Z (z : Z) : string := NilZero.string_of_int (Z.to_int z).
Definition of_nat (n : nat) : string := NilZero.string_of_uint (Nat.to_uint n).

(** [sep.join(l)] *)
Fixpoint join (sep : string) (l : list string) : string :=
  match l with
  | [] => ""
  | [x] => x
  | x :: l' => x ++ sep ++ join sep l'
  end.

Definition dquote : string := String (ascii_of_nat 34) EmptyString.
Definition newline : string := String (ascii_of_nat 10) EmptyString.

(** Declarative readings of [in], used to state what the code computes. *)
Definition Substring (p s : string) : Prop :=
  exists a b, s = a ++ p ++ b.

Definition SubstringCI (p s : string) : Prop :=
  exists a m b, s = a ++ m ++ b /\ lower m = p.

End PyStr.

(** ** The fragment of Python's [re] that the repository's patterns use

    A pattern is a sequence of single-character atoms, each taken once, or
    one-or-more times greedily ([a+]), or one-or-more times greedily inside
    the capturing group ([(a+)]).  Matching backtracks as [re] does: a greedy
    repetition first takes as many characters as it can and gives them back
    one at a time while the rest of the pattern fails. *)

Module Re.

Inductive atom : Type :=
| Lit (c : ascii)                       (* a literal character, also [\.] *)
| Digit                                 (* [\d] *)
| OneOf (ranges : list (ascii * ascii)) (* [[...]] *)
| NoneOf (ranges : list (ascii * ascii)) (* [[^...]] *).

Inductive item : Type :=
| One (a : atom)
| Plus (a : atom)
| GroupPlus (a : atom).

Definition pattern := list item.

Definition in_ranges (ranges : list (ascii * ascii)) (c : ascii) : bool :=
  existsb (fun r => PyStr.in_range (PyStr.code (fst r)) (PyStr.code (snd r)) c)
          ranges.

(** With [re.IGNORECASE] ([ic = true]) the text character is lower-cased
    before it is compared; literals and sets are compared in lower case. *)
Definition casefold (ic : bool) (c : ascii) : ascii :=
  if ic then PyStr.lower_char c else c.

Definition atom_matches (ic : bool) (a : atom) (c : ascii) : bool :=
  match a with
  | Lit x => Ascii.eqb (casefold ic x) (casefold ic c)
  | Digit => PyStr.in_range 48 57 c
  | OneOf rs => in_ranges rs (casefold ic c)
  | NoneOf rs => negb (in_ranges rs (casefold ic c))
  end.

Section Greedy.
Context {R : Type}.
Variable ok : ascii -> bool.

(** [star k s]: take the longest run of [ok] characters at the head of
    [s], then try the continuation [k consumed rest]; on failure give one
    character back and try again. *)
Fixpoint star (k : string -> string -> option R) (s : string) : option R :=
  match s with
  | String c s' =>
      if ok c then
        match star (fun m r => k (String c m) r) s' with
        | Some r => Some r
        | None => k EmptyString s
        end
      else k EmptyString s
  | EmptyString => k EmptyString s
  end.

Definition plus (k : string -> string -> option R) (s : string) : option R :=
  match s with
  | String c s' => if ok c then star (fun m r => k (String c m) r) s' else None
  | EmptyString => None
  end.
End Greedy.

(** A match object is represented by the text of group 1, if a group took
    part in the match. *)
Definition match_object := option string.

Fixpoint match_here (ic : bool) (p : pattern) (g : match_object) (s : string)
  : option match_object :=
  match p with
  | [] => Some g
  | One a :: p' =>
      match s with
      | String c s' => if atom_matches ic a c then match_here ic p' g s' else None
      | EmptyString => None
      end
  | Plus a :: p' => plus (atom_matches ic a) (fun _ r => match_here ic p' g r) s
  | GroupPlus a :: p' =>
      plus (atom_matches ic a) (fun m r => match_here ic p' (Some m) r) s
  end.

(** [re.search(p, s, flags)]: the leftmost position where [p] matches. *)
Fixpoint search (ic : bool) (p : pattern) (s : string) : option match_object :=
  match match_here ic p None s with
  | Some m => Some m
  | None =>
      match s with
      | String _ s' => search ic p s'
      | EmptyString => None
      end
  end.

(** [if re.search(...)]: a match object is truthy. *)
Definition found (ic : bool) (p : pattern) (s : string) : bool :=
  match search ic p s with Some _ => true | None => false end.

(** [match.group(1)] *)
Definition group1 (m : match_object) : option string := m.

(** A run of literal characters. *)
Fixpoint lits (s : string) : pattern :=
  match s with
  | EmptyString => []
  | String c s' => One (Lit c) :: lits s'
  end.

Definition hex_ranges : list (ascii * ascii) :=
  [("a", "f"); ("0", "9")]%char.

(** Every character of [s] passes [ok]. *)
Fixpoint all_chars (ok : ascii -> bool) (s : string) : bool :=
  match s with
  | EmptyString => true
  | String c s' => ok c && all_chars ok s'
  end.

End Re.

(** ** url_utils.py *)

Module UrlUtils.

Inductive JobSite : Type := LINKEDIN | INDEED | GLASSDOOR.

Definition value (s : JobSite) : string :=
  match s with
  | LINKEDIN => "linkedin"
  | INDEED => "indeed"
  | GLASSDOOR => "glassdoor"
  end.

Record JobURL : Type := mkJobURL {
  site : JobSite;
  job_id : string;
  original_url : string;
  canonical_url : string
}.

(** [canonical_template] is kept as the text before its only placeholder
    [{job_id}], which ends each of the three templates. *)
Record SitePattern : Type := mkSitePattern {
  sp_site : JobSite;
  display_name : string;
  domain_pattern : Re.pattern;
  job_id_pattern : Re.pattern;
  canonical_template : string;
  description : string
}.

(** [canonical_template.format(job_id=job_id)] *)
Definition format_template (template job_id : string) : string :=
  template ++ job_id.

(** The dict [SITE_PATTERNS]: its values by key, and its keys in insertion
    order. *)
Definition SITE_PATTERNS (s : JobSite) : SitePattern :=
  match s with
  | LINKEDIN =>
      mkSitePattern LINKEDIN "LinkedIn"
        (Re.lits "linkedin.com")
        (Re.lits "/jobs/view/" ++ [Re.GroupPlus Re.Digit])%list
        "https://www.linkedin.com/jobs/view/"
        "LinkedIn job postings"
  | INDEED =>
      mkSitePattern INDEED "Indeed"
        (Re.lits "indeed.com")
        (Re.One (Re.OneOf [("?", "?"); ("&", "&")]%char) :: Re.lits "jk="
           ++ [Re.GroupPlus (Re.OneOf Re.hex_ranges)])%list
        "https://www.indeed.com/viewjob?jk="
        "Indeed job postings"
  | GLASSDOOR =>
      mkSitePattern GLASSDOOR "Glassdoor"
        (Re.lits "glassdoor.com")
        (Re.lits "job-listing/" ++ [Re.Plus (Re.NoneOf [("/", "/")]%char)]
           ++ Re.lits "-JV_IC" ++ [Re.GroupPlus Re.Digit])%list
        "https://www.glassdoor.com/job-listing/-JV_IC"
        "Glassdoor job postings"
  end.

Definition SITE_PATTERNS_keys : list JobSite := [LINKEDIN; INDEED; GLASSDOOR].

(** The place of a site in the insertion order. *)
Definition index (s : JobSite) : nat :=
  match s with LINKEDIN => 0 | INDEED => 1 | GLASSDOOR => 2 end.

(** The loop [for site, pattern in SITE_PATTERNS.items()]. *)
Fixpoint first_domain_match (sites : list JobSite) (url_lower : string)
  : option JobSite :=
  match sites with
  | [] => None
  | s :: sites' =>
      if Re.found true (domain_pattern (SITE_PATTERNS s)) url_lower then Some s
      else first_domain_match sites' url_lower
  end.

Definition detect_job_site (url : string) : option JobSite :=
  let url_lower := PyStr.lower url in
  first_domain_match SITE_PATTERNS_keys url_lower.

Definition extract_job_id (url : string) (s : JobSite) : option string :=
  let pattern := job_id_pattern (SITE_PATTERNS s) in
  match Re.search true pattern url with
  | Some m => Re.group1 m
  | None => None
  end.

(** The three [raise ValueError(...)] of [normalize_job_url]. *)
Inductive ValueError : Type :=
| EmptyUrl
| UnsupportedSite (url : string)
| NoJobId (s : JobSite) (url : string).

Definition normalize_job_url (url : string) : ValueError + JobURL :=
  if negb (PyStr.truthy url) then inl EmptyUrl
  else
    let url := PyStr.strip url in
    match detect_job_site url with
    | None => inl (UnsupportedSite url)
    | Some s =>
        match extract_job_id url s with
        | None => inl (NoJobId s url)
        | Some job_id =>
            if negb (PyStr.truthy job_id) then inl (NoJobId s url)
            else
              let canonical_url :=
                format_template (canonical_template (SITE_PATTERNS s)) job_id in
              inr (mkJobURL s job_id url canonical_url)
        end
    end.

Definition get_canonical_url (url : string) : ValueError + string :=
  match normalize_job_url url with
  | inl e => inl e
  | inr j => inr (canonical_url j)
  end.

Definition validate_job_url (url : string) : bool :=
  match normalize_job_url url with inl _ => false | inr _ => true end.

End UrlUtils.

(** ** ai_parser.py: site detection *)

Module AiParser.

Inductive JobSite : Type := LINKEDIN | INDEED | GLASSDOOR.

Definition value (s : JobSite) : string :=
  match s with
  | LINKEDIN => "linkedin"
  | INDEED => "indeed"
  | GLASSDOOR => "glassdoor"
  end.

(** [JobSite(name)]: [None] stands for the [ValueError] of the enum. *)
Definition JobSite_of_value (name : string) : option JobSite :=
  if String.eqb name "linkedin" then Some LINKEDIN
  else if String.eqb name "indeed" then Some INDEED
  else if String.eqb name "glassdoor" then Some GLASSDOOR
  else None.

Definition site_eqb (a b : JobSite) : bool :=
  match a, b with
  | LINKEDIN, LINKEDIN | INDEED, INDEED | GLASSDOOR, GLASSDOOR => true
  | _, _ => false
  end.

Record SiteConfig : Type := mkSiteConfig {
  name : string;
  display_name : string;
  url_pattern : Re.pattern;
  job_id_pattern : Re.pattern;
  description : string
}.

Definition SITE_CONFIGS (s : JobSite) : SiteConfig :=
  match s with
  | LINKEDIN =>
      mkSiteConfig "linkedin" "LinkedIn"
        (Re.lits "linkedin.com/jobs")
        (Re.lits "/jobs/view/" ++ [Re.GroupPlus Re.Digit])%list
        "Path-based job ID: /jobs/view/{id}"
  | INDEED =>
      mkSiteConfig "indeed" "Indeed"
        (Re.lits "indeed.com/viewjob")
        (Re.One (Re.OneOf [("?", "?"); ("&", "&")]%char) :: Re.lits "jk="
           ++ [Re.GroupPlus (Re.OneOf Re.hex_ranges)])%list
        "Query param job ID: ?jk={id}"
  | GLASSDOOR =>
      mkSiteConfig "glassdoor" "Glassdoor"
        (Re.lits "glassdoor.com/job-listing")
        (Re.lits "-JV_IC" ++ [Re.GroupPlus Re.Digit])%list
        "Mixed pattern job ID: -JV_IC{id}"
  end.

Definition SITE_CONFIGS_keys : list JobSite := [LINKEDIN; INDEED; GLASSDOOR].

(** The place of a site in the insertion order. *)
Definition index (s : JobSite) : nat :=
  match s with LINKEDIN => 0 | INDEED => 1 | GLASSDOOR => 2 end.

Fixpoint first_url_match (sites : list JobSite) (url : string) : option JobSite :=
  match sites with
  | [] => None
  | s :: sites' =>
      if Re.found true (url_pattern (SITE_CONFIGS s)) url then Some s
      else first_url_match sites' url
  end.

(** [inl] carries the message of the [ValueError] that the function raises. *)
Definition detect_job_site (url : string) : string + JobSite :=
  match first_url_match SITE_CONFIGS_keys url with
  | Some s => inr s
  | None =>
      inl ("Unsupported job site: " ++ url ++ PyStr.newline
           ++ "Supported sites: "
           ++ PyStr.join ", " (map (fun s => display_name (SITE_CONFIGS s))
                                 SITE_CONFIGS_keys))
  end.

Definition get_site_config (s : JobSite) : SiteConfig := SITE_CONFIGS s.

Definition validate_site_url (url : string) (expected_site : JobSite) : bool :=
  match detect_job_site url with
  | inr detected => site_eqb detected expected_site
  | inl _ => false
  end.

(** The pattern is searched without [re.IGNORECASE] here. *)
Definition extract_job_id (url : string) (s : option JobSite) : option string :=
  match (match s with
         | None => match detect_job_site url with
                   | inr d => Some d
                   | inl _ => None
                   end
         | Some d => Some d
         end) with
  | None => None
  | Some d =>
      let config := get_site_config d in
      match Re.search false (job_id_pattern config) url with
      | Some m => Re.group1 m
      | None => None
      end
  end.

(** *** The browser page

    The Playwright page is an interface; [sigma] is the state of the
    rendered document.  Reading operations leave the state as it is,
    [click] and [wait_for_timeout] return the state they leave.  An
    operation that raises returns its [..Raised] value. *)

Inductive js_value : Type :=
| JNull                       (* [None], from JS null or undefined *)
| JStr (s : string)
| JNum (n : Z).

Inductive eval_outcome : Type :=
| EvalRaised
| EvalValue (v : js_value).

Inductive locate_outcome : Type :=
| LocateRaised                (* timeout *)
| NoElement                   (* [None] *)
| Element.

Inductive text_outcome : Type :=
| TextRaised
| Text (t : option string).

Class Page (sigma : Type) : Type := {
  (* [await page.evaluate(script)] *)
  evaluate : sigma -> string -> eval_outcome;
  (* [await page.evaluate(...)] of the snippet that returns the length of
     the description element's text, or 0 when there is no such element;
     [None] when the call raises *)
  evaluate_length : sigma -> option Z;
  (* [await page.wait_for_selector(selector, timeout=ms)] *)
  wait_for_selector : sigma -> string -> Z -> locate_outcome;
  (* [await element.text_content()] on the element found for a selector *)
  text_content : sigma -> string -> text_outcome;
  (* [await button.click()] on the element found for a selector; the flag
     is false when the call raises *)
  click : sigma -> string -> sigma * bool;
  (* [await page.wait_for_timeout(ms)] *)
  wait_for_timeout : sigma -> Z -> sigma
}.

(** [bool(v)] and [str(v)] *)
Definition js_truthy (v : js_value) : bool :=
  match v with
  | JNull => false
  | JStr s => PyStr.truthy s
  | JNum n => negb (Z.eqb n 0)
  end.

Definition py_str (v : js_value) : string :=
  match v with
  | JNull => "None"
  | JStr s => s
  | JNum n => PyStr.of_Z n
  end.

(** *** Live strategy testing: [test_extraction_strategies] *)

Inductive strategy_kind : Type := javascript_evaluation | css_selector.

Inductive confidence_tier : Type := high | medium | low.

(** One result dict.  A scripted-evaluation result has the key ["code"], a
    structured-query result the key ["selector"]. *)
Record strategy_result : Type := mkResult {
  strategy : strategy_kind;
  code : option string;
  selector : option string;
  success : bool;
  sample : string;
  length : nat;
  confidence : confidence_tier
}.

(** The text of the source between the separator characters of the
    location expression, which are not ASCII; given by their bytes. *)
Definition of_bytes (l : list nat) : string :=
  string_of_list_ascii (map ascii_of_nat l).

Definition location_separator : string := of_bytes [194; 172; 226; 136; 145].

Definition js_strategies (field_name : string) : option string :=
  if String.eqb field_name "title" then
    Some "document.querySelector('h1')?.textContent?.trim()"
  else if String.eqb field_name "company" then
    Some ("document.querySelector('a[data-tracking-control-name*="
          ++ PyStr.dquote ++ "topcard" ++ PyStr.dquote
          ++ "]')?.textContent?.trim()")
  else if String.eqb field_name "location" then
    Some ("document.querySelector('.topcard__flavor--bullet')?.parentElement?.textContent?.match(/"
          ++ location_separator ++ "\s*([^" ++ location_separator
          ++ "]+)/)?.[1]?.trim()")
  else if String.eqb field_name "description" then
    Some "document.querySelector('div.show-more-less-html__markup')?.innerText || document.querySelector('div.show-more-less-html__markup')?.textContent"
  else None.

(** [css_selectors.get(field_name, [])] *)
Definition css_selectors (field_name : string) : list string :=
  if String.eqb field_name "title" then
    ["h1"; "h1.title"; "[data-test-id='job-title']"; ".job-title"]
  else if String.eqb field_name "company" then
    ["a[data-tracking-control-name*='topcard']"; ".company-name";
     "[data-company-name]"]
  else if String.eqb field_name "location" then
    [".topcard__flavor"; ".location"; "[data-job-location]"]
  else if String.eqb field_name "description" then
    [".description"; ".job-description"; "[class*='description']";
     ".show-more-less-html__markup"]
  else [].

(** [confidence_order.get(x.get("confidence", "low"), 0)] *)
Definition confidence_order (c : confidence_tier) : Z :=
  match c with high => 3%Z | medium => 2%Z | low => 1%Z end.

Definition sort_key (x : strategy_result) : Z := confidence_order (confidence x).

Definition tier_eqb (a b : confidence_tier) : bool :=
  match a, b with
  | high, high | medium, medium | low, low => true
  | _, _ => false
  end.

(** The tier that the specification gives to a result of a kind with a
    text of [n] characters. *)
Definition spec_confidence (k : strategy_kind) (n : nat) : confidence_tier :=
  match k with
  | javascript_evaluation => if Nat.ltb 100 n then high else medium
  | css_selector => if Nat.ltb 50 n then medium else low
  end.

(** A result as the specification scores it: from its kind and the length
    of its text, with a sample of at most 200 characters. *)
Definition scored (k : strategy_kind) (r : strategy_result) : Prop :=
  strategy r = k
  /\ confidence r = spec_confidence k (length r)
  /\ String.length (sample r) = Nat.min 200 (length r).

(** The order of the tiers as the specification gives it, high above
    medium above low: [tier_below a b] tells that [a] is strictly below [b].
    It is written without the numbers of [confidence_order]. *)
Definition tier_below (a b : confidence_tier) : bool :=
  match a, b with
  | low, medium | low, high | medium, high => true
  | _, _ => false
  end.

(** [b] does not rank above [a]: the tier of [a] is not below that of
    [b]. *)
Definition ranks_no_lower (a b : strategy_result) : Prop :=
  tier_below (confidence a) (confidence b) = false.

(** [list.sort(key=..., reverse=True)]: a stable sort into non-increasing
    key order; elements with equal keys keep their order.  [insert_desc x l]
    puts [x] in front of the first element whose key is not larger. *)
Section Sort.
Context {A : Type}.
Variable key : A -> Z.

Fixpoint insert_desc (x : A) (l : list A) : list A :=
  match l with
  | [] => [x]
  | y :: l' => if Z.ltb (key x) (key y) then y :: insert_desc x l' else x :: l
  end.

Definition sort_reverse (l : list A) : list A := fold_right insert_desc [] l.
End Sort.

Section Prober.
Context {sigma : Type} `{Page sigma}.

(** Strategy 1: the scripted evaluation; the list that it appends. *)
Definition js_results (page : sigma) (field_name : string)
  : list strategy_result :=
  match js_strategies field_name with
  | None => []
  | Some js =>
      match evaluate page ("() => { return " ++ js ++ "; }") with
      | EvalRaised => []
      | EvalValue result =>
          if js_truthy result
             && Nat.ltb 10 (String.length (PyStr.strip (py_str result)))
          then
            [ mkResult javascript_evaluation (Some js) None true
                (PyStr.take 200 (py_str result))
                (String.length (py_str result))
                (if Nat.ltb 100 (String.length (py_str result))
                 then high else medium) ]
          else []
      end
  end.

(** Strategy 2: one pass of the loop over the selectors. *)
Definition css_result (page : sigma) (sel : string) : list strategy_result :=
  match wait_for_selector page sel 3000 with
  | Element =>
      match text_content page sel with
      | Text (Some text) =>
          if PyStr.truthy text
             && Nat.ltb 10 (String.length (PyStr.strip text))
          then
            [ mkResult css_selector None (Some sel) true
                (PyStr.take 200 text)
                (String.length text)
                (if Nat.ltb 50 (String.length text) then medium else low) ]
          else []
      | _ => []
      end
  | _ => []
  end.

Fixpoint css_results (page : sigma) (selectors : list string)
  : list strategy_result :=
  match selectors with
  | [] => []
  | sel :: rest => css_result page sel ++ css_results page rest
  end.

(** The list [results] before it is sorted: discovery order. *)
Definition discovered (page : sigma) (field_name : string)
  : list strategy_result :=
  js_results page field_name ++ css_results page (css_selectors field_name).

Definition test_extraction_strategies (page : sigma) (field_name : string)
  : list strategy_result :=
  sort_reverse sort_key (discovered page field_name).

(** *** [test_show_more_button] *)

(** The returned dict; a key that is not set is [None]. *)
Record show_more : Type := mkShowMore {
  needed : bool;
  sm_selector : option string;
  before_length : option Z;
  after_length : option Z;
  impact : option string;
  sm_strategy : option string
}.

Definition button_selectors : list string :=
  [ "button[aria-expanded='false']";
    "button:has-text('Show more')";
    ".show-more-less-html__button--more";
    "button[data-tracking-control-name*='show-more']" ].

(** The loop over [button_selectors]: the page after it, and the selector
    that was clicked, if one was. *)
Fixpoint click_first (page : sigma) (selectors : list string)
  : sigma * option string :=
  match selectors with
  | [] => (page, None)
  | sel :: rest =>
      match wait_for_selector page sel 2000 with
      | Element =>
          let (page1, clicked_ok) := click page sel in
          if clicked_ok then (wait_for_timeout page1 1500, Some sel)
          else click_first page1 rest
      | _ => click_first page rest
      end
  end.

Definition arrow : string := of_bytes [226; 128; 154; 195; 156; 195; 173].

Definition test_show_more_button (page : sigma) : sigma * show_more :=
  match evaluate_length page with
  | None => (page, mkShowMore false None None None None None)
  | Some desc_before =>
      match click_first page button_selectors with
      | (page1, None) =>
          (page1, mkShowMore false None (Some desc_before) None None None)
      | (page1, Some clicked_selector) =>
          let desc_after :=
            match evaluate_length page1 with
            | Some n => n
            | None => desc_before
            end in
          (page1,
           mkShowMore true (Some clicked_selector)
             (Some desc_before) (Some desc_after)
             (Some (PyStr.of_Z desc_before ++ " " ++ arrow ++ " "
                    ++ PyStr.of_Z desc_after ++ " chars (+"
                    ++ PyStr.of_Z (desc_after - desc_before)%Z ++ ")"))
             (Some ("Click " ++ clicked_selector ++ " before extraction")))
      end
  end.
End Prober.

(** *** The host: sub-processes, files, the code-synthesis service, and
    Python's own parser and compiler

    [W] is the state of everything outside the program.  The operations
    are those of the calls the code makes; each returns as the call does
    when it does not raise, [subprocess.run] also returns its
    [TimeoutExpired], and the two calls of the fix request that no handler
    guards, the read of the script and the call of the service, also
    return what they raise. *)

Inductive run_outcome : Type :=
| TimeoutExpired
| Completed (returncode : Z) (stderr : string).

(** The exceptions that leave [request_fix_from_ai],
    [validate_generated_script] and [run_generation_mode] without a
    handler: the [KeyError] of [strategy['code']], the [OSError] of the
    [open] of a script that cannot be read, and whatever the call of the
    service raises. *)
Inductive exception : Type :=
| KeyError (key : string)
| OSError (message : string)
| ServiceError (message : string).

(** [str(e)] *)
Definition str (e : exception) : string :=
  match e with
  | KeyError key => "'" ++ key ++ "'"
  | OSError message => message
  | ServiceError message => message
  end.

(** What [ast.walk] finds in a parsed module: the names of its
    [FunctionDef] nodes, and its import nodes in walk order. *)
Inductive import_node : Type :=
| Import (alias_names : list string)
| ImportFrom (module : option string).

Record module_ast : Type := mkAst {
  function_defs : list string;
  import_nodes : list import_node
}.

Inductive parse_outcome : Type :=
| SyntaxError (msg : string) (lineno : Z)
| Parsed (tree : module_ast).

(** The keys of the discovery log that the generation mode reads; the
    tested strategies feed the text of the requests, and the loops that
    read them raise when a strategy that they take has no code. *)
Record discovery_log : Type := mkLog {
  log_site : option string;
  log_url : option string;
  log_job_id : option string;
  tested_strategies : list (string * list strategy_result)
}.

Class Host (W : Type) : Type := {
  (* [subprocess.run([sys.executable, script_path, url], ..., timeout=90)] *)
  subprocess_run : W -> string -> string -> W * run_outcome;
  (* [list(Path("job_descriptions").glob(pattern))] *)
  glob_job_descriptions : W -> string -> list string;
  (* [open(path, 'r').read()] of an output file that the glob has just
     listed, and [open(path, 'w').write(text)] *)
  read_file : W -> string -> string;
  write_file : W -> string -> string -> W;
  (* [open(script_path, 'r').read()] in the fix request: the text of the
     script, or the message of the [OSError] when it cannot be read *)
  read_script : W -> string -> string + string;
  (* [script_path.chmod(mode)] *)
  chmod : W -> string -> Z -> W;
  (* [load_discovery_log(path)] *)
  load_discovery_log : W -> string -> discovery_log;
  (* the code block taken from the service's reply to the fix request
     built from the broken script, the error message and the log, or the
     message of the exception when the call of the service raises *)
  fix_reply : W -> string -> string -> discovery_log -> W * (string + string);
  (* the code block taken from the service's reply to the generation
     request built for a site from the log and its code snippets *)
  generation_reply : W -> JobSite -> discovery_log -> W * string;
  (* [ast.parse(code)] *)
  ast_parse : string -> parse_outcome;
  (* [compile(code, '<generated>', 'exec')]: the message and line of its
     [SyntaxError], if it raises one *)
  py_compile : string -> option (string * Z)
}.

Definition shebang : string := "#!/usr/bin/env python3" ++ PyStr.newline.

(** [f"*{job_id}*"] *)
Definition glob_pattern (job_id : option string) : string :=
  "*" ++ match job_id with Some j => j | None => "None" end ++ "*".

(** The content test of the validation loop. *)
Definition content_sufficient (content : string) : bool :=
  Nat.ltb 500 (String.length content)
  && (PyStr.contains "About" content
      || PyStr.contains "responsibilities" (PyStr.lower content)
      || PyStr.contains "description" (PyStr.lower content)).

(** One pass of the loop body up to its verdict: either the content test
    passes, or the pass fails with the error text handed to the fix
    request and the issues returned when no attempt is left. *)
Inductive attempt_verdict : Type :=
| AttemptPassed
| AttemptFailed (fix_signal : string) (issues : list string).

(** How the call ends: with the exception that leaves it, or with the
    returned pair [(success, issues)]; with the state the loop leaves and
    the verdicts of the passes that were run, in order. *)
Record validation_run (W : Type) : Type := mkRun {
  world : W;
  outcome : exception + bool * list string;
  verdicts : list attempt_verdict
}.
Arguments mkRun {W}.
Arguments world {W}.
Arguments outcome {W}.
Arguments verdicts {W}.

(** The two parts of the returned pair; a call that raises returns
    neither success nor issues. *)
Definition passed {W : Type} (r : validation_run W) : bool :=
  match outcome r with
  | inr (success, _) => success
  | inl _ => false
  end.

Definition run_issues {W : Type} (r : validation_run W) : list string :=
  match outcome r with
  | inr (_, issues) => issues
  | inl _ => []
  end.

(** The exception that left the call, if one did. *)
Definition raised {W : Type} (r : validation_run W) : option exception :=
  match outcome r with
  | inl e => Some e
  | inr _ => None
  end.

Definition attempts {W : Type} (r : validation_run W) : nat :=
  List.length (verdicts r).

Definition failed_verdict (v : attempt_verdict) : Prop :=
  match v with
  | AttemptFailed _ _ => True
  | AttemptPassed => False
  end.

(** The issues that a failed pass would return. *)
Definition issues_of (v : attempt_verdict) : list string :=
  match v with
  | AttemptFailed _ issues => issues
  | AttemptPassed => []
  end.

(** *** The scripts taken from the tested strategies of a log

    [request_fix_from_ai] and [run_generation_mode] both run the loop
    [for field, strategies in tested_strategies.items()], in which the
    first strategy of a field that passes a test gives the entry
    [strategy['code']] of the field, and a strategy without the key
    [code] raises [KeyError]. *)

Definition is_js (st : strategy_result) : bool :=
  match strategy st with
  | javascript_evaluation => true
  | css_selector => false
  end.

(** The inner loop: the code of the first strategy that passes [test]. *)
Definition first_code (test : strategy_result -> bool)
    (strategies : list strategy_result) : exception + option string :=
  match find test strategies with
  | Some st =>
      match code st with
      | Some c => inr (Some c)
      | None => inl (KeyError "code")
      end
  | None => inr None
  end.

(** The outer loop: the dict that it builds, in insertion order. *)
Fixpoint collect_codes (test : strategy_result -> bool)
    (tested : list (string * list strategy_result))
  : exception + list (string * string) :=
  match tested with
  | [] => inr []
  | (field, strategies) :: rest =>
      match first_code test strategies with
      | inl e => inl e
      | inr entry =>
          match collect_codes test rest with
          | inl e => inl e
          | inr snippets =>
              inr match entry with
                  | Some c => (field, c) :: snippets
                  | None => snippets
                  end
          end
      end
  end.

(** The test of the generation mode: a scripted evaluation, of high
    confidence when [only_high] is set. *)
Definition snippet_test (only_high : bool) (st : strategy_result) : bool :=
  is_js st && (negb only_high || tier_eqb (confidence st) high).

Definition pick_snippet (only_high : bool) (strategies : list strategy_result)
  : exception + option string :=
  first_code (snippet_test only_high) strategies.

(** [js_code_snippets] of [run_generation_mode], by its first loop
    ([only_high]) and by its fall-back loop. *)
Definition js_code_snippets (only_high : bool)
    (tested : list (string * list strategy_result))
  : exception + list (string * string) :=
  collect_codes (snippet_test only_high) tested.

(** [working_js] of [request_fix_from_ai]: the test is a scripted
    evaluation that is marked as a success. *)
Definition working_js (tested : list (string * list strategy_result))
  : exception + list (string * string) :=
  collect_codes (fun st => is_js st && success st) tested.

Section Validation.
Context {W : Type} `{Host W}.

Definition run_attempt (w : W) (script_path test_url : string)
  : W * attempt_verdict :=
  let (w1, result) := subprocess_run w script_path test_url in
  match result with
  | TimeoutExpired =>
      let error_msg := "Script execution timeout (90s)" in
      (w1, AttemptFailed error_msg [error_msg])
  | Completed returncode stderr =>
      if negb (Z.eqb returncode 0) then
        let error_msg :=
          "Script failed with exit code " ++ PyStr.of_Z returncode in
        (w1, AttemptFailed stderr [error_msg; PyStr.take 500 stderr])
      else
        let job_id := extract_job_id test_url None in
        match glob_job_descriptions w1 (glob_pattern job_id) with
        | [] =>
            let error_msg := "No output file generated" in
            (w1, AttemptFailed error_msg [error_msg])
        | output_file :: _ =>
            let content := read_file w1 output_file in
            if content_sufficient content then (w1, AttemptPassed)
            else
              let error_msg :=
                "Output too short ("
                ++ PyStr.of_nat (String.length content)
                ++ " chars) or missing key content" in
              (w1, AttemptFailed error_msg [error_msg])
        end
  end.

(** [request_fix_from_ai]: reads the broken script, lists the working
    scripts of the log and asks the service for a fix.  Each of the three
    steps can raise, and nothing in the function or in the loop that calls
    it handles what they raise. *)
Definition request_fix_from_ai (w : W) (script_path error_message : string)
    (log : discovery_log) : W * (exception + string) :=
  match read_script w script_path with
  | inl message => (w, inl (OSError message))
  | inr broken_script =>
      match working_js (tested_strategies log) with
      | inl e => (w, inl e)
      | inr _ =>
          match fix_reply w broken_script error_message log with
          | (w1, inl message) => (w1, inl (ServiceError message))
          | (w1, inr fixed_script) => (w1, inr fixed_script)
          end
      end
  end.

(** The loop [for attempt in range(1, max_attempts + 1)]; [fuel] counts
    the passes that are left, [done] holds the verdicts so far. *)
Fixpoint validation_loop (fuel : nat) (attempt max_attempts : Z)
    (done : list attempt_verdict)
    (w : W) (script_path test_url : string) (log : discovery_log)
  : validation_run W :=
  match fuel with
  | O => mkRun w (inr (false, ["Validation failed after all attempts"])) done
  | S fuel' =>
      let (w1, verdict) := run_attempt w script_path test_url in
      match verdict with
      | AttemptPassed => mkRun w1 (inr (true, [])) (List.app done [verdict])
      | AttemptFailed fix_signal issues =>
          if Z.ltb attempt max_attempts then
            match request_fix_from_ai w1 script_path fix_signal log with
            | (w2, inl e) => mkRun w2 (inl e) (List.app done [verdict])
            | (w2, inr fixed_script) =>
                let w3 := write_file w2 script_path (shebang ++ fixed_script) in
                validation_loop fuel' (attempt + 1) max_attempts
                  (List.app done [verdict]) w3 script_path test_url log
            end
          else mkRun w1 (inr (false, issues)) (List.app done [verdict])
      end
  end.

Definition validate_generated_script (w : W) (script_path test_url : string)
    (log : discovery_log) (max_attempts : Z) : validation_run W :=
  validation_loop (Z.to_nat max_attempts) 1 max_attempts []
    w script_path test_url log.

(** A run from [w] that exits with code 0 and leaves an output file of
    [n] characters. *)
Definition leaves_output (script_path test_url : string) (n : nat) (w : W)
  : Prop :=
  exists w1 stderr output_file others,
    subprocess_run w script_path test_url = (w1, Completed 0 stderr)
    /\ glob_job_descriptions w1 (glob_pattern (extract_job_id test_url None))
       = output_file :: others
    /\ String.length (read_file w1 output_file) = n.
End Validation.

(** *** Multi-job testing: [validate_scraper_multi_job] *)

Definition TEST_URLS (s : JobSite) : list string :=
  match s with
  | LINKEDIN => ["https://www.linkedin.com/jobs/view/4305267405"]
  | INDEED =>
      ["https://www.indeed.com/viewjob?jk=ee188e8f304a1b67&from=shareddesktop_copy"]
  | GLASSDOOR => []
  end.

Record test_result : Type := mkTest {
  tr_url : string;
  tr_job_id : option string;
  tr_success : bool;
  output_file : option string;
  description_length : nat;
  error : option string
}.

(** Python's [float] is IEEE binary64: 53 bits of precision, exponents
    below 1024, rounding to nearest, ties to even.  An [int] that takes
    part in float arithmetic is converted first; the counts of a test run
    are far below 2^53, so they convert exactly, and the quotient of two
    such [int]s is the correctly rounded quotient of their floats. *)
Definition binary64_of_Z (z : Z) : spec_float :=
  binary_normalize 53 1024 z 0 false.

(** [a / b] on integers: [None] is [ZeroDivisionError]. *)
Definition truediv (a b : Z) : option spec_float :=
  if Z.eqb b 0 then None
  else Some (SFdiv 53 1024 (binary64_of_Z a) (binary64_of_Z b)).

(** [x * 100] for a float [x]. *)
Definition times_100 (x : spec_float) : spec_float :=
  SFmul 53 1024 x (binary64_of_Z 100).

(** [sum(1 for r in results if r["success"])] *)
Definition count_successful (results : list test_result) : Z :=
  Z.of_nat (List.length (filter tr_success results)).

(** [(successful / len(results)) * 100 if results else 0.0] *)
Definition success_rate_of (results : list test_result) : option spec_float :=
  match results with
  | [] => Some (S754_zero false)
  | _ =>
      match truediv (count_successful results)
                    (Z.of_nat (List.length results)) with
      | Some q => Some (times_100 q)
      | None => None
      end
  end.

(** The formula of the specification, [passed / total * 100], on two
    counts, each step rounded as binary64 rounds it. *)
Definition success_rate_binary64 (successful total : Z) : spec_float :=
  SFmul 53 1024
    (SFdiv 53 1024 (binary64_of_Z successful) (binary64_of_Z total))
    (binary64_of_Z 100).

(** The number of the results that passed, counted as the specification
    counts them: one for each result whose mark of success is set. *)
Fixpoint passed_count (results : list test_result) : nat :=
  match results with
  | [] => 0
  | r :: rest => (if tr_success r then 1 else 0) + passed_count rest
  end.

Section MultiJob.
Context {W : Type} `{Host W}.

(** One pass of the loop over the test urls. *)
Definition test_one (w : W) (script_path : string) (s : JobSite)
    (url : string) : W * test_result :=
  let job_id := extract_job_id url (Some s) in
  let (w1, proc_result) := subprocess_run w script_path url in
  match proc_result with
  | TimeoutExpired =>
      (w1, mkTest url job_id false None 0 (Some "Timeout (90s)"))
  | Completed returncode stderr =>
      if Z.eqb returncode 0 then
        match glob_job_descriptions w1 (glob_pattern job_id) with
        | output_file :: _ =>
            let content := read_file w1 output_file in
            if Nat.ltb 500 (String.length content) then
              (w1, mkTest url job_id true (Some output_file)
                     (String.length content) None)
            else
              (w1, mkTest url job_id false (Some output_file)
                     (String.length content)
                     (Some ("Output too short ("
                            ++ PyStr.of_nat (String.length content)
                            ++ " chars)")))
        | [] =>
            (w1, mkTest url job_id false None 0
                   (Some "No output file generated"))
        end
      else
        (w1, mkTest url job_id false None 0
               (Some ("Exit code " ++ PyStr.of_Z returncode ++ ": "
                      ++ PyStr.take 200 stderr)))
  end.

Fixpoint test_each (w : W) (script_path : string) (s : JobSite)
    (urls : list string) : W * list test_result :=
  match urls with
  | [] => (w, [])
  | url :: rest =>
      let (w1, r) := test_one w script_path s url in
      let (w2, rs) := test_each w1 script_path s rest in
      (w2, r :: rs)
  end.

(** The result is [None] if the rate computation raises. *)
Definition validate_scraper_multi_job (w : W) (script_path : string)
    (s : JobSite) (test_urls : option (list string))
  : W * option (spec_float * list test_result) :=
  let test_urls :=
    match test_urls with
    | None => TEST_URLS s
    | Some l => l
    end in
  match test_urls with
  | [] => (w, Some (S754_zero false, []))
  | _ =>
      let (w1, results) := test_each w script_path s test_urls in
      match success_rate_of results with
      | Some success_rate => (w1, Some (success_rate, results))
      | None => (w1, None)
      end
  end.
End MultiJob.

(** *** Code generation: [validate_python_syntax],
    [validate_script_structure], [run_generation_mode] *)

Section Generation.
Context {W : Type} `{Host W}.

Definition validate_python_syntax (code : string) : bool * option string :=
  match ast_parse code with
  | Parsed _ => (true, None)
  | SyntaxError msg lineno =>
      (false, Some ("Syntax error at line " ++ PyStr.of_Z lineno ++ ": " ++ msg))
  end.

(** A text is valid Python source when [ast.parse] and [compile] both
    accept it. *)
Definition valid_python_source (code : string) : bool :=
  match ast_parse code, py_compile code with
  | Parsed _, None => true
  | _, _ => false
  end.

(** The set [required_functions]; the text of the issue lists the missing
    names in this order. *)
Definition required_functions : list string :=
  [ "sanitize_filename"; "extract_job_id"; "scrape_linkedin_job";
    "format_job_description"; "main" ].

Definition mentions_ai (name : string) : bool :=
  PyStr.contains "anthropic" (PyStr.lower name)
  || PyStr.contains "mcp" (PyStr.lower name).

Definition import_issues (n : import_node) : list string :=
  match n with
  | Import alias_names =>
      map (fun a => "Generated script should not import AI libraries: " ++ a)
          (filter mentions_ai alias_names)
  | ImportFrom (Some m) =>
      if PyStr.truthy m && mentions_ai m
      then ["Generated script should not import AI libraries: " ++ m]
      else []
  | ImportFrom None => []
  end.

Definition validate_script_structure (code : string) : bool * list string :=
  match ast_parse code with
  | Parsed tree =>
      let found_functions := function_defs tree in
      let missing :=
        filter (fun f => negb (existsb (String.eqb f) found_functions))
               required_functions in
      let missing_issue :=
        match missing with
        | [] => []
        | _ => ["Missing required functions: " ++ PyStr.join ", " missing]
        end in
      let issues :=
        List.app missing_issue (flat_map import_issues (import_nodes tree)) in
      (match issues with [] => true | _ => false end, issues)
  | SyntaxError msg lineno =>
      (false, ["Syntax error: " ++ msg ++ " at line " ++ PyStr.of_Z lineno])
  end.

(** The calls of [logging.warning] in the generation mode. *)
Inductive warning : Type :=
| NoHighConfidenceStrategies
| FragileSelectorLoops
| StructureIssues (issues : list string)
| NoTestUrl.

(** The snippets that go into the request: those of the first loop, or,
    when it leaves the dict empty, the warning and the snippets of the
    fall-back loop.  Either loop can raise the [KeyError]. *)
Definition prompt_snippets (tested : list (string * list strategy_result))
  : list warning * (exception + list (string * string)) :=
  match js_code_snippets true tested with
  | inl e => ([], inl e)
  | inr [] => ([NoHighConfidenceStrategies], js_code_snippets false tested)
  | inr snippets => ([], inr snippets)
  end.

(** The site that the generation mode works for; [inl] is the message
    of the [ValueError]. *)
Definition resolve_site (log : discovery_log) (site : option JobSite)
  : string + JobSite :=
  match site with
  | Some s => inr s
  | None =>
      match log_site log with
      | Some site_name =>
          if PyStr.truthy site_name then
            match JobSite_of_value site_name with
            | Some s => inr s
            | None => inl ("'" ++ site_name ++ "' is not a valid JobSite")
            end
          else
            match log_url log with
            | Some url =>
                if PyStr.truthy url then detect_job_site url
                else inl "Cannot determine site from discovery log"
            | None => inl "Cannot determine site from discovery log"
            end
      | None =>
          match log_url log with
          | Some url =>
              if PyStr.truthy url then detect_job_site url
              else inl "Cannot determine site from discovery log"
          | None => inl "Cannot determine site from discovery log"
          end
      end
  end.

(** The checks between the reply and the write of the script: the
    warnings that they log, and the message of the [ValueError] if one of
    them raises. *)
Definition check_generated_script (generated_script : string)
  : list warning * option string :=
  match validate_python_syntax generated_script with
  | (false, err) =>
      ([], Some ("Generated script validation failed: "
                 ++ match err with Some e => e | None => "None" end))
  | (true, _) =>
      if negb (PyStr.contains "page.evaluate(" generated_script) then
        ([], Some "Generated script must use page.evaluate() pattern")
      else
        let w1 :=
          if PyStr.contains "page.wait_for_selector(" generated_script
             && PyStr.contains "for selector in" generated_script
          then [FragileSelectorLoops] else [] in
        let w2 :=
          match validate_script_structure generated_script with
          | (false, issues) => [StructureIssues issues]
          | (true, _) => []
          end in
        (List.app w1 w2,
         match py_compile generated_script with
         | Some (msg, lineno) =>
             Some ("Generated script has syntax error: " ++ msg
                   ++ " at line " ++ PyStr.of_Z lineno)
         | None => None
         end)
  end.

Record generation : Type := mkGeneration {
  gen_world : W;
  (* the warnings logged, in order *)
  warnings : list warning;
  (* the path and text of the script, once the script was written *)
  artifact : option (string * string);
  (* the returned path, or the message of the exception that leaves the
     call: a [ValueError] of the function, or [str(e)] of what its loops
     over the strategies or the validation loop raise *)
  returned : string + string
}.

Definition run_generation_mode (w : W) (discovery_log_path : string)
    (site : option JobSite) : generation :=
  let log := load_discovery_log w discovery_log_path in
  match resolve_site log site with
  | inl e => mkGeneration w [] None (inl e)
  | inr s =>
      match log_job_id log with
      | None => mkGeneration w [] None (inl "Discovery log missing job_id field")
      | Some job_id =>
          if negb (PyStr.truthy job_id) then
            mkGeneration w [] None (inl "Discovery log missing job_id field")
          else
            let (w0, snippets) := prompt_snippets (tested_strategies log) in
            match snippets with
            | inl e => mkGeneration w w0 None (inl (str e))
            | inr _ =>
            let (w1, generated_script) := generation_reply w s log in
            let (ws, refused) := check_generated_script generated_script in
            let logged := List.app w0 ws in
            match refused with
            | Some e => mkGeneration w1 logged None (inl e)
            | None =>
                let script_path :=
                  "generated_scripts/" ++ value s ++ "_scraper.py" in
                let text := shebang ++ generated_script in
                let w2 := write_file w1 script_path text in
                let w3 := chmod w2 script_path 493 in
                match log_url log with
                | Some test_url =>
                    if PyStr.truthy test_url then
                      let r :=
                        validate_generated_script w3 script_path test_url log 3 in
                      match raised r with
                      | Some e =>
                          mkGeneration (world r) logged (Some (script_path, text))
                            (inl (str e))
                      | None =>
                      if passed r then
                        mkGeneration (world r) logged (Some (script_path, text))
                          (inr script_path)
                      else
                        mkGeneration (world r) logged (Some (script_path, text))
                          (inl ("Generated script validation failed: "
                                ++ PyStr.join ", " (run_issues r)))
                      end
                    else
                      mkGeneration w3 (List.app logged [NoTestUrl])
                        (Some (script_path, text)) (inr script_path)
                | None =>
                    mkGeneration w3 (List.app logged [NoTestUrl])
                      (Some (script_path, text)) (inr script_path)
                end
            end
            end
      end
  end.
End Generation.

End AiParser.

(** ** A scripted host, to run the scenarios

    The state holds the outcomes of the runs still to come, each with the
    text of the output file that the run leaves (if it leaves one), the
    discovery log on disk, the reply of the code-synthesis service, what
    Python's parser finds in a script, and the files written so far. *)

Module Sim.
Import AiParser.

Record state : Type := mkState {
  pending : list (run_outcome * option string);
  output : option string;
  log : discovery_log;
  reply : string;
  written : list (string * string)
}.

Definition run (w : state) : state * run_outcome :=
  match pending w with
  | [] => (w, TimeoutExpired)
  | (o, out) :: rest => (mkState rest out (log w) (reply w) (written w), o)
  end.

Definition write (w : state) (path text : string) : state :=
  mkState (pending w) (output w) (log w) (reply w) ((path, text) :: written w).

(** The text of the file at [path]: that of its latest write. *)
Fixpoint lookup (path : string) (files : list (string * string))
  : option string :=
  match files with
  | [] => None
  | (p, text) :: rest => if String.eqb p path then Some text else lookup path rest
  end.

(** A script that was never written cannot be opened. *)
Definition read (w : state) (path : string) : string + string :=
  match lookup path (written w) with
  | Some text => inr text
  | None => inl ("[Errno 2] No such file or directory: '" ++ path ++ "'")
  end.

(** The parser of the scripted host accepts every text and finds the
    definition of [f] where the text has [def f(]. *)
Definition parse (code : string) : parse_outcome :=
  Parsed (mkAst (filter (fun f => PyStr.contains ("def " ++ f ++ "(") code)
                   [ "sanitize_filename"; "extract_job_id";
                     "scrape_linkedin_job"; "format_job_description";
                     "main" ])
            []).

(** Its compiler refuses a text that starts with a [return] statement, as
    Python's does ("'return' outside function"), and accepts the rest. *)
Definition compile (code : string) : option (string * Z) :=
  if prefix "return " code then Some ("'return' outside function", 1%Z)
  else None.

#[global] Instance host : Host state := {
  subprocess_run w _ _ := run w;
  glob_job_descriptions w _ :=
    match output w with
    | Some _ => ["job_descriptions/output.txt"]
    | None => []
    end;
  read_file w _ := match output w with Some c => c | None => "" end;
  write_file := write;
  read_script := read;
  chmod w _ _ := w;
  load_discovery_log w _ := log w;
  fix_reply w _ _ _ := (w, inr (reply w));
  generation_reply w _ _ := (w, reply w);
  ast_parse := parse;
  py_compile := compile
}.

(** A text of [n] characters [x] after [header]. *)
Definition padded (header : string) (n : nat) : string :=
  header ++ string_of_list_ascii (repeat "x"%char n).

Definition empty_log : discovery_log := mkLog None None None [].

(** A document: what each script evaluates to, the text of the element
    that each selector finds (no entry: the wait times out), the length of
    the description (none: the measuring call raises), the selectors of
    the buttons that can be clicked, and the length of the description
    once a button was clicked. *)
Record doc : Type := mkDoc {
  eval_result : string -> eval_outcome;
  element_text : string -> option (option string);
  description_chars : option Z;
  buttons : list string;
  expanded_chars : option Z
}.

#[global] Instance page : Page doc := {
  evaluate d script := eval_result d script;
  evaluate_length d := description_chars d;
  wait_for_selector d sel _ :=
    if existsb (String.eqb sel) (buttons d) then Element
    else match element_text d sel with
         | Some _ => Element
         | None => LocateRaised
         end;
  text_content d sel :=
    match element_text d sel with
    | Some t => Text t
    | None => TextRaised
    end;
  click d sel :=
    (mkDoc (eval_result d) (element_text d) (expanded_chars d) (buttons d)
       (expanded_chars d), true);
  wait_for_timeout d _ := d
}.

(** Scenario C: the title expression evaluates to a text of 150
    characters, and the selector [h1] finds the same text. *)
Definition title_150 : string := padded "" 150.

Definition scenario_C : doc :=
  mkDoc (fun _ => EvalValue (JStr title_150))
        (fun sel => if String.eqb sel "h1" then Some (Some title_150) else None)
        (Some 0%Z) [] None.

(** A description of 1000 characters with a button that expands
    nothing. *)
Definition idle_button : doc :=
  mkDoc (fun _ => EvalRaised) (fun _ => None)
        (Some 1000%Z) ["button[aria-expanded='false']"] (Some 1000%Z).

(** A host without state: every run ends the same way and leaves the same
    output file, the script can always be read and the service always
    answers. *)
Definition steady (o : run_outcome) (out : option string) : Host unit := {|
  subprocess_run := fun w _ _ => (w, o);
  glob_job_descriptions := fun _ _ =>
    match out with
    | Some _ => ["job_descriptions/output.txt"]
    | None => []
    end;
  read_file := fun _ _ => match out with Some c => c | None => "" end;
  write_file := fun w _ _ => w;
  read_script := fun _ _ => inr "page.evaluate('1')";
  chmod := fun w _ _ => w;
  load_discovery_log := fun _ _ => empty_log;
  fix_reply := fun w _ _ _ => (w, inr "page.evaluate('1')");
  generation_reply := fun w _ _ => (w, "page.evaluate('1')");
  ast_parse := parse;
  py_compile := compile
|}.

(** A script with the five required functions; it returns the job id
    4300362234 whatever the url is. *)
Definition script_with_fixed_id : string :=
  "def sanitize_filename(t): return t" ++ PyStr.newline
  ++ "def extract_job_id(u): return '4300362234'" ++ PyStr.newline
  ++ "def scrape_linkedin_job(page): return page.evaluate('1')" ++ PyStr.newline
  ++ "def format_job_description(d): return d" ++ PyStr.newline
  ++ "def main(): pass" ++ PyStr.newline.

(** A script of one statement, a [return] outside of any function. *)
Definition script_with_stray_return : string := "return page.evaluate('1')".

(** A host on whose disk the log names [site_name] as the site of the
    LinkedIn posting 4300362234 and holds one tested strategy of high
    confidence, whose service replies with [script], and where a script,
    run once, leaves a long output. *)
Definition generation_setup (site_name script : string) : state :=
  mkState [ (Completed 0 "", Some (padded "About the job" 600)) ]
          None
          (mkLog (Some site_name)
                 (Some "https://www.linkedin.com/jobs/view/4300362234")
                 (Some "4300362234")
                 [ ("title",
                    [ mkResult javascript_evaluation
                        (Some "document.querySelector('h1')?.textContent?.trim()")
                        None true (padded "" 150) 150 high ]) ])
          script [].

(** A log in which the scripted strategy of the title is marked as a
    success and carries no code. *)
Definition log_without_code : discovery_log :=
  mkLog (Some "linkedin")
        (Some "https://www.linkedin.com/jobs/view/4300362234")
        (Some "4300362234")
        [ ("title",
           [ mkResult javascript_evaluation None None true (padded "" 150) 150
               high ]) ].

(** The same host with a log whose scripted strategy of the title has no
    code. *)
Definition setup_without_code : state :=
  mkState [ (Completed 0 "", Some (padded "About the job" 600)) ]
          None log_without_code script_with_fixed_id [].

(** A host with the runs still to come, and on whose disk the generated
    LinkedIn script is. *)
Definition start (runs : list (run_outcome * option string)) : state :=
  mkState runs None empty_log "page.evaluate('1')"
          [ ("generated_scripts/linkedin_scraper.py",
             shebang ++ "page.evaluate('1')") ].

(** Twenty-five runs, of which the first seven leave a long output and
    the others exit with code 1, and the urls of twenty-five postings. *)
Definition seven_passes_of_25 : list (run_outcome * option string) :=
  (repeat (Completed 0 "", Some (padded "About the job" 600)) 7
   ++ repeat (Completed 1 "Traceback", None) 18)%list.

Definition urls_25 : list string :=
  map (fun n => "https://www.linkedin.com/jobs/view/" ++ PyStr.of_nat n)
      (seq 1 25).

End Sim.

(** ** [sanitize_filename], of [ai_parser.py] and of [linkedin_job_scraper.py] *)

Module Filename.

Definition hyphen : ascii := "-"%char.

Definition is_hyphen (c : ascii) : bool := Ascii.eqb c hyphen.

(** The set of the first substitution: the characters < > : / \ | ? * and
    the double quote. *)
Definition forbidden (c : ascii) : bool :=
  existsb (Ascii.eqb c)
    [ "<"%char; ">"%char; ":"%char; ascii_of_nat 34; "/"%char; "\"%char;
      "|"%char; "?"%char; "*"%char ].

(** The first substitution: each character of the set becomes a hyphen. *)
Fixpoint replace_forbidden (s : string) : string :=
  match s with
  | EmptyString => EmptyString
  | String c s' =>
      String (if forbidden c then hyphen else c) (replace_forbidden s')
  end.

(** [re.sub(r'X+', '-', text)] for a class [X] of characters: every maximal
    run of characters of the class becomes one hyphen.  [in_run] tells that
    the character before was of the class. *)
Fixpoint sub_runs (cls : ascii -> bool) (in_run : bool) (s : string) : string :=
  match s with
  | EmptyString => EmptyString
  | String c s' =>
      if cls c then
        if in_run then sub_runs cls true s'
        else String hyphen (sub_runs cls true s')
      else String c (sub_runs cls false s')
  end.

(** [text.lstrip(chars)], [text.rstrip(chars)] and [text.strip(chars)] *)
Fixpoint lstrip_by (cls : ascii -> bool) (s : string) : string :=
  match s with
  | EmptyString => EmptyString
  | String c s' => if cls c then lstrip_by cls s' else s
  end.

Fixpoint rstrip_by (cls : ascii -> bool) (s : string) : string :=
  match s with
  | EmptyString => EmptyString
  | String c s' =>
      match rstrip_by cls s' with
      | EmptyString => if cls c then EmptyString else String c EmptyString
      | r => String c r
      end
  end.

Definition strip_by (cls : ascii -> bool) (s : string) : string :=
  rstrip_by cls (lstrip_by cls s).

Definition sanitize_filename (text : string) : string :=
  let text := replace_forbidden text in
  let text := sub_runs PyStr.is_space false text in
  let text := sub_runs is_hyphen false text in
  let text := strip_by is_hyphen text in
  PyStr.take 100 text.

(** A character that may stand in a file name. *)
Definition safe_char (c : ascii) : bool :=
  negb (forbidden c) && negb (PyStr.is_space c).

(** The first character of a text, if it has one. *)
Definition head (s : string) : option ascii :=
  match s with
  | EmptyString => None
  | String c _ => Some c
  end.

(** The last character of a text, if it has one. *)
Fixpoint last_char (s : string) : option ascii :=
  match s with
  | EmptyString => None
  | String c EmptyString => Some c
  | String _ s' => last_char s'
  end.

(** Two hyphens stand side by side in [s], or [s] starts with a hyphen
    while [prev] tells that a hyphen stands before it. *)
Fixpoint pair_after (prev : bool) (s : string) : bool :=
  match s with
  | EmptyString => false
  | String c s' => (prev && is_hyphen c) || pair_after (is_hyphen c) s'
  end.

End Filename.


(** ** Runs of characters at the head of a text *)

Module Scan.

(** The first character of [s] passes [ok]. *)
Definition head_in (ok : ascii -> bool) (s : string) : bool :=
  match s with
  | String c _ => ok c
  | EmptyString => false
  end.

(** The longest run of [ok] characters at the head of [s], and what
    follows it. *)
Fixpoint leading (ok : ascii -> bool) (s : string) : string :=
  match s with
  | String c s' => if ok c then String c (leading ok s') else EmptyString
  | EmptyString => EmptyString
  end.

Fixpoint trailing (ok : ascii -> bool) (s : string) : string :=
  match s with
  | String c s' => if ok c then trailing ok s' else s
  | EmptyString => EmptyString
  end.

(** The character classes of the job ids: [\d], and [[a-f0-9]] with and
    without [re.IGNORECASE]; and the characters that [strip] leaves. *)
Definition digit : ascii -> bool := Re.atom_matches true Re.Digit.
Definition hex_any_case : ascii -> bool :=
  Re.atom_matches true (Re.OneOf Re.hex_ranges).
Definition hex_lower_case : ascii -> bool :=
  Re.atom_matches false (Re.OneOf Re.hex_ranges).
Definition no_space (c : ascii) : bool := negb (PyStr.is_space c).

End Scan.

(** ** ai_parser.py: the entry of the discovery mode

    [main], for the mode [discover], hands the url to
    [url_utils.normalize_job_url] and goes on with the canonical url, or
    with the url as given when that call raises; it takes the site from
    [--site] or from [detect_job_site]; [run_discovery_mode] then asks
    [extract_job_id] for the job id and raises when there is none. *)

Module Cli.

Definition normalized_url (url : string) : string :=
  match UrlUtils.normalize_job_url url with
  | inr normalized => UrlUtils.canonical_url normalized
  | inl _ => url
  end.

(** What the discovery works with once it starts the browser: the url that
    the page is sent to, the site, and the job id of the log. *)
Record discovery_start : Type := mkStart {
  job_url : string;
  start_site : AiParser.JobSite;
  start_job_id : string
}.

(** [inl] carries the message of the [ValueError] that ends [main]. *)
Definition discover (url : string) (site_arg : option AiParser.JobSite)
  : string + discovery_start :=
  let url := normalized_url url in
  match (match site_arg with
         | Some s => inr s
         | None => AiParser.detect_job_site url
         end) with
  | inl e => inl e
  | inr site =>
      match AiParser.extract_job_id url (Some site) with
      | Some job_id =>
          if PyStr.truthy job_id then inr (mkStart url site job_id)
          else inl ("Could not extract job ID from URL: " ++ url)
      | None => inl ("Could not extract job ID from URL: " ++ url)
      end
  end.

End Cli.

(** ** ai_parser.py: what the discovery mode records

    [run_discovery_mode] probes the four fields of a posting on the page
    that it has loaded, captures a piece of HTML for the fields that have a
    working strategy, asks the service for an analysis, and overwrites the
    keys [job_id], [url] and [tested_strategies] of the analysis with its
    own values; [save_discovery_log] then stamps the site on the log.  The
    page is the state of the document after the navigation; the analysis
    is the object decoded from the reply of the service. *)

Module Discovery.
Import AiParser.

(** The fields of the loop over [['title', 'company', 'location',
    'description']]. *)
Definition discovery_fields : list string :=
  ["title"; "company"; "location"; "description"].

(** The dict [field_selectors] of [capture_html_samples], in insertion
    order. *)
Definition field_selectors : list (string * string) :=
  [ ("title", "h1");
    ("company", "a[data-tracking-control-name*='topcard']");
    ("location", ".topcard__flavor--bullet");
    ("description", "div.show-more-less-html__markup") ].

(** The script that [capture_html_samples] evaluates for a selector. *)
Definition outer_html_script (selector : string) : string :=
  "() => {" ++ PyStr.newline
  ++ "                    const el = document.querySelector('" ++ selector ++ "');"
  ++ PyStr.newline
  ++ "                    return el ? el.outerHTML : null;" ++ PyStr.newline
  ++ "                }".

(** [tested_strategies[field]], if [field in tested_strategies]; the keys
    of the dict are distinct. *)
Fixpoint lookup (field : string) (tested : list (string * list strategy_result))
  : option (list strategy_result) :=
  match tested with
  | [] => None
  | (f, strategies) :: rest =>
      if String.eqb f field then Some strategies else lookup field rest
  end.

(** The end of [run_discovery_mode]: the keys that generation reads, once
    [job_id], [url] and [tested_strategies] are set. *)
Definition complete_log (analysis : discovery_log) (start : Cli.discovery_start)
    (tested : list (string * list strategy_result)) : discovery_log :=
  mkLog (log_site analysis)
        (Some (Cli.job_url start))
        (Some (Cli.start_job_id start))
        tested.

(** [save_discovery_log]: the log with the site stamped on it, and the
    path of the file for the time stamp [now]. *)
Definition save_discovery_log (now : string) (s : JobSite)
    (log_data : discovery_log) (output_dir : string) : discovery_log * string :=
  (mkLog (Some (value s)) (log_url log_data) (log_job_id log_data)
         (tested_strategies log_data),
   output_dir ++ "/" ++ value s ++ "_discovery_" ++ now ++ ".json").

(** What a result of the probe of a field holds, whatever its tier: it is
    marked as a success, its text has more than 10 characters, and it
    names the fixed script of the field or one of its selectors. *)
Definition reported (field : string) (r : strategy_result) : Prop :=
  success r = true
  /\ 10 < length r
  /\ match strategy r with
     | javascript_evaluation =>
         code r = js_strategies field /\ selector r = None
     | css_selector =>
         code r = None
         /\ exists sel, selector r = Some sel /\ In sel (css_selectors field)
     end.

Section OnPage.
Context {sigma : Type} `{Page sigma}.

(** The dict [tested_strategies] that the loop over the fields builds. *)
Definition probe_fields (page : sigma) : list (string * list strategy_result) :=
  map (fun field => (field, test_extraction_strategies page field))
      discovery_fields.

(** One pass of the loop of [capture_html_samples]: the entry that it adds
    to [html_samples], if it adds one.  The slice [html[:500]] of a number
    raises, and the pass catches what it raises. *)
Definition capture_one (page : sigma)
    (tested : list (string * list strategy_result))
    (entry : string * string) : list (string * string) :=
  let (field, selector) := entry in
  match lookup field tested with
  | Some (_ :: _) =>
      match evaluate page (outer_html_script selector) with
      | EvalRaised => []
      | EvalValue html =>
          if js_truthy html then
            match html with
            | JStr text => [(field, PyStr.take 500 text)]
            | _ => []
            end
          else []
      end
  | _ => []
  end.

Definition capture_html_samples (page : sigma)
    (tested : list (string * list strategy_result)) : list (string * string) :=
  flat_map (capture_one page tested) field_selectors.

(** [main], mode [discover], from the url to the log that is saved;
    [page] is the document that the browser shows for the url of the
    discovery. *)
Definition discovered_log (now : string) (url : string)
    (site_arg : option JobSite) (page : sigma) (analysis : discovery_log)
  : string + discovery_log * string :=
  match Cli.discover url site_arg with
  | inl e => inl e
  | inr start =>
      inr (save_discovery_log now (Cli.start_site start)
             (complete_log analysis start (probe_fields page))
             "discovery_logs")
  end.
End OnPage.

End Discovery.

(** ** linkedin_job_scraper.py

    The stock scraper.  The browser is an interface: each operation
    returns the state that it leaves, or nothing when the call raises.
    The run of [scrape_linkedin_job] is returned with the pages that it
    asked the browser for and what it did to the disk, in order: the
    directory that it made, the file that its [open] created or emptied,
    and the text that it wrote.  A write that raises comes after the
    [open], so it leaves the file behind, without the text. *)

Module LinkedinJobScraper.

Definition sanitize_filename : string -> string := Filename.sanitize_filename.

(** Kept by the source for backward compatibility. *)
Definition extract_job_id (url : string) : option string :=
  match Re.search false (Re.lits "/jobs/view/" ++ [Re.GroupPlus Re.Digit])%list
          url with
  | Some m => Re.group1 m
  | None => None
  end.

(** The object that the script of the page returns. *)
Record job_data : Type := mkJob {
  title : string;
  company : string;
  location : string;
  salary : string;
  description : string;
  url : string
}.

(** ['=' * 60] *)
Definition rule : string := string_of_list_ascii (repeat "="%char 60).

Definition format_job_description (d : job_data) : string :=
  "Job Title: " ++ title d ++ PyStr.newline
  ++ "Company: " ++ company d ++ PyStr.newline
  ++ "Location: " ++ location d ++ PyStr.newline
  ++ "Salary: " ++ salary d ++ PyStr.newline
  ++ "URL: " ++ url d ++ PyStr.newline
  ++ PyStr.newline
  ++ rule ++ PyStr.newline
  ++ "JOB DESCRIPTION" ++ PyStr.newline
  ++ rule ++ PyStr.newline
  ++ PyStr.newline
  ++ description d ++ PyStr.newline.

Class Browser (B : Type) : Type := {
  (* [page.goto(url, wait_until='domcontentloaded', timeout=60000)] *)
  goto : B -> string -> option B;
  (* [page.wait_for_selector('h1', timeout=15000)] *)
  wait_for_heading : B -> option B;
  (* [page.wait_for_timeout(ms)] *)
  wait_for_timeout : B -> Z -> option B;
  (* the block that dismisses a modal dialog, which catches what it
     raises, with the sleeps around it *)
  dismiss_modal : B -> B;
  (* [page.evaluate(script)] of the extraction script: the object that it
     returns, or [None] for a value that is not truthy *)
  evaluate_job : B -> option (option job_data);
  (* [Path(output_dir).mkdir(exist_ok=True)] *)
  mkdir : B -> string -> option B;
  (* [open(filepath, 'w', encoding='utf-8')] of the file of a name in a
     directory: once it returns, the file exists and is empty *)
  open_for_writing : B -> string -> string -> option B;
  (* [f.write(text)] and the close of the file at the end of the [with]
     block *)
  write_text : B -> string -> string -> string -> option B
}.

(** What the run does to the world outside: the pages that it visits, the
    directory that it makes, the file that its [open] creates or empties,
    and the text that it writes to the file. *)
Inductive action : Type :=
| Navigate (url : string)
| MakeDir (output_dir : string)
| Truncate (output_dir filename : string)
| Save (output_dir filename text : string).

Record scrape_run (B : Type) : Type := mkScrape {
  browser : B;
  result : option job_data;
  actions : list action
}.
Arguments mkScrape {B}.
Arguments browser {B}.
Arguments result {B}.
Arguments actions {B}.

Definition is_linkedin (s : UrlUtils.JobSite) : bool :=
  match s with UrlUtils.LINKEDIN => true | _ => false end.

Section Scrape.
Context {B : Type} `{Browser B}.

Definition scrape_linkedin_job (b : B) (url output_dir : string)
  : scrape_run B :=
  match UrlUtils.normalize_job_url url with
  | inl _ => mkScrape b None []
  | inr job_url =>
      if negb (is_linkedin (UrlUtils.site job_url)) then mkScrape b None []
      else
        let canonical_url := UrlUtils.canonical_url job_url in
        match goto b canonical_url with
        | None => mkScrape b None [Navigate canonical_url]
        | Some b1 =>
            match (match wait_for_heading b1 with
                   | Some b2 => Some b2
                   | None => wait_for_timeout b1 5000
                   end) with
            | None => mkScrape b1 None [Navigate canonical_url]
            | Some b2 =>
                let b3 := dismiss_modal b2 in
                match evaluate_job b3 with
                | None => mkScrape b3 None [Navigate canonical_url]
                | Some None => mkScrape b3 None [Navigate canonical_url]
                | Some (Some job_data) =>
                    if PyStr.truthy (description job_data) then
                      let formatted_description :=
                        format_job_description job_data in
                      let filename :=
                        sanitize_filename (title job_data) ++ "-"
                        ++ sanitize_filename (company job_data) ++ ".txt" in
                      match mkdir b3 output_dir with
                      | None => mkScrape b3 None [Navigate canonical_url]
                      | Some b4 =>
                          match open_for_writing b4 output_dir filename with
                          | None =>
                              mkScrape b4 None
                                [ Navigate canonical_url; MakeDir output_dir ]
                          | Some b5 =>
                              match write_text b5 output_dir filename
                                      formatted_description with
                              | None =>
                                  mkScrape b5 None
                                    [ Navigate canonical_url;
                                      MakeDir output_dir;
                                      Truncate output_dir filename ]
                              | Some b6 =>
                                  mkScrape b6 (Some job_data)
                                    [ Navigate canonical_url;
                                      MakeDir output_dir;
                                      Truncate output_dir filename;
                                      Save output_dir filename
                                        formatted_description ]
                              end
                          end
                      end
                    else mkScrape b3 None [Navigate canonical_url]
                end
            end
        end
  end.
End Scrape.

End LinkedinJobScraper.

(** ** A scripted browser

    It shows one posting, or none, whatever the url is, and keeps the
    urls it was sent to and the files on its disk, the latest first; it
    can hold a limited number of characters in a file. *)

Module Stage.
Import LinkedinJobScraper.

Record state : Type := mkStage {
  shown : option job_data;
  visited : list string;
  files : list (string * string * string);
  room : nat
}.

#[global] Instance stage_browser : Browser state := {
  goto b u := Some (mkStage (shown b) (u :: visited b) (files b) (room b));
  wait_for_heading b := Some b;
  wait_for_timeout b _ := Some b;
  dismiss_modal b := b;
  evaluate_job b := Some (shown b);
  mkdir b _ := Some b;
  open_for_writing b dir name :=
    Some (mkStage (shown b) (visited b) ((dir, name, "") :: files b) (room b));
  write_text b dir name text :=
    if Nat.leb (String.length text) (room b) then
      Some (mkStage (shown b) (visited b) ((dir, name, text) :: files b)
              (room b))
    else None
}.

Definition posting : job_data :=
  mkJob "Engineering Manager, API Product" "Acme: Labs" "Remote"
        "Not specified" "About the job"
        "https://www.linkedin.com/jobs/view/4300362234".

Definition showing (d : option job_data) : state := mkStage d [] [] 4096.


End Stage.

(** ** What a result of the multi-job harness holds *)

Module Harness.
Import AiParser.

(** The job id of a result is read off its url, and the result is either
    a success, with an output file of more than 500 characters and no
    error, or a failure with the text of its error. *)
Definition well_formed (s : JobSite) (r : test_result) : Prop :=
  tr_job_id r = extract_job_id (tr_url r) (Some s)
  /\ if tr_success r
     then 500 < description_length r /\ output_file r <> None /\ error r = None
     else error r <> None /\ description_length r <= 500.

(** An import node that names no AI library. *)
Definition clean_import (n : import_node) : Prop :=
  match n with
  | Import alias_names => forall a, In a alias_names -> mentions_ai a = false
  | ImportFrom (Some m) => mentions_ai m = false
  | ImportFrom None => True
  end.

End Harness.

(** ** ai_parser.py: [execute_python_code]

    The code is run in a sub-process; [run_code] is the call
    [subprocess.run([sys.executable, '-c', code], capture_output=True,
    text=True, timeout=timeout, cwd=os.getcwd())], which returns the
    completed process, or raises [TimeoutExpired] or another exception.
    The safety check only logs a warning. *)

Module Exec.
Import AiParser.

Inductive exec_outcome : Type :=
| ExecTimeout
| ExecRaised (message : string)
| ExecCompleted (returncode : Z) (stdout stderr : string).

Class Runner (W : Type) : Type := {
  run_code : W -> string -> Z -> W * exec_outcome
}.

(** The returned dict; the key [exit_code] is set on one path only. *)
Record exec_result : Type := mkExec {
  ex_success : bool;
  ex_stdout : string;
  ex_stderr : string;
  ex_exit_code : option Z;
  ex_error : option string
}.

Definition max_output : nat := 10 * 1024.

Definition truncation_mark : string :=
  PyStr.newline ++ "... (output truncated)".

(** [out[:max_output] if out else ""], with the mark appended when
    [len(out) > max_output]. *)
Definition limit_output (out : string) : string :=
  (if PyStr.truthy out then PyStr.take max_output out else "")
  ++ (if Nat.ltb max_output (String.length out) then truncation_mark else "").

(** The state after the call, the dict returned, the warnings logged, and
    the texts handed to the sub-process. *)
Record exec_run (W : Type) : Type := mkExecRun {
  after : W;
  returned_dict : exec_result;
  logged : list string;
  ran : list string
}.
Arguments mkExecRun {W}.
Arguments after {W}.
Arguments returned_dict {W}.
Arguments logged {W}.
Arguments ran {W}.

Section Execute.
Context {W : Type} `{Host W} `{Runner W}.
(** [check_code_safety], whose verdict only reaches the log. *)
Variable check_code_safety : string -> bool * option string.

Definition execute_python_code (w : W) (code : string) (timeout : Z)
  : exec_run W :=
  match validate_python_syntax code with
  | (false, error) =>
      mkExecRun w
        (mkExec false ""
           ("Syntax validation failed: "
            ++ match error with Some e => e | None => "None" end)
           None error)
        [] []
  | (true, _) =>
      let warned :=
        match check_code_safety code with
        | (false, warning) =>
            ["Code safety warning: "
             ++ match warning with Some m => m | None => "None" end]
        | (true, _) => []
        end in
      match run_code w code timeout with
      | (w1, ExecCompleted returncode stdout stderr) =>
          mkExecRun w1
            (mkExec (Z.eqb returncode 0) (limit_output stdout)
               (limit_output stderr) (Some returncode) None)
            warned [code]
      | (w1, ExecTimeout) =>
          mkExecRun w1
            (mkExec false ""
               ("Execution timeout after " ++ PyStr.of_Z timeout ++ " seconds")
               None (Some "timeout"))
            warned [code]
      | (w1, ExecRaised message) =>
          mkExecRun w1 (mkExec false "" message None (Some message))
            warned [code]
      end
  end.
End Execute.

End Exec.

(** ** ai_parser.py: the code block of a reply

    [request_fix_from_ai] and [run_generation_mode] take the script out
    of the reply of the service with [re.search] and the patterns
    [```python\s*(.*?)\s*```] and [```\s*(.*?)\s*```], both with
    [re.DOTALL], and keep the whole reply when neither matches.  These
    patterns need two more kinds of item: a greedy repetition that may be
    empty, and a lazy one inside the group, which first takes nothing and
    takes one more character each time the rest of the pattern fails. *)

Module Fence.

Inductive item : Type :=
| Lit (c : ascii)
| Star (ok : ascii -> bool)        (* [a*] *)
| LazyGroup (ok : ascii -> bool)   (* [(a*?)] *).

Definition pattern := list item.

Section Lazy.
Context {R : Type}.
Variable ok : ascii -> bool.

Fixpoint lazy_star (k : string -> string -> option R) (s : string) : option R :=
  match k EmptyString s with
  | Some r => Some r
  | None =>
      match s with
      | String c s' =>
          if ok c then lazy_star (fun m r => k (String c m) r) s' else None
      | EmptyString => None
      end
  end.
End Lazy.

Fixpoint match_here (p : pattern) (g : Re.match_object) (s : string)
  : option Re.match_object :=
  match p with
  | [] => Some g
  | Lit c :: p' =>
      match s with
      | String d s' => if Ascii.eqb c d then match_here p' g s' else None
      | EmptyString => None
      end
  | Star ok :: p' => Re.star ok (fun _ r => match_here p' g r) s
  | LazyGroup ok :: p' => lazy_star ok (fun m r => match_here p' (Some m) r) s
  end.

Fixpoint search (p : pattern) (s : string) : option Re.match_object :=
  match match_here p None s with
  | Some m => Some m
  | None =>
      match s with
      | String _ s' => search p s'
      | EmptyString => None
      end
  end.

Fixpoint lits (s : string) : pattern :=
  match s with
  | EmptyString => []
  | String c s' => Lit c :: lits s'
  end.

(** [.] with [re.DOTALL], and [\s]. *)
Definition any (c : ascii) : bool := true.
Definition space : ascii -> bool := PyStr.is_space.

Definition backtick : ascii := "`"%char.
Definition fence : string := "```".

Definition python_block : pattern :=
  (lits (fence ++ "python") ++ [Star space; LazyGroup any; Star space]
   ++ lits fence)%list.

Definition plain_block : pattern :=
  (lits fence ++ [Star space; LazyGroup any; Star space] ++ lits fence)%list.

(** The script taken from the text of a reply; the group takes part in
    every match of the two patterns. *)
Definition extract_code (response_text : string) : string :=
  match search python_block response_text with
  | Some m =>
      match Re.group1 m with Some code => code | None => "None" end
  | None =>
      match search plain_block response_text with
      | Some m =>
          match Re.group1 m with Some code => code | None => "None" end
      | None => response_text
      end
  end.

Definition no_backtick (c : ascii) : bool := negb (Ascii.eqb c backtick).

(** The end of both patterns: white space, if there is some, and the
    fence. *)
Definition closing (g : Re.match_object) (r : string) : option Re.match_object :=
  match_here (Star space :: lits fence) g r.

End Fence.

(* ================================================================== *)
(** * Part II: properties                                              *)
(* ================================================================== *)

(** ** Strings *)

Section StringFacts.
Import PyStr.

Lemma prefix_app (p b : string) : prefix p (p ++ b) = true.
Proof.
  induction p as [|c p IH]; simpl.
  - destruct b; reflexivity.
  - destruct (ascii_dec c c) as [_|n]; [exact IH | now destruct n].
Qed.

Lemma prefix_inv (p s : string) :
  prefix p s = true -> exists b, s = p ++ b.
Proof.
  revert s; induction p as [|c p IH]; intros s Hp.
  - now exists s.
  - destruct s as [|d s]; simpl in Hp; [discriminate|].
    destruct (ascii_dec c d) as [->|]; [|discriminate].
    destruct (IH _ Hp) as [b ->]. now exists b.
Qed.

Lemma contains_unfold (p s : string) :
  contains p s =
  if prefix p s then true
  else match s with
       | EmptyString => false
       | String _ s' => contains p s'
       end.
Proof. destruct s; reflexivity. Qed.

Lemma contains_Substring (p s : string) :
  contains p s = true <-> Substring p s.
Proof.
  split.
  - induction s as [|c s IH]; rewrite contains_unfold;
      destruct (prefix p _) eqn:E; intros Hc;
      try (destruct (prefix_inv _ _ E) as [b Hb]; now exists "", b).
    + discriminate Hc.
    + destruct (IH Hc) as (a & b & ->).
      now exists (String c a), b.
  - intros (a & b & ->).
    induction a as [|c a IH]; rewrite contains_unfold.
    + cbn [append]. now rewrite prefix_app.
    + destruct (prefix p _); [reflexivity | exact IH].
Qed.

Lemma lower_app (a b : string) : lower (a ++ b) = lower a ++ lower b.
Proof. induction a as [|c a IH]; simpl; [reflexivity | now rewrite IH]. Qed.

Lemma lower_split (s x y : string) :
  lower s = x ++ y -> exists a b, s = a ++ b /\ lower a = x /\ lower b = y.
Proof.
  revert s; induction x as [|c x IH]; intros s Hs.
  - now exists "", s.
  - destruct s as [|d s]; simpl in Hs; [discriminate|].
    injection Hs as Hc Hs.
    destruct (IH _ Hs) as (a & b & -> & Ha & Hb).
    exists (String d a), b. simpl. now rewrite Hc, Ha.
Qed.

Lemma contains_lower_SubstringCI (p s : string) :
  contains p (lower s) = true <-> SubstringCI p s.
Proof.
  rewrite contains_Substring. split.
  - intros (x & y & Hs).
    destruct (lower_split _ _ _ Hs) as (a & r & -> & Ha & Hr).
    destruct (lower_split _ _ _ Hr) as (m & b & -> & Hm & Hb).
    now exists a, m, b.
  - intros (a & m & b & -> & Hm).
    exists (lower a), (lower b). now rewrite !lower_app, Hm.
Qed.

Lemma length_app (a b : string) :
  String.length (a ++ b) = String.length a + String.length b.
Proof. induction a as [|c a IH]; simpl; [reflexivity | now rewrite IH]. Qed.

Lemma length_of_repeat (c : ascii) (n : nat) :
  String.length (string_of_list_ascii (repeat c n)) = n.
Proof. induction n as [|n IH]; simpl; [reflexivity | now rewrite IH]. Qed.
End StringFacts.

(** ** The validation loop *)

Section ValidationFacts.
Import AiParser.
Context {W : Type} `{Host W}.

Lemma content_sufficient_iff (content : string) :
  content_sufficient content = true <->
  500 < String.length content /\
  (PyStr.Substring "About" content
   \/ PyStr.SubstringCI "responsibilities" content
   \/ PyStr.SubstringCI "description" content).
Proof.
  unfold content_sufficient.
  rewrite andb_true_iff, !orb_true_iff, Nat.ltb_lt.
  rewrite contains_Substring, !contains_lower_SubstringCI.
  tauto.
Qed.

Lemma run_attempt_passed_iff (w : W) (script_path test_url : string) :
  snd (run_attempt w script_path test_url) = AttemptPassed <->
  exists w1 stderr output_file others,
    subprocess_run w script_path test_url = (w1, Completed 0 stderr)
    /\ glob_job_descriptions w1 (glob_pattern (extract_job_id test_url None))
       = output_file :: others
    /\ content_sufficient (read_file w1 output_file) = true.
Proof.
  unfold run_attempt.
  destruct (subprocess_run w script_path test_url) as [w1 [|rc stderr]].
  - split; [discriminate|]. intros (? & ? & ? & ? & E & _). discriminate E.
  - destruct (Z.eqb_spec rc 0) as [->|Hrc]; cbn [negb].
    + destruct (glob_job_descriptions w1 _) as [|f others] eqn:G.
      * split; [discriminate|].
        intros (? & ? & ? & ? & E & G' & _). injection E as <- _.
        rewrite G in G'. discriminate G'.
      * destruct (content_sufficient (read_file w1 f)) eqn:C.
        -- split; [|reflexivity]. intros _. now exists w1, stderr, f, others.
        -- split; [discriminate|].
           intros (? & ? & ? & ? & E & G' & C'). injection E as <- _.
           rewrite G in G'. injection G' as <- _. congruence.
    + split; [discriminate|].
      intros (? & ? & ? & ? & E & _). injection E as _ E _. congruence.
Qed.

(** The loops over the strategies raise nothing but the [KeyError] of the
    key [code]. *)
Lemma first_code_raises (test : strategy_result -> bool)
    (strategies : list strategy_result) (e : exception) :
  first_code test strategies = inl e <->
  e = KeyError "code"
  /\ exists st, find test strategies = Some st /\ code st = None.
Proof.
  unfold first_code. destruct (find test strategies) as [st|].
  - destruct (code st) as [c|] eqn:Ec.
    + split; [discriminate|]. intros (_ & st' & [= <-] & E). congruence.
    + split.
      * intros [= <-]. split; [reflexivity|]. now exists st.
      * now intros [-> _].
  - split; [discriminate|]. intros (_ & st' & E & _). discriminate E.
Qed.

Lemma collect_codes_raises (test : strategy_result -> bool)
    (tested : list (string * list strategy_result)) (e : exception) :
  collect_codes test tested = inl e <->
  e = KeyError "code"
  /\ exists field strategies st,
       In (field, strategies) tested
       /\ find test strategies = Some st /\ code st = None.
Proof.
  revert e.
  induction tested as [|[field strategies] rest IH]; intros e;
    cbn [collect_codes].
  - split; [discriminate|]. now intros (_ & ? & ? & ? & [] & _).
  - destruct (first_code test strategies) as [e1|entry] eqn:E1.
    + apply first_code_raises in E1. destruct E1 as (-> & st & Hf & Hc).
      split.
      * intros [= <-]. split; [reflexivity|].
        exists field, strategies, st. split; [now left | now split].
      * now intros [-> _].
    + destruct (collect_codes test rest) as [e2|snippets].
      * split.
        -- intros E. destruct (proj1 (IH e) E) as (He & f & ss & st & Hin & Hrest).
           split; [exact He|]. exists f, ss, st. split; [now right | exact Hrest].
        -- intros [-> _]. destruct (proj1 (IH e2) eq_refl) as [He _].
           now rewrite He.
      * split; [discriminate|].
        intros (He & f & ss & st & [[= <- <-]|Hin] & Hf & Hc).
        -- assert (E : first_code test strategies = inl e)
             by (apply first_code_raises; split; [exact He | now exists st]).
           congruence.
        -- assert (E : inr snippets = inl e :> exception + list (string * string))
             by (apply (IH e); split; [exact He | now exists f, ss, st]).
           discriminate E.
Qed.

(** What a fix request that raises has raised. *)
Lemma request_fix_raises (w w2 : W) (script_path signal : string)
    (log : discovery_log) (e : exception) :
  request_fix_from_ai w script_path signal log = (w2, inl e) ->
  (exists message, e = OSError message
                   /\ read_script w script_path = inl message)
  \/ (e = KeyError "code" /\ working_js (tested_strategies log) = inl e)
  \/ (exists message, e = ServiceError message).
Proof.
  unfold request_fix_from_ai.
  destruct (read_script w script_path) as [m|broken].
  - intros [= <- <-]. left. now exists m.
  - destruct (working_js (tested_strategies log)) as [e1|snippets] eqn:Ew.
    + intros [= <- <-]. right; left. split; [|reflexivity].
      now apply collect_codes_raises in Ew.
    + destruct (fix_reply w broken signal log) as [w1 [m|fixed]];
        intros [= <- <-]. right; right. now exists m.
Qed.

(** What the loop returns when the passes left are exactly those up to
    [max_attempts]: it has passed, or it has failed with no pass left, or
    a fix request has raised while a pass was left. *)
Lemma validation_loop_shape (script_path test_url : string) (log : discovery_log)
    (max_attempts : Z) :
  forall (fuel : nat) (attempt : Z) (done : list attempt_verdict) (w : W),
    (attempt + Z.of_nat fuel = max_attempts + 1)%Z ->
    let r := validation_loop fuel attempt max_attempts done
               w script_path test_url log in
    exists more,
      verdicts r = (done ++ more)%list
      /\ List.length more <= fuel
      /\ ((outcome r = inr (true, [])
           /\ exists earlier, more = (earlier ++ [AttemptPassed])%list
                              /\ Forall failed_verdict earlier)
          \/ (outcome r = inr (false, ["Validation failed after all attempts"])
              /\ fuel = 0 /\ more = [])
          \/ (List.length more = fuel
              /\ exists earlier last,
                   more = (earlier ++ [last])%list
                   /\ Forall failed_verdict earlier
                   /\ failed_verdict last
                   /\ outcome r = inr (false, issues_of last))
          \/ (List.length more < fuel
              /\ exists e earlier signal issues w1,
                   outcome r = inl e
                   /\ more = (earlier ++ [AttemptFailed signal issues])%list
                   /\ Forall failed_verdict earlier
                   /\ request_fix_from_ai w1 script_path signal log
                      = (world r, inl e))).
Proof.
  induction fuel as [|fuel IH]; intros attempt done w Hfuel; cbn zeta.
  - exists []. cbn. rewrite app_nil_r.
    split; [reflexivity|]. split; [lia|]. right; left. now repeat split.
  - cbn [validation_loop].
    destruct (run_attempt w script_path test_url) as [w1 [|signal issues]].
    + exists [AttemptPassed]. cbn.
      split; [reflexivity|]. split; [lia|]. left.
      split; [reflexivity|]. now exists [].
    + destruct (Z.ltb_spec attempt max_attempts) as [Hlt|Hge].
      * destruct (request_fix_from_ai w1 script_path signal log)
          as [w2 [e|fixed]] eqn:Efix.
        -- exists [AttemptFailed signal issues]. cbn.
           split; [reflexivity|]. split; [lia|].
           right; right; right. split; [lia|].
           exists e, [], signal, issues, w1. now repeat split.
        -- specialize (IH (attempt + 1)%Z
                         (done ++ [AttemptFailed signal issues])%list
                         (write_file w2 script_path (shebang ++ fixed))).
           destruct IH as (more & Hv & Hlen & Hcases); [lia|].
           exists (AttemptFailed signal issues :: more).
           rewrite Hv, <- app_assoc. cbn [app List.length].
           split; [reflexivity|]. split; [lia|].
           destruct Hcases as [(Ho & earlier & -> & Hall)
                              |[(Ho & Hz & _)
                               |[(Hl & earlier & last & -> & Hall & Hlast & Ho)
                                |(Hl & e & earlier & sg & iss & w' & Ho & ->
                                  & Hall & Hreq)]]].
           ++ left. split; [exact Ho|].
              exists (AttemptFailed signal issues :: earlier).
              split; [reflexivity|]. constructor; [exact I | exact Hall].
           ++ lia.
           ++ right; right; left. split; [now rewrite Hl|].
              exists (AttemptFailed signal issues :: earlier), last.
              split; [reflexivity|]. split; [|now split].
              constructor; [exact I | exact Hall].
           ++ right; right; right. split; [lia|].
              exists e, (AttemptFailed signal issues :: earlier), sg, iss, w'.
              split; [exact Ho|]. split; [reflexivity|].
              split; [|exact Hreq]. constructor; [exact I | exact Hall].
      * exists [AttemptFailed signal issues]. cbn.
        split; [reflexivity|]. split; [lia|].
        right; right; left. split; [lia|].
        exists [], (AttemptFailed signal issues). now repeat split.
Qed.

Lemma validation_loop_passed (script_path test_url : string) (log : discovery_log)
    (max_attempts : Z) :
  forall (fuel : nat) (attempt : Z) (done : list attempt_verdict) (w : W),
    let r := validation_loop fuel attempt max_attempts done
               w script_path test_url log in
    passed r = true ->
    exists earlier,
      verdicts r = (done ++ earlier ++ [AttemptPassed])%list
      /\ Forall failed_verdict earlier.
Proof.
  induction fuel as [|fuel IH]; intros attempt done w; cbn zeta.
  - cbn. discriminate.
  - cbn [validation_loop].
    destruct (run_attempt w script_path test_url) as [w1 [|signal issues]].
    + intros _. now exists [].
    + destruct (Z.ltb attempt max_attempts); [|cbn; discriminate].
      destruct (request_fix_from_ai w1 script_path signal log)
        as [w2 [e|fixed]]; [cbn; discriminate|].
      intros Hp. destruct (IH _ _ _ Hp) as (earlier & Hv & Hall).
      exists (AttemptFailed signal issues :: earlier).
      rewrite Hv, <- app_assoc. split; [reflexivity|].
      constructor; [exact I | exact Hall].
Qed.

(** An exception that leaves the loop is that of one of its fix
    requests. *)
Lemma validation_loop_raised (script_path test_url : string) (log : discovery_log)
    (max_attempts : Z) (e : exception) :
  forall (fuel : nat) (attempt : Z) (done : list attempt_verdict) (w : W),
    raised (validation_loop fuel attempt max_attempts done
              w script_path test_url log) = Some e ->
    exists w1 w2 signal,
      request_fix_from_ai w1 script_path signal log = (w2, inl e).
Proof.
  induction fuel as [|fuel IH]; intros attempt done w.
  - cbn. discriminate.
  - cbn [validation_loop].
    destruct (run_attempt w script_path test_url) as [w1 [|signal issues]];
      [cbn; discriminate|].
    destruct (Z.ltb attempt max_attempts); [|cbn; discriminate].
    destruct (request_fix_from_ai w1 script_path signal log)
      as [w2 [e'|fixed]] eqn:Efix.
    + cbn. intros [= <-]. now exists w1, w2, signal.
    + apply IH.
Qed.

(** The error text of a pass whose output has [n] characters and fails
    the content test. *)
Lemma run_attempt_short (w : W) (script_path test_url : string) (n : nat) :
  n <= 500 ->
  leaves_output script_path test_url n w ->
  exists w1,
    run_attempt w script_path test_url
    = (w1, AttemptFailed
             ("Output too short (" ++ PyStr.of_nat n
              ++ " chars) or missing key content")
             ["Output too short (" ++ PyStr.of_nat n
              ++ " chars) or missing key content"]).
Proof.
  intros Hn (w1 & stderr & f & others & E & G & L).
  exists w1. unfold run_attempt, content_sufficient.
  rewrite E. cbn [Z.eqb negb]. rewrite G, L.
  destruct (Nat.ltb_spec 500 n) as [Hlt|_]; [lia | reflexivity].
Qed.
End ValidationFacts.

(** C1 (amended).  A run of the validation loop makes at most
    [max (0, max_attempts)] attempts and ends in exactly one of three
    ways.  Passed: it returns success with an empty issue list, after a
    last attempt that passed.  Failed: it returns the issues of its last
    attempt only (the reasons of the earlier attempts are not kept), after
    exactly [max_attempts] failed attempts, or the fixed message when
    [max_attempts <= 0] and no attempt is made.  Aborted: it returns
    nothing, because the fix request made after a failed attempt that was
    not the last one raised an exception that the loop does not handle:
    the script could not be read, a strategy of the log marked as working
    has no code, or the call of the service raised.  A run all of whose
    fix requests return ends Passed or Failed; with [max_attempts = 3],
    three outputs of 200 characters then give Failed after exactly 3
    attempts.  (The sub-process, the search for the output file, the read
    of the output and the write of the fixed script are taken to
    return.) *)
Theorem validation_loop_bounded_terminal :
  forall (W : Type) (HW : AiParser.Host W) (w : W)
         (script_path test_url : string) (log : AiParser.discovery_log)
         (max_attempts : Z),
    let r := AiParser.validate_generated_script w script_path test_url log
               max_attempts in
    let fix_requests_return :=
      forall w' signal, exists w2 fixed,
        AiParser.request_fix_from_ai w' script_path signal log
        = (w2, inr fixed) in
    (Z.of_nat (AiParser.attempts r) <= Z.max 0 max_attempts)%Z
    /\ ((AiParser.outcome r = inr (true, [])
         /\ exists earlier,
              AiParser.verdicts r = (earlier ++ [AiParser.AttemptPassed])%list
              /\ Forall AiParser.failed_verdict earlier)
        \/ (AiParser.outcome r
            = inr (false, ["Validation failed after all attempts"])
            /\ (max_attempts <= 0)%Z
            /\ AiParser.verdicts r = [])
        \/ (Z.of_nat (AiParser.attempts r) = max_attempts
            /\ exists earlier last,
                 AiParser.verdicts r = (earlier ++ [last])%list
                 /\ Forall AiParser.failed_verdict earlier
                 /\ AiParser.failed_verdict last
                 /\ AiParser.outcome r = inr (false, AiParser.issues_of last))
        \/ ((Z.of_nat (AiParser.attempts r) < max_attempts)%Z
            /\ exists e earlier signal issues w1,
                 AiParser.outcome r = inl e
                 /\ AiParser.verdicts r
                    = (earlier ++ [AiParser.AttemptFailed signal issues])%list
                 /\ Forall AiParser.failed_verdict earlier
                 /\ AiParser.request_fix_from_ai w1 script_path signal log
                    = (AiParser.world r, inl e)
                 /\ ((exists message, e = AiParser.OSError message)
                     \/ (e = AiParser.KeyError "code"
                         /\ AiParser.working_js (AiParser.tested_strategies log)
                            = inl e)
                     \/ (exists message, e = AiParser.ServiceError message))))
    /\ (fix_requests_return -> AiParser.raised r = None)
    /\ (max_attempts = 3%Z ->
        (forall w', AiParser.leaves_output script_path test_url 200 w') ->
        fix_requests_return ->
        AiParser.outcome r
        = inr (false, ["Output too short (200 chars) or missing key content"])
        /\ AiParser.attempts r = 3).
Proof.
  intros W HW w script_path test_url log max_attempts r fix_requests_return.
  assert (Hshape :
    (max_attempts <= 0)%Z /\ AiParser.verdicts r = []
    /\ AiParser.outcome r = inr (false, ["Validation failed after all attempts"])
    \/ (0 < max_attempts)%Z
       /\ exists more,
            AiParser.verdicts r = more
            /\ List.length more <= Z.to_nat max_attempts
            /\ ((AiParser.outcome r = inr (true, [])
                 /\ exists earlier,
                      more = (earlier ++ [AiParser.AttemptPassed])%list
                      /\ Forall AiParser.failed_verdict earlier)
                \/ (AiParser.outcome r
                    = inr (false, ["Validation failed after all attempts"])
                    /\ Z.to_nat max_attempts = 0 /\ more = [])
                \/ (List.length more = Z.to_nat max_attempts
                    /\ exists earlier last,
                         more = (earlier ++ [last])%list
                         /\ Forall AiParser.failed_verdict earlier
                         /\ AiParser.failed_verdict last
                         /\ AiParser.outcome r
                            = inr (false, AiParser.issues_of last))
                \/ (List.length more < Z.to_nat max_attempts
                    /\ exists e earlier signal issues w1,
                         AiParser.outcome r = inl e
                         /\ more
                            = (earlier
                               ++ [AiParser.AttemptFailed signal issues])%list
                         /\ Forall AiParser.failed_verdict earlier
                         /\ AiParser.request_fix_from_ai w1 script_path signal log
                            = (AiParser.world r, inl e)))).
  { destruct (Z.leb_spec max_attempts 0) as [Hle|Hgt].
    - left. subst r. unfold AiParser.validate_generated_script.
      replace (Z.to_nat max_attempts) with 0 by lia. cbn. now repeat split.
    - right. split; [exact Hgt|].
      exact (validation_loop_shape script_path test_url log max_attempts
               (Z.to_nat max_attempts) 1%Z [] w ltac:(lia)). }
  split; [|split; [|split]].
  - unfold AiParser.attempts.
    destruct Hshape as [(Hle & -> & _) | (Hgt & more & -> & Hlen & _)]; cbn; lia.
  - destruct Hshape as [(Hle & Hv & Ho)
                       | (Hgt & more & Hv & Hlen & Hcases)].
    + right; left. now repeat split.
    + destruct Hcases as [(Ho & earlier & Hm & Hall)
                         |[(Ho & Hz & _)
                          |[(Hl & earlier & last & Hm & Hrest)
                           |(Hl & e & earlier & sg & iss & w1 & Ho & Hm
                             & Hall & Hreq)]]].
      * left. split; [exact Ho|]. exists earlier. now rewrite Hv, Hm.
      * lia.
      * right; right; left.
        split; [unfold AiParser.attempts; rewrite Hv; lia|].
        exists earlier, last. now rewrite Hv, Hm.
      * right; right; right.
        split; [unfold AiParser.attempts; rewrite Hv; lia|].
        exists e, earlier, sg, iss, w1.
        split; [exact Ho|]. split; [now rewrite Hv, Hm|].
        split; [exact Hall|]. split; [exact Hreq|].
        destruct (request_fix_raises _ _ _ _ _ _ Hreq)
          as [(m & -> & _)|[Hk|Hs]]; [left; now exists m | now right; left
                                      | now right; right].
  - intros Hret. unfold AiParser.raised.
    destruct Hshape as [(_ & _ & ->)|(_ & more & _ & _ & Hcases)];
      [reflexivity|].
    destruct Hcases as [(-> & _)|[(-> & _)
                       |[(_ & earlier & last & _ & _ & _ & ->)
                        |(_ & e & earlier & sg & iss & w1 & _ & _ & _ & Hreq)]]];
      try reflexivity.
    destruct (Hret w1 sg) as (w2 & fixed & E). congruence.
  - intros -> Hins Hret. subst r.
    unfold AiParser.validate_generated_script, AiParser.attempts.
    change (Z.to_nat 3) with 3. cbn [AiParser.validation_loop].
    destruct (run_attempt_short w script_path test_url 200 ltac:(lia) (Hins w))
      as [w1 ->].
    change (Z.ltb 1 3) with true. cbn iota.
    match goal with
    | |- context [AiParser.request_fix_from_ai w1 script_path ?signal log] =>
        destruct (Hret w1 signal) as (w2 & fixed2 & ->)
    end.
    destruct (run_attempt_short
                (AiParser.write_file w2 script_path (AiParser.shebang ++ fixed2))
                script_path test_url 200 ltac:(lia) (Hins _)) as [w3 ->].
    change (Z.ltb (1 + 1) 3) with true. cbn iota.
    match goal with
    | |- context [AiParser.request_fix_from_ai w3 script_path ?signal log] =>
        destruct (Hret w3 signal) as (w4 & fixed4 & ->)
    end.
    destruct (run_attempt_short
                (AiParser.write_file w4 script_path (AiParser.shebang ++ fixed4))
                script_path test_url 200 ltac:(lia) (Hins _)) as [w5 ->].
    change (Z.ltb (1 + 1 + 1) 3) with false. cbn iota.
    cbn [AiParser.outcome AiParser.verdicts List.length app].
    split; reflexivity.
Qed.

Lemma validation_loop_bounded_terminal_witness :
  let r := @AiParser.validate_generated_script unit
             (Sim.steady (AiParser.Completed 0 "") (Some (Sim.padded "" 200)))
             tt "generated_scripts/linkedin_scraper.py"
             "https://www.linkedin.com/jobs/view/4300362234" Sim.empty_log 3 in
  AiParser.outcome r
  = inr (false, ["Output too short (200 chars) or missing key content"])
  /\ AiParser.attempts r = 3.
Proof.
  apply (proj2 (proj2 (proj2 (validation_loop_bounded_terminal unit
           (Sim.steady (AiParser.Completed 0 "") (Some (Sim.padded "" 200)))
           tt "generated_scripts/linkedin_scraper.py"
           "https://www.linkedin.com/jobs/view/4300362234" Sim.empty_log 3)))).
  - reflexivity.
  - intros []. exists tt, "", "job_descriptions/output.txt", [].
    repeat split; reflexivity.
  - intros [] signal. exists tt, "page.evaluate('1')". reflexivity.
Defined.

(** The claim as first stated fails twice.  With two attempts, a timeout
    and then a short output, the run is Failed and returns the reason of
    the second attempt only; the timeout of the first attempt is not among
    the issues.  And with three attempts allowed, a time-out in the first
    and a log whose working strategy of the title has no code, the run
    ends after one attempt in neither state: the fix request raises
    [KeyError], and nothing is returned. *)
Lemma validation_neither_accumulates_nor_always_returns :
  let r := AiParser.validate_generated_script
             (Sim.start [ (AiParser.TimeoutExpired, None);
                          (AiParser.Completed 0 "", Some (Sim.padded "" 200)) ])
             "generated_scripts/linkedin_scraper.py"
             "https://www.linkedin.com/jobs/view/4300362234" Sim.empty_log 2 in
  let aborted :=
    AiParser.validate_generated_script
      (Sim.start [ (AiParser.TimeoutExpired, None);
                   (AiParser.Completed 0 "",
                    Some (Sim.padded "About the job" 600)) ])
      "generated_scripts/linkedin_scraper.py"
      "https://www.linkedin.com/jobs/view/4300362234" Sim.log_without_code 3 in
  (AiParser.passed r = false
   /\ AiParser.attempts r = 2
   /\ flat_map AiParser.issues_of (AiParser.verdicts r)
      = [ "Script execution timeout (90s)";
          "Output too short (200 chars) or missing key content" ]
   /\ AiParser.run_issues r
      = [ "Output too short (200 chars) or missing key content" ]
   /\ (In "Script execution timeout (90s)" (AiParser.run_issues r) -> False))
  /\ (AiParser.outcome aborted = inl (AiParser.KeyError "code")
      /\ AiParser.attempts aborted = 1
      /\ AiParser.verdicts aborted
         = [ AiParser.AttemptFailed "Script execution timeout (90s)"
               [ "Script execution timeout (90s)" ] ]).
Proof.
  vm_compute. repeat split; try reflexivity.
  intros [E | []]. discriminate E.
Qed.

(** C4.  A pass of the validation loop is classified Sufficient exactly when
    the script exits with code 0 and leaves an output whose text is longer
    than 500 characters and contains ["About"], or ["responsibilities"] or
    ["description"] in any letter case; and the loop ends Passed on that
    pass exactly when the pass is Sufficient. *)
Theorem sufficient_exactly_when_long_and_marked :
  forall (W : Type) (HW : AiParser.Host W) (w : W)
         (script_path test_url : string) (log : AiParser.discovery_log)
         (fuel : nat) (attempt max_attempts : Z)
         (done : list AiParser.attempt_verdict),
    let r := AiParser.validation_loop (S fuel) attempt max_attempts done
               w script_path test_url log in
    let sufficient :=
      snd (AiParser.run_attempt w script_path test_url) = AiParser.AttemptPassed in
    (sufficient <->
     exists w1 stderr output_file others,
       AiParser.subprocess_run w script_path test_url
       = (w1, AiParser.Completed 0 stderr)
       /\ AiParser.glob_job_descriptions w1
            (AiParser.glob_pattern (AiParser.extract_job_id test_url None))
          = output_file :: others
       /\ 500 < String.length (AiParser.read_file w1 output_file)
       /\ (PyStr.Substring "About" (AiParser.read_file w1 output_file)
           \/ PyStr.SubstringCI "responsibilities"
                (AiParser.read_file w1 output_file)
           \/ PyStr.SubstringCI "description"
                (AiParser.read_file w1 output_file)))
    /\ (sufficient <->
        AiParser.passed r = true
        /\ AiParser.verdicts r = (done ++ [AiParser.AttemptPassed])%list).
Proof.
  intros W HW w script_path test_url log fuel attempt max_attempts done r sufficient.
  split.
  - unfold sufficient. rewrite run_attempt_passed_iff.
    split; intros (w1 & stderr & f & others & E & G & C);
      exists w1, stderr, f, others; (split; [exact E|]); (split; [exact G|]);
      now apply content_sufficient_iff.
  - unfold sufficient. split.
    + intros Hs. subst r. cbn [AiParser.validation_loop].
      destruct (AiParser.run_attempt w script_path test_url) as [w1 v].
      cbn in Hs. subst v. now split.
    + intros [Hp Hv].
      destruct (validation_loop_passed script_path test_url log max_attempts
                  (S fuel) attempt done w Hp) as (earlier & Hv' & Hall).
      fold r in Hv'. rewrite Hv in Hv'. apply app_inv_head in Hv'.
      subst r. cbn [AiParser.validation_loop] in Hv, Hp.
      destruct (AiParser.run_attempt w script_path test_url)
        as [w1 [|signal issues]]; [reflexivity|].
      exfalso.
      destruct (Z.ltb attempt max_attempts); [|discriminate Hp].
      destruct (AiParser.request_fix_from_ai w1 script_path signal log)
        as [w2 [e|fixed]]; [discriminate Hp|].
      destruct (validation_loop_passed script_path test_url log max_attempts
                  fuel (attempt + 1)%Z
                  (done ++ [AiParser.AttemptFailed signal issues])%list
                  _ Hp) as (e2 & Hv2 & _).
      rewrite Hv in Hv2. rewrite <- app_assoc in Hv2.
      apply app_inv_head in Hv2. cbn in Hv2. discriminate Hv2.
Qed.

(** ** The multi-job test harness *)

Section MultiJobFacts.
Import AiParser.
Context {W : Type} `{Host W}.

Lemma test_each_length (script_path : string) (s : JobSite) (urls : list string) :
  forall w : W,
    List.length (snd (test_each w script_path s urls)) = List.length urls.
Proof.
  induction urls as [|url rest IH]; intros w; cbn [test_each].
  - reflexivity.
  - destruct (test_one w script_path s url) as [w1 r].
    specialize (IH w1).
    destruct (test_each w1 script_path s rest) as [w2 rs].
    cbn in *. now rewrite IH.
Qed.

(** The count of the code is the number of the results that passed. *)
Lemma count_successful_passed (results : list test_result) :
  count_successful results = Z.of_nat (passed_count results).
Proof.
  unfold count_successful. f_equal.
  induction results as [|r rest IH]; cbn [filter passed_count]; [reflexivity|].
  destruct (tr_success r); cbn [List.length]; now rewrite IH.
Qed.

Lemma success_rate_of_nonempty (results : list test_result) :
  results <> [] ->
  success_rate_of results
  = Some (success_rate_binary64 (Z.of_nat (passed_count results))
            (Z.of_nat (List.length results))).
Proof.
  intros Hne. destruct results as [|r rs]; [now destruct Hne|].
  unfold success_rate_of, truediv.
  destruct (Z.eqb_spec (Z.of_nat (List.length (r :: rs))) 0) as [E|_].
  - cbn [List.length] in E. lia.
  - now rewrite count_successful_passed.
Qed.
End MultiJobFacts.

(** C5 (amended).  The harness always returns a rate (its division never
    fails), with one result per url: for an empty url list the rate is 0.0
    and no result is made; otherwise the rate is the binary64 float that
    [passed / total * 100] evaluates to, the quotient rounded first and the
    product rounded after it, where [passed] is the number of the results
    marked as a success and [total] the number of the urls.  With 4
    results of which 3 passed, the rate is the float 75.0,
    [5277655813324800 * 2^-46]. *)
Theorem success_rate_reported :
  forall (W : Type) (HW : AiParser.Host W) (w : W) (script_path : string)
         (s : AiParser.JobSite) (test_urls : option (list string)),
    let urls := match test_urls with
                | None => AiParser.TEST_URLS s
                | Some l => l
                end in
    exists w' rate results,
      AiParser.validate_scraper_multi_job w script_path s test_urls
      = (w', Some (rate, results))
      /\ List.length results = List.length urls
      /\ (urls = [] -> rate = S754_zero false /\ results = [] /\ w' = w)
      /\ (urls <> [] ->
          rate = AiParser.success_rate_binary64
                   (Z.of_nat (AiParser.passed_count results))
                   (Z.of_nat (List.length urls)))
      /\ (List.length results = 4 -> AiParser.passed_count results = 3 ->
          rate = S754_finite false 5277655813324800 (-46)).
Proof.
  intros W HW w script_path s test_urls urls.
  unfold AiParser.validate_scraper_multi_job. fold urls.
  destruct urls as [|url rest] eqn:Hurls.
  - exists w, (S754_zero false), [].
    split; [reflexivity|]. split; [reflexivity|].
    split; [intros _; now repeat split|].
    split; [intros Hne; now destruct Hne|].
    cbn. discriminate.
  - rewrite <- Hurls.
    assert (Hlen := test_each_length script_path s urls w).
    destruct (AiParser.test_each w script_path s urls) as [w1 results].
    cbn [snd] in Hlen.
    assert (Hne : results <> []).
    { intros ->. rewrite Hurls in Hlen. discriminate Hlen. }
    rewrite (success_rate_of_nonempty results Hne).
    eexists w1, _, results.
    split; [reflexivity|]. split; [exact Hlen|].
    split; [intros E; rewrite Hurls in E; discriminate E|].
    split; [intros _; now rewrite Hlen|].
    intros H4 H3. rewrite H4, H3. vm_compute. reflexivity.
Qed.

Lemma success_rate_reported_witness :
  exists w' rate results,
    AiParser.validate_scraper_multi_job
      (Sim.start
         [ (AiParser.Completed 0 "", Some (Sim.padded "About the job" 600));
           (AiParser.Completed 0 "", Some (Sim.padded "About the job" 600));
           (AiParser.Completed 1 "Traceback", None);
           (AiParser.Completed 0 "", Some (Sim.padded "About the job" 600)) ])
      "generated_scripts/linkedin_scraper.py" AiParser.LINKEDIN
      (Some [ "https://www.linkedin.com/jobs/view/1";
              "https://www.linkedin.com/jobs/view/2";
              "https://www.linkedin.com/jobs/view/3";
              "https://www.linkedin.com/jobs/view/4" ])
    = (w', Some (rate, results))
    /\ List.length results = 4
    /\ AiParser.passed_count results = 3
    /\ rate = S754_finite false 5277655813324800 (-46).
Proof.
  destruct (success_rate_reported Sim.state Sim.host
              (Sim.start
                 [ (AiParser.Completed 0 "", Some (Sim.padded "About the job" 600));
                   (AiParser.Completed 0 "", Some (Sim.padded "About the job" 600));
                   (AiParser.Completed 1 "Traceback", None);
                   (AiParser.Completed 0 "", Some (Sim.padded "About the job" 600)) ])
              "generated_scripts/linkedin_scraper.py" AiParser.LINKEDIN
              (Some [ "https://www.linkedin.com/jobs/view/1";
                      "https://www.linkedin.com/jobs/view/2";
                      "https://www.linkedin.com/jobs/view/3";
                      "https://www.linkedin.com/jobs/view/4" ]))
    as (w' & rate & results & E & L & _ & _ & H75).
  exists w', rate, results.
  assert (C : AiParser.passed_count results = 3).
  { vm_compute in E. injection E as _ _ <-. reflexivity. }
  split; [exact E|]. split; [exact L|]. split; [exact C|].
  exact (H75 L C).
Defined.

(** The claim as first stated fails: the rate is not [100 * passed / total]
    but what the two rounded steps give.  For 25 urls of which 7 pass,
    [100 * 7 / 25] is 28, a float, and the harness reports the next float
    above it, 28.000000000000004, [7881299347898369 * 2^-48]. *)
Lemma success_rate_is_rounded_twice :
  exists w' results,
    AiParser.validate_scraper_multi_job
      (Sim.start Sim.seven_passes_of_25)
      "generated_scripts/linkedin_scraper.py" AiParser.LINKEDIN
      (Some Sim.urls_25)
    = (w', Some (S754_finite false 7881299347898369 (-48), results))
    /\ List.length results = 25
    /\ AiParser.passed_count results = 7
    /\ (100 * 7 / 25 = 28)%Z
    /\ AiParser.binary64_of_Z 28 = S754_finite false 7881299347898368 (-48)
    /\ (S754_finite false 7881299347898369 (-48) = AiParser.binary64_of_Z 28
        -> False).
Proof.
  eexists _, _. split; [vm_compute; reflexivity|].
  split; [reflexivity|]. split; [reflexivity|]. split; [reflexivity|].
  split; [vm_compute; reflexivity|].
  vm_compute. discriminate.
Qed.

(** ** The strategy prober *)

Section SortFacts.
Import AiParser.
Context {A : Type}.
Variable key : A -> Z.

Lemma insert_desc_split (x : A) (l : list A) :
  exists before after,
    insert_desc key x l = (before ++ x :: after)%list
    /\ l = (before ++ after)%list
    /\ Forall (fun y => (key x < key y)%Z) before.
Proof.
  induction l as [|y l IH]; cbn [insert_desc].
  - now exists [], [].
  - destruct (Z.ltb_spec (key x) (key y)) as [Hlt|Hge].
    + destruct IH as (before & after & -> & -> & Hall).
      exists (y :: before), after. repeat split. now constructor.
    + now exists [], (y :: l).
Qed.

Lemma insert_desc_perm (x : A) (l : list A) :
  Permutation (insert_desc key x l) (x :: l).
Proof.
  destruct (insert_desc_split x l) as (before & after & -> & -> & _).
  symmetry. apply Permutation_middle.
Qed.

Lemma sort_reverse_perm (l : list A) : Permutation (sort_reverse key l) l.
Proof.
  induction l as [|x l IH]; cbn [sort_reverse fold_right].
  - constructor.
  - etransitivity; [apply insert_desc_perm|]. now constructor.
Qed.

Lemma insert_desc_sorted (x : A) (l : list A) :
  StronglySorted (fun a b => (key b <= key a)%Z) l ->
  StronglySorted (fun a b => (key b <= key a)%Z) (insert_desc key x l).
Proof.
  induction 1 as [|y l Hs IH Hy]; cbn [insert_desc].
  - repeat constructor.
  - destruct (Z.ltb_spec (key x) (key y)) as [Hlt|Hge].
    + constructor; [exact IH|].
      apply Forall_forall. intros z Hz.
      apply (Permutation_in _ (insert_desc_perm x l)) in Hz.
      destruct Hz as [<-|Hz]; [lia|].
      now apply (proj1 (Forall_forall _ _) Hy).
    + constructor; [now constructor|].
      constructor; [exact Hge|].
      apply Forall_forall. intros z Hz.
      assert (key z <= key y)%Z by now apply (proj1 (Forall_forall _ _) Hy).
      lia.
Qed.

Lemma sort_reverse_sorted (l : list A) :
  StronglySorted (fun a b => (key b <= key a)%Z) (sort_reverse key l).
Proof.
  induction l as [|x l IH]; cbn [sort_reverse fold_right].
  - constructor.
  - now apply insert_desc_sorted.
Qed.

(** Stability: the elements of one key come out in the order they went in. *)
Lemma insert_desc_filter (k : Z) (x : A) (l : list A) :
  filter (fun a => Z.eqb (key a) k) (insert_desc key x l)
  = filter (fun a => Z.eqb (key a) k) (x :: l).
Proof.
  induction l as [|y l IH]; cbn [insert_desc]; [reflexivity|].
  destruct (Z.ltb_spec (key x) (key y)) as [Hlt|Hge]; [|reflexivity].
  cbn [filter] in *. rewrite IH.
  destruct (Z.eqb_spec (key x) k), (Z.eqb_spec (key y) k);
    try reflexivity; lia.
Qed.

Lemma sort_reverse_stable (k : Z) (l : list A) :
  filter (fun a => Z.eqb (key a) k) (sort_reverse key l)
  = filter (fun a => Z.eqb (key a) k) l.
Proof.
  induction l as [|x l IH]; cbn [sort_reverse fold_right]; [reflexivity|].
  rewrite insert_desc_filter. cbn [filter]. fold (sort_reverse key l).
  now rewrite IH.
Qed.
End SortFacts.

Section ProberFacts.
Import AiParser.
Context {sigma : Type} `{Page sigma}.

Lemma take_length (n : nat) (s : string) :
  String.length (PyStr.take n s) = Nat.min n (String.length s).
Proof.
  unfold PyStr.take. revert s.
  induction n as [|n IH]; intros [|c s]; cbn; try reflexivity.
  now rewrite IH.
Qed.

Lemma js_results_scored (page : sigma) (field_name : string) :
  js_results page field_name = []
  \/ exists r, js_results page field_name = [r]
               /\ scored javascript_evaluation r.
Proof.
  unfold js_results.
  destruct (js_strategies field_name) as [js|]; [|now left].
  destruct (evaluate page _) as [|result]; [now left|].
  destruct (js_truthy result && _); [|now left].
  right. eexists. split; [reflexivity|].
  repeat split; cbn. apply take_length.
Qed.

Lemma css_results_scored (page : sigma) (selectors : list string) :
  Forall (scored css_selector) (css_results page selectors).
Proof.
  induction selectors as [|sel rest IH]; cbn [css_results]; [constructor|].
  apply Forall_app. split; [|exact IH].
  unfold css_result.
  destruct (wait_for_selector page sel 3000); try constructor.
  destruct (text_content page sel) as [|[text|]]; try constructor.
  destruct (PyStr.truthy text && _); constructor; [|constructor].
  repeat split; cbn. apply take_length.
Qed.

Lemma discovered_scored (page : sigma) (field_name : string) :
  Forall (fun r => scored (strategy r) r) (discovered page field_name).
Proof.
  unfold discovered. apply Forall_app. split.
  - destruct (js_results_scored page field_name) as [->|(r & -> & Hr)].
    + constructor.
    + constructor; [|constructor]. now rewrite (proj1 Hr).
  - eapply Forall_impl; [|apply css_results_scored].
    intros r Hr. now rewrite (proj1 Hr).
Qed.

Lemma spec_confidence_js_first (n : nat) :
  (confidence_order (spec_confidence css_selector n)
   <= confidence_order (spec_confidence javascript_evaluation n))%Z.
Proof.
  unfold spec_confidence.
  destruct (Nat.ltb_spec 100 n), (Nat.ltb_spec 50 n); cbn; lia.
Qed.

(** In the sorted list a scripted-evaluation result stands before every
    structured-query result of the same length. *)
Lemma js_before_css (page : sigma) (field_name : string) :
  forall i j a b,
    nth_error (test_extraction_strategies page field_name) i = Some a ->
    nth_error (test_extraction_strategies page field_name) j = Some b ->
    strategy a = javascript_evaluation ->
    strategy b = css_selector ->
    length a = length b ->
    i < j.
Proof.
  intros i j a b Hi Hj Ha Hb Hlen.
  unfold test_extraction_strategies, discovered in Hi, Hj.
  assert (Hcss := css_results_scored page (css_selectors field_name)).
  set (css := css_results page (css_selectors field_name)) in *.
  assert (Hsorted_css : Forall (scored css_selector) (sort_reverse sort_key css)).
  { apply Forall_forall. intros r Hr.
    apply (Permutation_in _ (sort_reverse_perm sort_key css)) in Hr.
    now apply (proj1 (Forall_forall _ _) Hcss). }
  destruct (js_results_scored page field_name) as [E|(r & E & Hr)];
    rewrite E in Hi, Hj; cbn [app sort_reverse fold_right] in Hi, Hj;
    fold (sort_reverse sort_key css) in Hi, Hj.
  - apply nth_error_In in Hi.
    apply (proj1 (Forall_forall _ _) Hsorted_css) in Hi.
    destruct Hi as (Hk & _). congruence.
  - destruct (insert_desc_split sort_key r (sort_reverse sort_key css))
      as (before & after & Eins & Esplit & Hbefore).
    rewrite Eins in Hi, Hj. rewrite Esplit in Hsorted_css.
    apply Forall_app in Hsorted_css. destruct Hsorted_css as [Hb4 Haft].
    assert (Hpos : forall n x,
               nth_error (before ++ r :: after) n = Some x ->
               (n < List.length before /\ In x before)
               \/ (n = List.length before /\ x = r)
               \/ (List.length before < n /\ In x after)).
    { intros n x Hn.
      destruct (Nat.lt_trichotomy n (List.length before)) as [Hl|[He|Hg]].
      - left. split; [exact Hl|].
        rewrite nth_error_app1 in Hn by exact Hl. now apply nth_error_In in Hn.
      - right; left. split; [exact He|]. subst n.
        rewrite nth_error_app2, Nat.sub_diag in Hn by lia.
        now injection Hn as <-.
      - right; right. split; [exact Hg|].
        rewrite nth_error_app2 in Hn by lia.
        destruct (n - List.length before) as [|m] eqn:Em; [lia|].
        cbn in Hn. now apply nth_error_In in Hn. }
    assert (Hi' : i = List.length before /\ a = r).
    { destruct (Hpos _ _ Hi) as [(_ & Hin)|[Heq|(_ & Hin)]]; [|exact Heq|].
      - apply (proj1 (Forall_forall _ _) Hb4) in Hin.
        destruct Hin as (Hk & _). congruence.
      - apply (proj1 (Forall_forall _ _) Haft) in Hin.
        destruct Hin as (Hk & _). congruence. }
    destruct Hi' as [-> ->].
    destruct (Hpos _ _ Hj) as [(_ & Hin)|[(_ & ->)|(Hgt & _)]].
    + exfalso.
      assert (Hlt := proj1 (Forall_forall _ _) Hbefore _ Hin).
      apply (proj1 (Forall_forall _ _) Hb4) in Hin.
      destruct Hin as (_ & Hcb & _). destruct Hr as (_ & Hcr & _).
      unfold sort_key in Hlt. rewrite Hcb, Hcr, Hlen in Hlt.
      assert (Hle := spec_confidence_js_first (length b)). lia.
    + congruence.
    + exact Hgt.
Qed.
End ProberFacts.

(** C2.  Every result that the prober returns for a field carries the tier
    fixed by its kind and the length of its text: a scripted-evaluation
    result is [high] above 100 characters and [medium] otherwise, a
    structured-query result is [medium] above 50 characters and [low]
    otherwise.  The length of the kept sample, which is cut at 200
    characters, gives the same tier.  In scenario C (150 characters for both
    kinds) the list is the scripted-evaluation result with [high], then the
    structured-query result with [medium]. *)
Theorem confidence_from_kind_and_length :
  (forall (sigma : Type) (P : AiParser.Page sigma) (page : sigma)
          (field_name : string),
      Forall (fun r =>
                AiParser.confidence r
                = AiParser.spec_confidence (AiParser.strategy r) (AiParser.length r)
                /\ AiParser.confidence r
                   = AiParser.spec_confidence (AiParser.strategy r)
                       (String.length (AiParser.sample r)))
             (AiParser.test_extraction_strategies page field_name))
  /\ AiParser.spec_confidence AiParser.javascript_evaluation 150 = AiParser.high
  /\ AiParser.spec_confidence AiParser.css_selector 150 = AiParser.medium
  /\ AiParser.test_extraction_strategies Sim.scenario_C "title"
     = [ AiParser.mkResult AiParser.javascript_evaluation
           (Some "document.querySelector('h1')?.textContent?.trim()") None
           true Sim.title_150 150 AiParser.high;
         AiParser.mkResult AiParser.css_selector None (Some "h1")
           true Sim.title_150 150 AiParser.medium ].
Proof.
  split; [|split; [reflexivity|split; [reflexivity|vm_compute; reflexivity]]].
  intros sigma P page field_name.
  apply Forall_forall. intros r Hr.
  unfold AiParser.test_extraction_strategies in Hr.
  apply (Permutation_in _ (sort_reverse_perm AiParser.sort_key _)) in Hr.
  apply (proj1 (Forall_forall _ _) (discovered_scored page field_name)) in Hr.
  destruct Hr as (_ & Hc & Hsample).
  split; [exact Hc|].
  rewrite Hc, Hsample. unfold AiParser.spec_confidence.
  destruct (AiParser.strategy r).
  - destruct (Nat.ltb_spec 100 (AiParser.length r)),
             (Nat.ltb_spec 100 (Nat.min 200 (AiParser.length r)));
      try reflexivity; lia.
  - destruct (Nat.ltb_spec 50 (AiParser.length r)),
             (Nat.ltb_spec 50 (Nat.min 200 (AiParser.length r)));
      try reflexivity; lia.
Qed.

Lemma StronglySorted_weaken {A : Type} (R S : A -> A -> Prop) (l : list A) :
  (forall a b, R a b -> S a b) -> StronglySorted R l -> StronglySorted S l.
Proof.
  intros HRS Hs. induction Hs as [|a l Hs IH Hall]; constructor.
  - exact IH.
  - revert Hall. apply Forall_impl. intros b. apply HRS.
Qed.

(** The key of the sort orders the tiers as the specification does: a
    result whose key is not below that of another is of a tier that is not
    below the other's, where low is below medium and high, and medium
    below high. *)
Lemma sort_key_orders_tiers (a b : AiParser.strategy_result) :
  (AiParser.sort_key b <= AiParser.sort_key a)%Z <-> AiParser.ranks_no_lower a b.
Proof.
  unfold AiParser.ranks_no_lower, AiParser.sort_key.
  destruct (AiParser.confidence a), (AiParser.confidence b);
    cbn; split; intros Hk; try reflexivity; try discriminate; lia.
Qed.

(** C3.  The list that the prober returns is sorted by tier, high before
    medium before low: no result stands before a result of a higher tier.
    It holds the discovered results, those of one tier in their discovery
    order; and a scripted-evaluation result stands before every
    structured-query result of the same length. *)
Theorem strategies_sorted_stable :
  forall (sigma : Type) (P : AiParser.Page sigma) (page : sigma)
         (field_name : string),
    let out := AiParser.test_extraction_strategies page field_name in
    StronglySorted AiParser.ranks_no_lower out
    /\ Permutation out (AiParser.discovered page field_name)
    /\ (forall tier,
          filter (fun r => AiParser.tier_eqb (AiParser.confidence r) tier) out
          = filter (fun r => AiParser.tier_eqb (AiParser.confidence r) tier)
              (AiParser.discovered page field_name))
    /\ (forall i j a b,
          nth_error out i = Some a ->
          nth_error out j = Some b ->
          AiParser.strategy a = AiParser.javascript_evaluation ->
          AiParser.strategy b = AiParser.css_selector ->
          AiParser.length a = AiParser.length b ->
          i < j).
Proof.
  intros sigma P page field_name out. subst out.
  split; [|split; [|split]].
  - apply (StronglySorted_weaken
             (fun a b => (AiParser.sort_key b <= AiParser.sort_key a)%Z)).
    + intros a b. apply sort_key_orders_tiers.
    + apply (sort_reverse_sorted AiParser.sort_key).
  - apply sort_reverse_perm.
  - intros tier. unfold AiParser.test_extraction_strategies.
    assert (E : forall l,
               filter (fun r => AiParser.tier_eqb (AiParser.confidence r) tier) l
               = filter (fun r => Z.eqb (AiParser.sort_key r)
                                    (AiParser.confidence_order tier)) l).
    { intros l. apply filter_ext. intros r. unfold AiParser.sort_key.
      now destruct (AiParser.confidence r), tier. }
    rewrite !E. apply sort_reverse_stable.
  - apply js_before_css.
Qed.

Lemma strategies_sorted_stable_witness :
  nth_error (AiParser.test_extraction_strategies Sim.scenario_C "title") 0
  = Some (AiParser.mkResult AiParser.javascript_evaluation
            (Some "document.querySelector('h1')?.textContent?.trim()") None
            true Sim.title_150 150 AiParser.high)
  /\ nth_error (AiParser.test_extraction_strategies Sim.scenario_C "title") 1
     = Some (AiParser.mkResult AiParser.css_selector None (Some "h1")
               true Sim.title_150 150 AiParser.medium)
  /\ 0 < 1.
Proof.
  assert (Ha : nth_error (AiParser.test_extraction_strategies Sim.scenario_C "title") 0
               = Some (AiParser.mkResult AiParser.javascript_evaluation
                         (Some "document.querySelector('h1')?.textContent?.trim()")
                         None true Sim.title_150 150 AiParser.high))
    by (vm_compute; reflexivity).
  assert (Hb : nth_error (AiParser.test_extraction_strategies Sim.scenario_C "title") 1
               = Some (AiParser.mkResult AiParser.css_selector None (Some "h1")
                         true Sim.title_150 150 AiParser.medium))
    by (vm_compute; reflexivity).
  split; [exact Ha|]. split; [exact Hb|].
  exact (proj2 (proj2 (proj2
           (strategies_sorted_stable Sim.doc Sim.page Sim.scenario_C "title")))
           0 1 _ _ Ha Hb eq_refl eq_refl eq_refl).
Defined.

(** ** The interaction prober *)

Section ShowMoreFacts.
Import AiParser.
Context {sigma : Type} `{Page sigma}.

Lemma click_first_none (selectors : list string) :
  forall page : sigma,
    (forall sel, In sel selectors -> wait_for_selector page sel 2000 <> Element) ->
    click_first page selectors = (page, None).
Proof.
  induction selectors as [|sel rest IH]; intros page Hno; cbn [click_first].
  - reflexivity.
  - assert (Hsel := Hno sel (or_introl eq_refl)).
    destruct (wait_for_selector page sel 2000); try now destruct Hsel.
    all: apply IH; intros s Hs; apply Hno; now right.
Qed.
End ShowMoreFacts.

(** C6 (amended).  The interaction prober returns [needed = false] when no
    trigger fires (no selector finds a button, or no click succeeds) or the
    baseline cannot be measured, and [needed = true] whenever a trigger was
    clicked, whatever the two measured lengths are: the length after the
    click is reported, and it is not compared with the baseline. *)
Theorem show_more_needed_iff_clicked :
  forall (sigma : Type) (P : AiParser.Page sigma) (page : sigma),
    let r := snd (AiParser.test_show_more_button page) in
    let tried := AiParser.click_first page AiParser.button_selectors in
    (AiParser.needed r = true <->
     AiParser.evaluate_length page <> None /\ snd tried <> None)
    /\ ((forall sel, In sel AiParser.button_selectors ->
           AiParser.wait_for_selector page sel 2000 <> AiParser.Element) ->
        AiParser.needed r = false)
    /\ (forall before sel,
          AiParser.evaluate_length page = Some before ->
          snd tried = Some sel ->
          AiParser.needed r = true
          /\ AiParser.sm_selector r = Some sel
          /\ AiParser.before_length r = Some before
          /\ AiParser.after_length r
             = Some match AiParser.evaluate_length (fst tried) with
                    | Some n => n
                    | None => before
                    end).
Proof.
  intros sigma P page r tried. subst r tried.
  unfold AiParser.test_show_more_button.
  split; [|split].
  - destruct (AiParser.click_first page AiParser.button_selectors)
      as [page1 [sel|]];
      destruct (AiParser.evaluate_length page) as [before|];
      cbn [snd fst AiParser.needed]; split; try reflexivity;
      try (intros E; discriminate E).
    + intros _. split; intros E; discriminate E.
    + intros [Hn _]. now destruct Hn.
    + intros [_ Hn]. now destruct Hn.
    + intros [Hn _]. now destruct Hn.
  - intros Hno. rewrite (click_first_none _ page Hno).
    now destruct (AiParser.evaluate_length page).
  - intros before sel -> Hsel.
    destruct (AiParser.click_first page AiParser.button_selectors)
      as [page1 [sel'|]]; cbn [snd fst] in *; [|discriminate Hsel].
    injection Hsel as ->. now repeat split.
Qed.

Lemma show_more_needed_iff_clicked_witness :
  AiParser.needed (snd (AiParser.test_show_more_button Sim.scenario_C)) = false.
Proof.
  apply (proj1 (proj2 (show_more_needed_iff_clicked Sim.doc Sim.page Sim.scenario_C))).
  intros sel Hsel.
  cbn in Hsel.
  destruct Hsel as [<-|[<-|[<-|[<-|[]]]]]; vm_compute; discriminate.
Defined.

(** The claim as first stated fails: the button is clicked and the
    description has 1000 characters before and after, yet the prober
    returns [needed = true]. *)
Lemma unchanged_length_still_needed :
  let r := snd (AiParser.test_show_more_button Sim.idle_button) in
  AiParser.before_length r = Some 1000%Z
  /\ AiParser.after_length r = Some 1000%Z
  /\ AiParser.needed r = true.
Proof. vm_compute. repeat split; reflexivity. Qed.

(** ** Code generation *)

Section GenerationFacts.
Import AiParser.
Context {W : Type} `{Host W}.

Lemma check_fails_iff (script : string) :
  (exists e, snd (check_generated_script script) = Some e) <->
  valid_python_source script = false
  \/ ~ PyStr.Substring "page.evaluate(" script.
Proof.
  rewrite <- contains_Substring.
  unfold check_generated_script, validate_python_syntax, valid_python_source.
  destruct (ast_parse script) as [msg lineno|tree]; cbn [snd].
  - split; [now left | intros _; eexists; reflexivity].
  - destruct (PyStr.contains "page.evaluate(" script); cbn [negb snd].
    + destruct (py_compile script) as [[msg lineno]|].
      * split; [now left | intros _; eexists; reflexivity].
      * split.
        -- intros [e E]. discriminate E.
        -- intros [E|E]; [discriminate E | now destruct E].
    + split; [right; discriminate | intros _; eexists; reflexivity].
Qed.

Lemma structure_missing (script : string) (tree : module_ast) (f : string) :
  ast_parse script = Parsed tree ->
  In f required_functions ->
  ~ In f (function_defs tree) ->
  exists issues, validate_script_structure script = (false, issues).
Proof.
  intros E Hreq Hmiss. unfold validate_script_structure. rewrite E.
  set (missing := filter _ required_functions).
  assert (Hin : In f missing).
  { apply filter_In. split; [exact Hreq|].
    apply negb_true_iff, not_true_is_false. intros Hex.
    apply existsb_exists in Hex. destruct Hex as (g & Hg & Hfg).
    apply String.eqb_eq in Hfg. now subst g. }
  destruct missing as [|m ms]; [now destruct Hin|].
  eexists. reflexivity.
Qed.

Lemma check_warns_missing (script : string) (tree : module_ast) (f : string) :
  PyStr.contains "page.evaluate(" script = true ->
  ast_parse script = Parsed tree ->
  In f required_functions ->
  ~ In f (function_defs tree) ->
  exists issues, In (StructureIssues issues) (fst (check_generated_script script)).
Proof.
  intros Hc E Hreq Hmiss.
  destruct (structure_missing script tree f E Hreq Hmiss) as [issues Hs].
  exists issues.
  unfold check_generated_script, validate_python_syntax.
  rewrite E, Hs, Hc. cbn [negb fst]. apply in_or_app. right. now left.
Qed.

(** The warnings of the checks are the selector-loop warning and the
    issues of the structure check. *)
Lemma check_warnings (script : string) (x : warning) :
  In x (fst (check_generated_script script)) ->
  x = FragileSelectorLoops
  \/ exists issues,
       x = StructureIssues issues
       /\ validate_script_structure script = (false, issues).
Proof.
  unfold check_generated_script.
  destruct (validate_python_syntax script) as [[|] err]; [|now intros []].
  destruct (negb _); [now intros []|]. cbn [fst].
  intros Hx. apply in_app_or in Hx. destruct Hx as [Hx|Hx].
  - destruct (_ && _); [|now destruct Hx].
    destruct Hx as [<-|[]]. now left.
  - destruct (validate_script_structure script) as [[|] issues];
      [now destruct Hx|].
    destruct Hx as [<-|[]]. right. now exists issues.
Qed.

(** The loops over the strategies log the warning of the missing
    high-confidence strategy or nothing. *)
Lemma prompt_snippets_warnings (tested : list (string * list strategy_result)) :
  fst (prompt_snippets tested) = []
  \/ fst (prompt_snippets tested) = [NoHighConfidenceStrategies].
Proof.
  unfold prompt_snippets.
  destruct (js_code_snippets true tested) as [e|[|entry rest]]; auto.
Qed.

(** They raise when a scripted strategy that they take has no code. *)
Lemma prompt_snippets_raise (tested : list (string * list strategy_result))
    (e : exception) :
  snd (prompt_snippets tested) = inl e ->
  e = KeyError "code"
  /\ exists field strategies st,
       In (field, strategies) tested /\ In st strategies
       /\ strategy st = javascript_evaluation /\ code st = None.
Proof.
  unfold prompt_snippets.
  assert (Hraise : forall only_high,
            js_code_snippets only_high tested = inl e ->
            e = KeyError "code"
            /\ exists field strategies st,
                 In (field, strategies) tested /\ In st strategies
                 /\ strategy st = javascript_evaluation /\ code st = None).
  { intros only_high E. apply collect_codes_raises in E.
    destruct E as (He & field & strategies & st & Hin & Hfind & Hcode).
    split; [exact He|]. exists field, strategies, st.
    apply find_some in Hfind. destruct Hfind as [Hst Htest].
    split; [exact Hin|]. split; [exact Hst|]. split; [|exact Hcode].
    unfold snippet_test, is_js in Htest.
    now destruct (strategy st). }
  destruct (js_code_snippets true tested) as [e1|[|entry rest]] eqn:E1; cbn [snd].
  - intros [= <-]. now apply (Hraise true).
  - apply (Hraise false).
  - discriminate.
Qed.

(** What the generation mode does with the reply once the site and the
    job id are settled. *)
Lemma generation_after_reply (w : W) (path : string) (site : option JobSite)
    (s : JobSite) (job_id : string) :
  resolve_site (load_discovery_log w path) site = inr s ->
  log_job_id (load_discovery_log w path) = Some job_id ->
  PyStr.truthy job_id = true ->
  let log := load_discovery_log w path in
  let script := snd (generation_reply w s log) in
  let script_path := "generated_scripts/" ++ value s ++ "_scraper.py" in
  let g := run_generation_mode w path site in
  match snd (prompt_snippets (tested_strategies log)) with
  | inl e =>
      warnings g = fst (prompt_snippets (tested_strategies log))
      /\ artifact g = None /\ returned g = inl (str e)
  | inr _ =>
      (exists after,
          warnings g
          = (fst (prompt_snippets (tested_strategies log))
             ++ fst (check_generated_script script) ++ after)%list
          /\ (after = [] \/ after = [NoTestUrl]))
      /\ match snd (check_generated_script script) with
         | Some e => artifact g = None /\ returned g = inl e
         | None =>
             artifact g = Some (script_path, shebang ++ script)
             /\ (returned g = inr script_path
                 \/ (exists issues,
                       returned g
                       = inl ("Generated script validation failed: "
                              ++ PyStr.join ", " issues))
                 \/ (exists e w1 w2 signal,
                       returned g = inl (str e)
                       /\ request_fix_from_ai w1 script_path signal log
                          = (w2, inl e)))
         end
  end.
Proof.
  intros Hs Hj Ht log script script_path g. subst log script script_path g.
  unfold run_generation_mode. rewrite Hs, Hj, Ht. cbn [negb].
  destruct (prompt_snippets (tested_strategies (load_discovery_log w path)))
    as [w0 [e|snippets]]; cbn [fst snd]; [now repeat split|].
  destruct (generation_reply w s (load_discovery_log w path)) as [w1 script].
  cbn [snd].
  destruct (check_generated_script script) as [ws [e|]]; cbn [fst snd].
  - split; [|now split].
    exists []. rewrite app_nil_r. auto.
  - destruct (log_url (load_discovery_log w path)) as [url|].
    + destruct (PyStr.truthy url).
      * destruct (raised _) as [e|] eqn:Hr.
        -- cbn [artifact warnings returned].
           split; [exists []; rewrite app_nil_r; auto|].
           split; [reflexivity|]. right; right.
           destruct (validation_loop_raised _ _ _ _ _ _ _ _ _ Hr)
             as (wa & wb & signal & Hreq).
           now exists e, wa, wb, signal.
        -- destruct (passed _) eqn:Hp; cbn [artifact warnings returned].
           ++ split; [|now split; [|left]].
              exists []. rewrite app_nil_r. auto.
           ++ split; [|split; [reflexivity|right; left; eexists; reflexivity]].
              exists []. rewrite app_nil_r. auto.
      * cbn [artifact warnings returned]. split; [|now split; [|left]].
        exists [NoTestUrl]. rewrite app_assoc. auto.
    + cbn [artifact warnings returned]. split; [|now split; [|left]].
      exists [NoTestUrl]. rewrite app_assoc. auto.
Qed.
End GenerationFacts.

(** C7 (amended).  Once the site and the job id of the record are settled,
    code generation fails hard, with nothing written, exactly when one of
    three things happens: a scripted strategy of the log that the request
    would quote has no code (the loop over the strategies raises
    [KeyError] before the service is asked), or the text of the reply is
    not valid Python source ([ast.parse] or [compile] rejects it), or the
    text does not contain [page.evaluate(].  Otherwise the script is
    written under the name of the site, and from then on the only errors
    are that of a failed validation and the exception of a fix request of
    the validation that raises.  A missing required function
    (sanitize_filename, extract_job_id, scrape_linkedin_job,
    format_job_description, main) only adds a warning.  A value of the record
    that is written into the text is not looked for: the only warnings are
    those of the missing high-confidence strategy, of the selector loops, of
    the structure issues and of the missing test url.  (The read of the
    log, the call of the service and the write of the script are taken to
    return.) *)
Theorem generation_contract :
  forall (W : Type) (HW : AiParser.Host W) (w : W) (path : string)
         (site : option AiParser.JobSite) (s : AiParser.JobSite)
         (job_id : string),
    AiParser.resolve_site (AiParser.load_discovery_log w path) site = inr s ->
    AiParser.log_job_id (AiParser.load_discovery_log w path) = Some job_id ->
    PyStr.truthy job_id = true ->
    let log := AiParser.load_discovery_log w path in
    let script := snd (AiParser.generation_reply w s log) in
    let snippets :=
      snd (AiParser.prompt_snippets (AiParser.tested_strategies log)) in
    let g := AiParser.run_generation_mode w path site in
    (AiParser.artifact g = None <->
     (exists e, snippets = inl e)
     \/ AiParser.valid_python_source script = false
     \/ ~ PyStr.Substring "page.evaluate(" script)
    /\ (AiParser.artifact g = None -> exists e, AiParser.returned g = inl e)
    /\ (forall a, AiParser.artifact g = Some a ->
          a = ("generated_scripts/" ++ AiParser.value s ++ "_scraper.py",
               AiParser.shebang ++ script))
    /\ (forall tree f,
          AiParser.artifact g <> None ->
          AiParser.ast_parse script = AiParser.Parsed tree ->
          In f AiParser.required_functions ->
          ~ In f (AiParser.function_defs tree) ->
          exists issues, In (AiParser.StructureIssues issues) (AiParser.warnings g))
    /\ (forall e,
          AiParser.artifact g <> None ->
          AiParser.returned g = inl e ->
          (exists issues,
             e = "Generated script validation failed: " ++ PyStr.join ", " issues)
          \/ (exists x w1 w2 signal,
                e = AiParser.str x
                /\ AiParser.request_fix_from_ai w1
                     ("generated_scripts/" ++ AiParser.value s ++ "_scraper.py")
                     signal log
                   = (w2, inl x)))
    /\ (forall x, In x (AiParser.warnings g) ->
          x = AiParser.NoHighConfidenceStrategies
          \/ x = AiParser.FragileSelectorLoops
          \/ x = AiParser.NoTestUrl
          \/ exists issues,
               x = AiParser.StructureIssues issues
               /\ AiParser.validate_script_structure script = (false, issues))
    /\ (forall e,
          snippets = inl e ->
          e = AiParser.KeyError "code"
          /\ AiParser.returned g = inl "'code'"
          /\ exists field strategies st,
               In (field, strategies) (AiParser.tested_strategies log)
               /\ In st strategies
               /\ AiParser.strategy st = AiParser.javascript_evaluation
               /\ AiParser.code st = None).
Proof.
  intros W HW w path site s job_id Hs Hj Ht log script snippets g.
  assert (Hg := generation_after_reply w path site s job_id Hs Hj Ht).
  cbn zeta in Hg. fold log in Hg. fold script snippets g in Hg.
  assert (Hbefore := prompt_snippets_warnings (AiParser.tested_strategies log)).
  assert (Hraise := prompt_snippets_raise (AiParser.tested_strategies log)).
  fold snippets in Hraise.
  set (before := fst (AiParser.prompt_snippets (AiParser.tested_strategies log)))
    in *.
  assert (Hfail := check_fails_iff script).
  destruct snippets as [x|found] eqn:Hsn.
  - destruct Hg as (Hw & Ha & Hr).
    destruct (Hraise x eq_refl) as [-> Hst].
    split; [|split; [|split; [|split; [|split; [|split]]]]].
    + split; [intros _; left; now exists (AiParser.KeyError "code")
             | intros _; exact Ha].
    + intros _. eexists. exact Hr.
    + intros a Ea. rewrite Ha in Ea. discriminate Ea.
    + intros tree f Hne. now destruct Hne.
    + intros e' Hne. now destruct Hne.
    + intros y Hy. rewrite Hw in Hy.
      destruct Hbefore as [E|E]; rewrite E in Hy; [now destruct Hy|].
      destruct Hy as [<-|[]]. now left.
    + intros e [= <-]. split; [reflexivity|]. split; [exact Hr | exact Hst].
  - destruct Hg as [(after & Hw & Hafter) Hg].
    assert (Hwarn : forall x, In x (AiParser.warnings g) ->
              x = AiParser.NoHighConfidenceStrategies
              \/ x = AiParser.FragileSelectorLoops
              \/ x = AiParser.NoTestUrl
              \/ exists issues,
                   x = AiParser.StructureIssues issues
                   /\ AiParser.validate_script_structure script = (false, issues)).
    { intros x Hx. rewrite Hw in Hx.
      apply in_app_or in Hx. destruct Hx as [Hx|Hx].
      - destruct Hbefore as [E|E]; rewrite E in Hx; [now destruct Hx|].
        destruct Hx as [<-|[]]. now left.
      - apply in_app_or in Hx. destruct Hx as [Hx|Hx].
        + destruct (check_warnings script x Hx) as [->|Hi]; [now right; left|].
          now right; right; right.
        + destruct Hafter as [E|E]; rewrite E in Hx; [now destruct Hx|].
          destruct Hx as [<-|[]]. now right; right; left. }
    destruct (snd (AiParser.check_generated_script script)) as [e|] eqn:Hc.
    + destruct Hg as [Ha Hr].
      split; [|split; [|split; [|split; [|split; [|split]]]]].
      * split; [intros _; right; apply Hfail; now exists e | intros _; exact Ha].
      * intros _. now exists e.
      * intros a Ea. rewrite Ha in Ea. discriminate Ea.
      * intros tree f Hne. now destruct Hne.
      * intros e' Hne. now destruct Hne.
      * exact Hwarn.
      * intros x Hx. discriminate Hx.
    + destruct Hg as [Ha Hret].
      assert (Hgood : PyStr.contains "page.evaluate(" script = true).
      { destruct (PyStr.contains "page.evaluate(" script) eqn:E; [reflexivity|].
        assert (Hbad : exists e, @None string = Some e).
        { apply Hfail. right. rewrite <- contains_Substring, E. discriminate. }
        destruct Hbad as [e E']. discriminate E'. }
      split; [|split; [|split; [|split; [|split; [|split]]]]].
      * split.
        -- intros Ea. rewrite Ha in Ea. discriminate Ea.
        -- intros [[x Hx]|Hbad]; [discriminate Hx|].
           apply Hfail in Hbad. destruct Hbad as [e E]. discriminate E.
      * intros Ea. rewrite Ha in Ea. discriminate Ea.
      * intros a Ea. rewrite Ha in Ea. now injection Ea as <-.
      * intros tree f _ Etree Hreq Hmiss.
        destruct (check_warns_missing script tree f Hgood Etree Hreq Hmiss)
          as [issues Hin].
        exists issues. rewrite Hw. apply in_or_app. right.
        apply in_or_app. now left.
      * intros e _ He.
        destruct Hret as [Hret|[[issues Hret]|(x & w1 & w2 & sg & Hret & Hreq)]];
          rewrite Hret in He.
        -- discriminate He.
        -- injection He as <-. left. now exists issues.
        -- injection He as <-. right. now exists x, w1, w2, sg.
      * exact Hwarn.
      * intros x Hx. discriminate Hx.
Qed.

Lemma generation_contract_witness :
  ("generated_scripts/linkedin_scraper.py",
   AiParser.shebang ++ Sim.script_with_fixed_id)
  = ("generated_scripts/" ++ AiParser.value AiParser.LINKEDIN ++ "_scraper.py",
     AiParser.shebang
     ++ snd (AiParser.generation_reply (Sim.generation_setup "linkedin" Sim.script_with_fixed_id)
               AiParser.LINKEDIN
               (AiParser.load_discovery_log (Sim.generation_setup "linkedin" Sim.script_with_fixed_id)
                  "discovery_logs/linkedin_discovery.json"))).
Proof.
  assert (E : AiParser.artifact
                (AiParser.run_generation_mode (Sim.generation_setup "linkedin" Sim.script_with_fixed_id)
                   "discovery_logs/linkedin_discovery.json" None)
              = Some ("generated_scripts/linkedin_scraper.py",
                      AiParser.shebang ++ Sim.script_with_fixed_id))
    by (vm_compute; reflexivity).
  exact (proj1 (proj2 (proj2
           (generation_contract Sim.state Sim.host
              (Sim.generation_setup "linkedin" Sim.script_with_fixed_id)
              "discovery_logs/linkedin_discovery.json" None
              AiParser.LINKEDIN "4300362234" eq_refl eq_refl eq_refl)))
           _ E).
Defined.

(** The claim as first stated fails three times.  A reply that
    [ast.parse] accepts and that calls [page.evaluate(] still fails hard,
    when [compile] refuses it.  A reply that writes the job id of the
    record into the script draws no warning at all: the script is written
    and its path returned.  And with a log whose scripted strategy of the
    title has no code, generation fails hard with the [KeyError] of the
    key, although the reply of the service is valid source that calls
    [page.evaluate(]. *)
Lemma generation_contract_gaps :
  let stray := AiParser.run_generation_mode
                 (Sim.generation_setup "linkedin" Sim.script_with_stray_return)
                 "discovery_logs/linkedin_discovery.json" None in
  let fixed := AiParser.run_generation_mode
                 (Sim.generation_setup "linkedin" Sim.script_with_fixed_id)
                 "discovery_logs/linkedin_discovery.json" None in
  let keyless := AiParser.run_generation_mode Sim.setup_without_code
                   "discovery_logs/linkedin_discovery.json" None in
  (AiParser.validate_python_syntax (W := Sim.state) Sim.script_with_stray_return
   = (true, None)
   /\ PyStr.contains "page.evaluate(" Sim.script_with_stray_return = true
   /\ AiParser.artifact stray = None
   /\ AiParser.returned stray
      = inl "Generated script has syntax error: 'return' outside function at line 1")
  /\ (AiParser.log_job_id
        (Sim.log (Sim.generation_setup "linkedin" Sim.script_with_fixed_id))
      = Some "4300362234"
      /\ PyStr.contains "4300362234" Sim.script_with_fixed_id = true
      /\ AiParser.warnings fixed = []
      /\ AiParser.artifact fixed
         = Some ("generated_scripts/linkedin_scraper.py",
                 AiParser.shebang ++ Sim.script_with_fixed_id)
      /\ AiParser.returned fixed = inr "generated_scripts/linkedin_scraper.py")
  /\ (snd (AiParser.generation_reply Sim.setup_without_code AiParser.LINKEDIN
             Sim.log_without_code)
      = Sim.script_with_fixed_id
      /\ AiParser.valid_python_source (W := Sim.state) Sim.script_with_fixed_id
         = true
      /\ PyStr.contains "page.evaluate(" Sim.script_with_fixed_id = true
      /\ AiParser.artifact keyless = None
      /\ AiParser.returned keyless = inl "'code'").
Proof. vm_compute. repeat split; reflexivity. Qed.




(** ** Regular expressions *)

Section ReFacts.
Import Re.

Lemma lower_char_idem (c : ascii) :
  PyStr.lower_char (PyStr.lower_char c) = PyStr.lower_char c.
Proof. destruct c as [[] [] [] [] [] [] [] []]; reflexivity. Qed.

Lemma lit_matches_lower (x c : ascii) :
  atom_matches true (Lit x) (PyStr.lower_char c) = atom_matches true (Lit x) c.
Proof. cbn. now rewrite lower_char_idem. Qed.

Lemma search_unfold (ic : bool) (p : pattern) (s : string) :
  search ic p s =
  match match_here ic p None s with
  | Some m => Some m
  | None =>
      match s with
      | String _ s' => search ic p s'
      | EmptyString => None
      end
  end.
Proof. destruct s; reflexivity. Qed.

Lemma search_skip (ic : bool) (p : pattern) (c : ascii) (s : string) :
  match_here ic p None (String c s) = None ->
  search ic p (String c s) = search ic p s.
Proof. intros E. rewrite search_unfold. now rewrite E. Qed.

Lemma search_here (ic : bool) (p : pattern) (s : string) (m : match_object) :
  match_here ic p None s = Some m -> search ic p s = Some m.
Proof. intros E. rewrite search_unfold. now rewrite E. Qed.

Lemma search_inv (ic : bool) (p : pattern) (s : string) (m : match_object) :
  search ic p s = Some m ->
  exists before after, s = before ++ after /\ match_here ic p None after = Some m.
Proof.
  induction s as [|c s IH]; rewrite search_unfold.
  - destruct (match_here ic p None "") eqn:E; [|discriminate].
    intros [= <-]. now exists "", "".
  - destruct (match_here ic p None (String c s)) eqn:E.
    + intros [= <-]. now exists "", (String c s).
    + intros Hs. destruct (IH Hs) as (before & after & -> & Hm).
      now exists (String c before), after.
Qed.

(** *** Runs of literals *)

Lemma lits_app (p q : string) : lits (p ++ q) = (lits p ++ lits q)%list.
Proof. induction p as [|c p IH]; cbn; [reflexivity | now rewrite IH]. Qed.

Lemma match_here_lits_prefix (ic : bool) (p : string) (rest : pattern)
    (g : match_object) :
  forall s m,
    match_here ic (lits p ++ rest)%list g s = Some m ->
    match_here ic (lits p) g s = Some g.
Proof.
  induction p as [|c p IH]; intros s m; cbn [lits app match_here].
  - reflexivity.
  - destruct s as [|d s]; [discriminate|].
    destruct (atom_matches ic (Lit c) d); [apply IH | discriminate].
Qed.

Lemma match_here_lits_lower (p : string) (g : match_object) :
  forall s,
    match_here true (lits p) g (PyStr.lower s) = match_here true (lits p) g s.
Proof.
  induction p as [|c p IH]; intros s; cbn [lits match_here].
  - reflexivity.
  - destruct s as [|d s]; [reflexivity|].
    cbn [PyStr.lower]. rewrite lit_matches_lower, IH. reflexivity.
Qed.

Lemma match_here_lits_app (ic : bool) (p : string) (g : match_object) :
  forall a b m,
    match_here ic (lits p) g a = Some m ->
    match_here ic (lits p) g (a ++ b) = Some m.
Proof.
  induction p as [|c p IH]; intros a b m; cbn [lits match_here].
  - auto.
  - destruct a as [|d a]; [discriminate|]. cbn [append].
    destruct (atom_matches ic (Lit c) d); [apply IH | discriminate].
Qed.

Lemma found_nil (ic : bool) (p : pattern) :
  found ic p "" =
  match match_here ic p None "" with Some _ => true | None => false end.
Proof. unfold found. cbn [search]. now destruct (match_here ic p None ""). Qed.

Lemma found_cons (ic : bool) (p : pattern) (c : ascii) (s : string) :
  found ic p (String c s) =
  match match_here ic p None (String c s) with
  | Some _ => true
  | None => found ic p s
  end.
Proof.
  unfold found. rewrite (search_unfold ic p (String c s)).
  now destruct (match_here ic p None (String c s)).
Qed.

Lemma found_lits_app (ic : bool) (p a b : string) :
  found ic (lits p) a = true -> found ic (lits p) (a ++ b) = true.
Proof.
  induction a as [|c a IH].
  - rewrite found_nil.
    destruct (match_here ic (lits p) None "") eqn:E; [|discriminate].
    intros _. assert (E' := match_here_lits_app ic p None "" b _ E).
    cbn [append] in *. destruct b; [now rewrite found_nil, E'|].
    now rewrite found_cons, E'.
  - cbn [append]. rewrite !found_cons.
    destruct (match_here ic (lits p) None (String c a)) eqn:E.
    + intros _.
      assert (E' := match_here_lits_app ic p None _ b _ E).
      cbn [append] in E'. now rewrite E'.
    + intros Hs.
      destruct (match_here ic (lits p) None (String c (a ++ b)));
        [reflexivity | now apply IH].
Qed.

(** A longer run found in a text is found, as its head alone, in the
    lower-cased text. *)
Lemma found_lits_weaken (p q s : string) :
  found true (lits (p ++ q)) s = true ->
  found true (lits p) (PyStr.lower s) = true.
Proof.
  rewrite lits_app.
  induction s as [|c s IH].
  - cbn [PyStr.lower]. rewrite !found_nil.
    destruct (match_here true (lits p ++ lits q)%list None "") eqn:E;
      [|discriminate].
    intros _. now rewrite (match_here_lits_prefix _ _ _ _ _ _ E).
  - cbn [PyStr.lower]. rewrite !found_cons.
    change (String (PyStr.lower_char c) (PyStr.lower s))
      with (PyStr.lower (String c s)).
    rewrite match_here_lits_lower.
    destruct (match_here true (lits p ++ lits q)%list None (String c s)) eqn:E.
    + intros _. now rewrite (match_here_lits_prefix _ _ _ _ _ _ E).
    + intros Hs.
      destruct (match_here true (lits p) None (String c s));
        [reflexivity | now apply IH].
Qed.
End ReFacts.

(** C10 (amended).  Among the urls whose characters are code points below
    256, every url that [ai_parser.detect_job_site] classifies is
    classified by [url_utils.detect_job_site] too, as the same family or as a
    family registered earlier, and as LinkedIn when the first says
    LinkedIn.  The converse fails, and the two families can differ.
    Nothing is claimed of a url with a character above that range: there
    the lowering of the url, which [url_utils] searches, can differ in
    length from the url, which [ai_parser] searches. *)
Theorem ai_parser_site_classified_by_url_utils :
  forall (url : string) (s : AiParser.JobSite),
    AiParser.detect_job_site url = inr s ->
    exists s',
      UrlUtils.detect_job_site url = Some s'
      /\ UrlUtils.index s' <= AiParser.index s
      /\ (UrlUtils.index s' = AiParser.index s <->
          UrlUtils.value s' = AiParser.value s)
      /\ (s = AiParser.LINKEDIN -> s' = UrlUtils.LINKEDIN).
Proof.
  intros url s.
  unfold AiParser.detect_job_site, UrlUtils.detect_job_site.
  cbn [AiParser.first_url_match AiParser.SITE_CONFIGS_keys
       UrlUtils.first_domain_match UrlUtils.SITE_PATTERNS_keys
       AiParser.SITE_CONFIGS AiParser.url_pattern
       UrlUtils.SITE_PATTERNS UrlUtils.domain_pattern].
  assert (Hl := found_lits_weaken "linkedin.com" "/jobs" url).
  assert (Hi := found_lits_weaken "indeed.com" "/viewjob" url).
  assert (Hg := found_lits_weaken "glassdoor.com" "/job-listing" url).
  change ("linkedin.com" ++ "/jobs") with "linkedin.com/jobs" in Hl.
  change ("indeed.com" ++ "/viewjob") with "indeed.com/viewjob" in Hi.
  change ("glassdoor.com" ++ "/job-listing") with "glassdoor.com/job-listing" in Hg.
  destruct (Re.found true (Re.lits "linkedin.com/jobs") url).
  - intros [= <-]. rewrite (Hl eq_refl).
    exists UrlUtils.LINKEDIN. cbn. repeat split; auto.
  - destruct (Re.found true (Re.lits "indeed.com/viewjob") url).
    + intros [= <-].
      destruct (Re.found true (Re.lits "linkedin.com") (PyStr.lower url)).
      * exists UrlUtils.LINKEDIN. cbn.
        repeat split; auto; try discriminate.
      * rewrite (Hi eq_refl). exists UrlUtils.INDEED. cbn.
        repeat split; auto; discriminate.
    + destruct (Re.found true (Re.lits "glassdoor.com/job-listing") url);
        [|discriminate].
      intros [= <-].
      destruct (Re.found true (Re.lits "linkedin.com") (PyStr.lower url)).
      * exists UrlUtils.LINKEDIN. cbn.
        repeat split; auto; try discriminate.
      * destruct (Re.found true (Re.lits "indeed.com") (PyStr.lower url)).
        -- exists UrlUtils.INDEED. cbn.
           repeat split; auto; try discriminate.
        -- rewrite (Hg eq_refl). exists UrlUtils.GLASSDOOR. cbn.
           repeat split; auto; discriminate.
Qed.

Lemma ai_parser_site_classified_by_url_utils_witness :
  exists s',
    UrlUtils.detect_job_site "https://www.indeed.com/viewjob?jk=d7a8476f98b7ec44"
    = Some s'
    /\ UrlUtils.index s' <= AiParser.index AiParser.INDEED
    /\ (UrlUtils.index s' = AiParser.index AiParser.INDEED <->
        UrlUtils.value s' = AiParser.value AiParser.INDEED)
    /\ (AiParser.INDEED = AiParser.LINKEDIN -> s' = UrlUtils.LINKEDIN).
Proof.
  apply (ai_parser_site_classified_by_url_utils
           "https://www.indeed.com/viewjob?jk=d7a8476f98b7ec44" AiParser.INDEED).
  vm_compute. reflexivity.
Defined.

(** The claim as first stated fails in both ways: a LinkedIn url that is not
    under [/jobs] is classified by [url_utils] only, and an Indeed url that
    mentions [linkedin.com] is Indeed for [ai_parser] and LinkedIn for
    [url_utils]. *)
Lemma site_classifiers_disagree :
  (UrlUtils.detect_job_site "https://www.linkedin.com/feed" = Some UrlUtils.LINKEDIN
   /\ exists e, AiParser.detect_job_site "https://www.linkedin.com/feed" = inl e)
  /\ (AiParser.detect_job_site
        "https://www.indeed.com/viewjob?jk=d7a8476f98b7ec44&from=linkedin.com"
      = inr AiParser.INDEED
      /\ UrlUtils.detect_job_site
           "https://www.indeed.com/viewjob?jk=d7a8476f98b7ec44&from=linkedin.com"
         = Some UrlUtils.LINKEDIN).
Proof.
  split; split; try (vm_compute; reflexivity).
  eexists. vm_compute. reflexivity.
Qed.

(** ** Greedy repetition and the captured group *)

Section GreedyFacts.
Import Re.
Context {R : Type}.
Variable ok : ascii -> bool.

(** A repetition that succeeds has taken a run of [ok] characters and
    handed the rest to its continuation. *)
Lemma star_inv :
  forall (s : string) (k : string -> string -> option R) (r : R),
    star ok k s = Some r ->
    exists taken rest,
      s = taken ++ rest /\ all_chars ok taken = true /\ k taken rest = Some r.
Proof.
  induction s as [|c s IH]; intros k r; cbn [star].
  - intros E. now exists "", "".
  - destruct (ok c) eqn:Hc; [|intros E; now exists "", (String c s)].
    destruct (star ok (fun m r0 => k (String c m) r0) s) as [r'|] eqn:Hs.
    + intros [= <-]. destruct (IH _ _ Hs) as (taken & rest & -> & Hall & Hk).
      exists (String c taken), rest. cbn. now rewrite Hc, Hall.
    + intros E. now exists "", (String c s).
Qed.

Lemma plus_inv (s : string) (k : string -> string -> option R) (r : R) :
  plus ok k s = Some r ->
  exists taken rest,
    s = taken ++ rest /\ taken <> "" /\ all_chars ok taken = true
    /\ k taken rest = Some r.
Proof.
  unfold plus. destruct s as [|c s]; [discriminate|].
  destruct (ok c) eqn:Hc; [|discriminate].
  intros Hs. destruct (star_inv _ _ _ Hs) as (taken & rest & -> & Hall & Hk).
  exists (String c taken), rest. cbn. rewrite Hc, Hall.
  repeat split; [discriminate | exact Hk].
Qed.

(** At the end of the text a repetition takes a whole run of [ok]
    characters, if the continuation accepts that. *)
Lemma star_all :
  forall (s : string) (k : string -> string -> option R) (r : R),
    all_chars ok s = true -> k s "" = Some r -> star ok k s = Some r.
Proof.
  induction s as [|c s IH]; intros k r; cbn [star all_chars].
  - auto.
  - intros Hall Hk. apply andb_true_iff in Hall. destruct Hall as [Hc Hall].
    rewrite Hc. now rewrite (IH (fun m r0 => k (String c m) r0) r Hall Hk).
Qed.

Lemma plus_all (s : string) (k : string -> string -> option R) (r : R) :
  s <> "" -> all_chars ok s = true -> k s "" = Some r -> plus ok k s = Some r.
Proof.
  destruct s as [|c s]; [now intros []|]. intros _ Hall Hk.
  cbn [all_chars] in Hall. apply andb_true_iff in Hall. destruct Hall as [Hc Hall].
  unfold plus. rewrite Hc. now apply star_all.
Qed.

(** A repetition fails when its continuation refuses the empty text and
    every text that starts with a character of the text at hand. *)
Lemma star_none (bad : ascii -> bool) :
  forall (s : string) (k : string -> string -> option R),
    (forall m, k m "" = None) ->
    (forall m c rest, bad c = true -> k m (String c rest) = None) ->
    all_chars bad s = true ->
    star ok k s = None.
Proof.
  induction s as [|c s IH]; intros k Hend Hbad; cbn [star all_chars].
  - intros _. apply Hend.
  - intros Hall. apply andb_true_iff in Hall. destruct Hall as [Hc Hall].
    rewrite (Hbad _ _ _ Hc).
    rewrite (IH (fun m r0 => k (String c m) r0)); auto.
    now destruct (ok c).
Qed.
End GreedyFacts.

Section GroupFacts.
Import Re.

(** The group of a pattern that ends in [(a+)] holds a non-empty run of
    characters that match [a]. *)
Lemma match_here_last_group (ic : bool) (a : atom) :
  forall (pre : pattern) (g : match_object) (s : string) (m : match_object),
    match_here ic (pre ++ [GroupPlus a])%list g s = Some m ->
    exists id, m = Some id /\ id <> ""
               /\ all_chars (atom_matches ic a) id = true.
Proof.
  induction pre as [|[b|b|b] pre IH]; intros g s m; cbn [app match_here].
  - intros Hp. destruct (plus_inv _ _ _ _ Hp) as (taken & rest & _ & Hne & Hall & Hk).
    injection Hk as <-. now exists taken.
  - destruct s as [|c s]; [discriminate|].
    destruct (atom_matches ic b c); [apply IH | discriminate].
  - intros Hp. destruct (plus_inv _ _ _ _ Hp) as (taken & rest & _ & _ & _ & Hk).
    exact (IH _ _ _ Hk).
  - intros Hp. destruct (plus_inv _ _ _ _ Hp) as (taken & rest & _ & _ & _ & Hk).
    exact (IH _ _ _ Hk).
Qed.

Lemma search_last_group (ic : bool) (a : atom) (pre : pattern) (s : string)
    (m : match_object) :
  search ic (pre ++ [GroupPlus a])%list s = Some m ->
  exists id, m = Some id /\ id <> ""
             /\ all_chars (atom_matches ic a) id = true.
Proof.
  intros Hs. destruct (search_inv _ _ _ _ Hs) as (before & after & _ & Hm).
  exact (match_here_last_group ic a pre None after m Hm).
Qed.

(** A pattern that starts with a single atom is found nowhere in a text
    none of whose characters matches that atom. *)
Lemma search_none_first (ic : bool) (a : atom) (p : pattern) :
  forall s,
    all_chars (fun c => negb (atom_matches ic a c)) s = true ->
    search ic (One a :: p) s = None.
Proof.
  induction s as [|c s IH]; cbn [all_chars]; intros Hall.
  - reflexivity.
  - apply andb_true_iff in Hall. destruct Hall as [Hc Hall].
    apply negb_true_iff in Hc.
    rewrite search_skip; [now apply IH|].
    cbn [match_here]. now rewrite Hc.
Qed.

Lemma all_chars_impl (f g : ascii -> bool) (s : string) :
  (forall c, f c = true -> g c = true) ->
  all_chars f s = true -> all_chars g s = true.
Proof.
  intros Hfg. induction s as [|c s IH]; cbn [all_chars]; [reflexivity|].
  intros Hall. apply andb_true_iff in Hall. destruct Hall as [Hc Hall].
  now rewrite (Hfg _ Hc), IH.
Qed.

Lemma all_chars_lower (f : ascii -> bool) (s : string) :
  all_chars (fun c => f (PyStr.lower_char c)) s = all_chars f (PyStr.lower s).
Proof.
  induction s as [|c s IH]; cbn [all_chars PyStr.lower]; [reflexivity|].
  now rewrite IH.
Qed.

(** [strip] leaves a text that starts and ends with a character that is
    not white space. *)
Lemma rstrip_keeps (s : string) :
  s <> "" ->
  all_chars (fun c => negb (PyStr.is_space c)) s = true ->
  PyStr.rstrip s = s.
Proof.
  induction s as [|c s IH]; [now intros []|].
  intros _ Hall. cbn [all_chars] in Hall.
  apply andb_true_iff in Hall. destruct Hall as [Hc Hall].
  apply negb_true_iff in Hc. cbn [PyStr.rstrip].
  destruct s as [|d s].
  - cbn. now rewrite Hc.
  - rewrite IH by (discriminate || exact Hall). reflexivity.
Qed.

Lemma rstrip_app_keeps (a s : string) :
  s <> "" ->
  all_chars (fun c => negb (PyStr.is_space c)) s = true ->
  PyStr.rstrip (a ++ s) = a ++ s.
Proof.
  intros Hne Hall. induction a as [|c a IH]; cbn [append].
  - now apply rstrip_keeps.
  - cbn [PyStr.rstrip]. rewrite IH.
    destruct (a ++ s) eqn:E; [|reflexivity].
    destruct a; [now destruct Hne | discriminate E].
Qed.
End GroupFacts.

(** ** Normalising a canonical url again *)

Section UrlFacts.
Import Re UrlUtils.

Lemma match_here_one (ic : bool) (a : atom) (p : pattern) (g : match_object)
    (c : ascii) (s : string) :
  atom_matches ic a c = true ->
  match_here ic (One a :: p) g (String c s) = match_here ic p g s.
Proof. intros E. cbn [match_here]. now rewrite E. Qed.

Lemma match_here_group_end (ic : bool) (a : atom) (g : match_object)
    (id : string) :
  id <> "" ->
  all_chars (atom_matches ic a) id = true ->
  match_here ic [GroupPlus a] g id = Some (Some id).
Proof. intros Hne Hall. cbn [match_here]. now apply plus_all. Qed.

Lemma digit_facts (c : ascii) :
  atom_matches true Digit c = true ->
  PyStr.is_space c = false
  /\ atom_matches true (Lit "l") (PyStr.lower_char c) = false
  /\ atom_matches true (Lit "i") (PyStr.lower_char c) = false
  /\ atom_matches true (Lit "g") (PyStr.lower_char c) = false
  /\ atom_matches true (Lit "j") c = false
  /\ atom_matches true (Lit "-") c = false.
Proof.
  destruct c as [[] [] [] [] [] [] [] []]; vm_compute; intros E;
    try discriminate E; repeat split.
Qed.

Lemma hex_facts (c : ascii) :
  atom_matches true (OneOf hex_ranges) c = true ->
  PyStr.is_space c = false
  /\ atom_matches true (Lit "l") (PyStr.lower_char c) = false.
Proof.
  destruct c as [[] [] [] [] [] [] [] []]; vm_compute; intros E;
    try discriminate E; repeat split.
Qed.

Ltac skip_to_match :=
  repeat (rewrite search_skip by reflexivity).

Ltac match_literals :=
  repeat (rewrite match_here_one by reflexivity).

Lemma linkedin_canonical (id : string) :
  id <> "" ->
  all_chars (atom_matches true Digit) id = true ->
  normalize_job_url ("https://www.linkedin.com/jobs/view/" ++ id)
  = inr (mkJobURL LINKEDIN id ("https://www.linkedin.com/jobs/view/" ++ id)
           ("https://www.linkedin.com/jobs/view/" ++ id)).
Proof.
  intros Hne Hall.
  assert (Hsp : all_chars (fun c => negb (PyStr.is_space c)) id = true).
  { revert Hall. apply all_chars_impl. intros c Hc.
    now rewrite (proj1 (digit_facts c Hc)). }
  assert (Hstrip : PyStr.strip ("https://www.linkedin.com/jobs/view/" ++ id)
                   = "https://www.linkedin.com/jobs/view/" ++ id).
  { unfold PyStr.strip.
    change (PyStr.lstrip ("https://www.linkedin.com/jobs/view/" ++ id))
      with ("https://www.linkedin.com/jobs/view/" ++ id).
    now apply rstrip_app_keeps. }
  assert (Hdet : detect_job_site ("https://www.linkedin.com/jobs/view/" ++ id)
                 = Some LINKEDIN).
  { unfold detect_job_site. rewrite lower_app.
    cbn [first_domain_match SITE_PATTERNS_keys SITE_PATTERNS domain_pattern].
    rewrite found_lits_app; [reflexivity|]. vm_compute. reflexivity. }
  assert (Hext : extract_job_id ("https://www.linkedin.com/jobs/view/" ++ id) LINKEDIN
                 = Some id).
  { unfold extract_job_id.
    cbn [SITE_PATTERNS job_id_pattern lits app append].
    skip_to_match.
    rewrite (search_here _ _ _ (Some id)); [reflexivity|].
    match_literals. now apply match_here_group_end. }
  unfold normalize_job_url.
  change (PyStr.truthy ("https://www.linkedin.com/jobs/view/" ++ id)) with true.
  cbn [negb]. rewrite Hstrip, Hdet, Hext.
  destruct id as [|c id]; [now destruct Hne|]. reflexivity.
Qed.

Lemma indeed_canonical (id : string) :
  id <> "" ->
  all_chars (atom_matches true (OneOf hex_ranges)) id = true ->
  normalize_job_url ("https://www.indeed.com/viewjob?jk=" ++ id)
  = inr (mkJobURL INDEED id ("https://www.indeed.com/viewjob?jk=" ++ id)
           ("https://www.indeed.com/viewjob?jk=" ++ id)).
Proof.
  intros Hne Hall.
  assert (Hsp : all_chars (fun c => negb (PyStr.is_space c)) id = true).
  { revert Hall. apply all_chars_impl. intros c Hc.
    now rewrite (proj1 (hex_facts c Hc)). }
  assert (Hstrip : PyStr.strip ("https://www.indeed.com/viewjob?jk=" ++ id)
                   = "https://www.indeed.com/viewjob?jk=" ++ id).
  { unfold PyStr.strip.
    change (PyStr.lstrip ("https://www.indeed.com/viewjob?jk=" ++ id))
      with ("https://www.indeed.com/viewjob?jk=" ++ id).
    now apply rstrip_app_keeps. }
  assert (Hdet : detect_job_site ("https://www.indeed.com/viewjob?jk=" ++ id)
                 = Some INDEED).
  { unfold detect_job_site. rewrite lower_app.
    cbn [first_domain_match SITE_PATTERNS_keys SITE_PATTERNS domain_pattern].
    assert (Hl : found true (lits "linkedin.com")
                   (PyStr.lower "https://www.indeed.com/viewjob?jk="
                    ++ PyStr.lower id) = false).
    { unfold found.
      change (PyStr.lower "https://www.indeed.com/viewjob?jk=")
        with "https://www.indeed.com/viewjob?jk=".
      cbn [lits append].
      skip_to_match.
      rewrite search_none_first; [reflexivity|].
      rewrite <- all_chars_lower. revert Hall. apply all_chars_impl.
      intros c Hc. now rewrite (proj2 (hex_facts c Hc)). }
    rewrite Hl.
    rewrite found_lits_app; [reflexivity|]. vm_compute. reflexivity. }
  assert (Hext : extract_job_id ("https://www.indeed.com/viewjob?jk=" ++ id) INDEED
                 = Some id).
  { unfold extract_job_id.
    cbn [SITE_PATTERNS job_id_pattern lits app append].
    skip_to_match.
    rewrite (search_here _ _ _ (Some id)); [reflexivity|].
    match_literals. now apply match_here_group_end. }
  unfold normalize_job_url.
  change (PyStr.truthy ("https://www.indeed.com/viewjob?jk=" ++ id)) with true.
  cbn [negb]. rewrite Hstrip, Hdet, Hext.
  destruct id as [|c id]; [now destruct Hne|]. reflexivity.
Qed.

Lemma all_chars_app (f : ascii -> bool) (a b : string) :
  all_chars f (a ++ b) = all_chars f a && all_chars f b.
Proof.
  induction a as [|c a IH]; cbn [append all_chars]; [reflexivity|].
  now rewrite IH, andb_assoc.
Qed.

(** After [job-listing/] the Glassdoor pattern needs at least one
    character before [-JV_IC]; the canonical url has none. *)
Lemma glassdoor_tail_fails (id : string) :
  all_chars (atom_matches true Digit) id = true ->
  match_here true
    ([Plus (NoneOf [("/", "/")]%char)] ++ lits "-JV_IC" ++ [GroupPlus Digit])%list
    None ("-JV_IC" ++ id) = None.
Proof.
  intros Hall. cbn [app lits match_here append plus].
  change (atom_matches true (NoneOf [("/"%char, "/"%char)]) "-") with true.
  cbn iota.
  apply (star_none _ (fun c => negb (atom_matches true (Lit "-") c))).
  - reflexivity.
  - intros m c rest Hc. apply negb_true_iff in Hc.
    cbn [match_here]. now rewrite Hc.
  - change (String "J" (String "V" (String "_" (String "I" (String "C" id)))))
      with ("JV_IC" ++ id).
    rewrite all_chars_app. apply andb_true_iff. split; [reflexivity|].
    revert Hall. apply all_chars_impl. intros c Hc.
    now rewrite (proj2 (proj2 (proj2 (proj2 (proj2 (digit_facts c Hc)))))).
Qed.

Lemma glassdoor_canonical (id : string) :
  id <> "" ->
  all_chars (atom_matches true Digit) id = true ->
  normalize_job_url ("https://www.glassdoor.com/job-listing/-JV_IC" ++ id)
  = inl (NoJobId GLASSDOOR ("https://www.glassdoor.com/job-listing/-JV_IC" ++ id)).
Proof.
  intros Hne Hall.
  assert (Hsp : all_chars (fun c => negb (PyStr.is_space c)) id = true).
  { revert Hall. apply all_chars_impl. intros c Hc.
    now rewrite (proj1 (digit_facts c Hc)). }
  assert (Hstrip : PyStr.strip ("https://www.glassdoor.com/job-listing/-JV_IC" ++ id)
                   = "https://www.glassdoor.com/job-listing/-JV_IC" ++ id).
  { unfold PyStr.strip.
    change (PyStr.lstrip ("https://www.glassdoor.com/job-listing/-JV_IC" ++ id))
      with ("https://www.glassdoor.com/job-listing/-JV_IC" ++ id).
    now apply rstrip_app_keeps. }
  assert (Hdet : detect_job_site ("https://www.glassdoor.com/job-listing/-JV_IC" ++ id)
                 = Some GLASSDOOR).
  { unfold detect_job_site. rewrite lower_app.
    cbn [first_domain_match SITE_PATTERNS_keys SITE_PATTERNS domain_pattern].
    change (PyStr.lower "https://www.glassdoor.com/job-listing/-JV_IC")
      with "https://www.glassdoor.com/job-listing/-jv_ic".
    assert (Hl : found true (lits "linkedin.com")
                   ("https://www.glassdoor.com/job-listing/-jv_ic"
                    ++ PyStr.lower id) = false).
    { unfold found. cbn [lits append]. skip_to_match.
      rewrite search_none_first; [reflexivity|].
      rewrite <- all_chars_lower. revert Hall. apply all_chars_impl.
      intros c Hc. now rewrite (proj1 (proj2 (digit_facts c Hc))). }
    assert (Hi : found true (lits "indeed.com")
                   ("https://www.glassdoor.com/job-listing/-jv_ic"
                    ++ PyStr.lower id) = false).
    { unfold found. cbn [lits append]. skip_to_match.
      rewrite search_none_first; [reflexivity|].
      rewrite <- all_chars_lower. revert Hall. apply all_chars_impl.
      intros c Hc. now rewrite (proj1 (proj2 (proj2 (digit_facts c Hc)))). }
    rewrite Hl, Hi.
    rewrite found_lits_app; [reflexivity|]. vm_compute. reflexivity. }
  assert (Hext : extract_job_id ("https://www.glassdoor.com/job-listing/-JV_IC" ++ id)
                   GLASSDOOR = None).
  { unfold extract_job_id.
    cbn [SITE_PATTERNS job_id_pattern lits app append].
    skip_to_match.
    rewrite search_skip.
    2:{ match_literals. now apply glassdoor_tail_fails. }
    skip_to_match.
    rewrite search_none_first; [reflexivity|].
    revert Hall. apply all_chars_impl. intros c Hc.
    now rewrite (proj1 (proj2 (proj2 (proj2 (proj2 (digit_facts c Hc)))))). }
  unfold normalize_job_url.
  change (PyStr.truthy ("https://www.glassdoor.com/job-listing/-JV_IC" ++ id))
    with true.
  cbn [negb]. now rewrite Hstrip, Hdet, Hext.
Qed.

(** What [normalize_job_url] returns when it accepts a url. *)
Lemma normalize_accepts (u : string) (j : JobURL) :
  normalize_job_url u = inr j ->
  canonical_url j = canonical_template (SITE_PATTERNS (site j)) ++ job_id j
  /\ job_id j <> ""
  /\ match site j with
     | INDEED => all_chars (atom_matches true (OneOf hex_ranges)) (job_id j) = true
     | _ => all_chars (atom_matches true Digit) (job_id j) = true
     end.
Proof.
  unfold normalize_job_url.
  destruct (negb (PyStr.truthy u)); [discriminate|].
  destruct (detect_job_site (PyStr.strip u)) as [s|]; [|discriminate].
  unfold extract_job_id.
  destruct (search true (job_id_pattern (SITE_PATTERNS s)) (PyStr.strip u))
    as [m|] eqn:Hs; [|discriminate].
  destruct s; cbn [SITE_PATTERNS job_id_pattern] in Hs.
  - destruct (search_last_group true Digit (lits "/jobs/view/") _ _ Hs)
      as (id & -> & Hne & Hall).
    cbn [group1]. destruct id as [|c id]; [now destruct Hne|].
    cbn [PyStr.truthy negb]. intros [= <-]. now repeat split.
  - destruct (search_last_group true (OneOf hex_ranges)
                (One (OneOf [("?", "?"); ("&", "&")]%char) :: lits "jk=") _ _ Hs)
      as (id & -> & Hne & Hall).
    cbn [group1]. destruct id as [|c id]; [now destruct Hne|].
    cbn [PyStr.truthy negb]. intros [= <-]. now repeat split.
  - destruct (search_last_group true Digit
                (lits "job-listing/" ++ [Plus (NoneOf [("/", "/")]%char)]
                 ++ lits "-JV_IC")%list _ _
                ltac:(rewrite <- !app_assoc; exact Hs))
      as (id & -> & Hne & Hall).
    cbn [group1]. destruct id as [|c id]; [now destruct Hne|].
    cbn [PyStr.truthy negb]. intros [= <-]. now repeat split.
Qed.
End UrlFacts.

(** C9.  Normalising the canonical url of an accepted url again gives the
    same site and the same job id for LinkedIn and for Indeed.  For
    Glassdoor it does not: the canonical url [.../job-listing/-JV_IC<id>] has
    nothing between [job-listing/] and [-JV_IC], where the job-id pattern of
    the site asks for at least one character, and [normalize_job_url] rejects
    it. *)
Theorem canonical_url_renormalized :
  forall (u : string) (j : UrlUtils.JobURL),
    UrlUtils.normalize_job_url u = inr j ->
    match UrlUtils.site j with
    | UrlUtils.GLASSDOOR =>
        UrlUtils.normalize_job_url (UrlUtils.canonical_url j)
        = inl (UrlUtils.NoJobId UrlUtils.GLASSDOOR (UrlUtils.canonical_url j))
    | _ =>
        UrlUtils.normalize_job_url (UrlUtils.canonical_url j)
        = inr (UrlUtils.mkJobURL (UrlUtils.site j) (UrlUtils.job_id j)
                 (UrlUtils.canonical_url j) (UrlUtils.canonical_url j))
    end.
Proof.
  intros u j Hj.
  destruct (normalize_accepts u j Hj) as (Hc & Hne & Hall).
  rewrite Hc. destruct (UrlUtils.site j); cbn [UrlUtils.SITE_PATTERNS
                                                 UrlUtils.canonical_template].
  - now apply linkedin_canonical.
  - now apply indeed_canonical.
  - now apply glassdoor_canonical.
Qed.

Lemma canonical_url_renormalized_witness :
  UrlUtils.normalize_job_url "https://www.glassdoor.com/job-listing/-JV_IC1147401"
  = inl (UrlUtils.NoJobId UrlUtils.GLASSDOOR
           "https://www.glassdoor.com/job-listing/-JV_IC1147401").
Proof.
  exact (canonical_url_renormalized
           "https://www.glassdoor.com/job-listing/software-engineer-acme-JV_IC1147401_KO0,17.htm"
           (UrlUtils.mkJobURL UrlUtils.GLASSDOOR "1147401"
              "https://www.glassdoor.com/job-listing/software-engineer-acme-JV_IC1147401_KO0,17.htm"
              "https://www.glassdoor.com/job-listing/-JV_IC1147401")
           eq_refl).
Defined.

(* ================================================================== *)
(** * Part III: further properties                                   *)
(* ================================================================== *)

(** ** File names *)

Section FilenameFacts.
Import Filename.

Lemma all_chars_replace_forbidden (s : string) :
  Re.all_chars (fun c => negb (forbidden c)) (replace_forbidden s) = true.
Proof.
  induction s as [|c s IH]; cbn [replace_forbidden Re.all_chars]; [reflexivity|].
  rewrite IH, andb_true_r. destruct (forbidden c) eqn:E; [reflexivity|].
  now rewrite E.
Qed.

Lemma all_chars_sub_runs (keep cls : ascii -> bool) (s : string) :
  keep hyphen = true ->
  forall b,
    Re.all_chars keep s = true ->
    Re.all_chars keep (sub_runs cls b s) = true.
Proof.
  intros Hh. induction s as [|c s IH]; intros b; cbn [sub_runs Re.all_chars].
  - reflexivity.
  - intros Hall. apply andb_true_iff in Hall. destruct Hall as [Hc Hall].
    destruct (cls c); [destruct b|]; cbn [Re.all_chars];
      rewrite ?Hh, ?Hc, IH; auto.
Qed.

Lemma sub_runs_outside (cls : ascii -> bool) (s : string) :
  forall b,
    Re.all_chars (fun c => negb (cls c) || is_hyphen c) (sub_runs cls b s) = true.
Proof.
  induction s as [|c s IH]; intros b; cbn [sub_runs Re.all_chars]; [reflexivity|].
  destruct (cls c) eqn:E; [destruct b|]; cbn [Re.all_chars]; rewrite ?IH; auto.
  - now rewrite orb_true_r.
  - now rewrite E.
Qed.

Lemma all_chars_lstrip_by (keep cls : ascii -> bool) (s : string) :
  Re.all_chars keep s = true -> Re.all_chars keep (lstrip_by cls s) = true.
Proof.
  induction s as [|c s IH]; cbn [lstrip_by Re.all_chars]; [reflexivity|].
  intros Hall. destruct (cls c); [|exact Hall].
  apply andb_true_iff in Hall. now apply IH.
Qed.

Lemma all_chars_rstrip_by (keep cls : ascii -> bool) (s : string) :
  Re.all_chars keep s = true -> Re.all_chars keep (rstrip_by cls s) = true.
Proof.
  induction s as [|c s IH]; cbn [rstrip_by Re.all_chars]; [reflexivity|].
  intros Hall. apply andb_true_iff in Hall. destruct Hall as [Hc Hall].
  specialize (IH Hall).
  destruct (rstrip_by cls s) as [|d r].
  - destruct (cls c); cbn [Re.all_chars]; [reflexivity | now rewrite Hc].
  - cbn [Re.all_chars] in *. now rewrite Hc, IH.
Qed.

Lemma all_chars_take (keep : ascii -> bool) (n : nat) (s : string) :
  Re.all_chars keep s = true -> Re.all_chars keep (PyStr.take n s) = true.
Proof.
  unfold PyStr.take. revert s.
  induction n as [|n IH]; intros [|c s]; cbn [substring Re.all_chars];
    try reflexivity.
  intros Hall. apply andb_true_iff in Hall. destruct Hall as [Hc Hall].
  now rewrite Hc, IH.
Qed.

Lemma all_chars_and (f g : ascii -> bool) (s : string) :
  Re.all_chars f s = true -> Re.all_chars g s = true ->
  Re.all_chars (fun c => f c && g c) s = true.
Proof.
  induction s as [|c s IH]; cbn [Re.all_chars]; [reflexivity|].
  intros Hf Hg. apply andb_true_iff in Hf, Hg.
  destruct Hf as [-> Hf], Hg as [-> Hg]. now rewrite IH.
Qed.
Lemma sanitize_filename_length (text : string) :
  String.length (sanitize_filename text) <= 100.
Proof. unfold sanitize_filename. rewrite take_length. apply Nat.le_min_l. Qed.

Lemma sanitize_filename_chars (text : string) :
  Re.all_chars safe_char (sanitize_filename text) = true.
Proof.
  unfold sanitize_filename.
  apply all_chars_take. unfold strip_by.
  apply all_chars_rstrip_by, all_chars_lstrip_by.
  unfold safe_char. apply all_chars_and.
  - apply all_chars_sub_runs; [reflexivity|].
    apply all_chars_sub_runs; [reflexivity|].
    apply all_chars_replace_forbidden.
  - apply all_chars_sub_runs; [reflexivity|].
    eapply all_chars_impl; [|apply (sub_runs_outside PyStr.is_space)].
    intros c Hc. apply orb_true_iff in Hc. destruct Hc as [Hc|Hc]; [exact Hc|].
    unfold is_hyphen in Hc. apply Ascii.eqb_eq in Hc. now subst c.
Qed.
End FilenameFacts.

(** X1.  A file name made by [sanitize_filename] has at most 100
    characters, and none of them is white space, a double quote or one of
    the characters < > : / \ | ? and the star. *)
Theorem sanitize_filename_safe :
  forall text : string,
    String.length (Filename.sanitize_filename text) <= 100
    /\ Re.all_chars Filename.safe_char (Filename.sanitize_filename text) = true.
Proof.
  intros text. split.
  - apply sanitize_filename_length.
  - apply sanitize_filename_chars.
Qed.

Section HyphenFacts.
Import Filename.

Lemma pair_after_weaken (s : string) (p : bool) :
  pair_after p s = false -> pair_after false s = false.
Proof.
  destruct s as [|c s]; cbn [pair_after]; [reflexivity|].
  intros E. apply orb_false_iff in E. now destruct E as [_ ->].
Qed.

Lemma pair_after_Substring (s : string) :
  forall p,
    pair_after p s = true <->
    (p = true /\ head s = Some hyphen) \/ PyStr.Substring "--" s.
Proof.
  induction s as [|c s IH]; intros p; cbn [pair_after head].
  - split; [discriminate|].
    intros [[_ E]|(a & b & E)]; [discriminate E|].
    destruct a; discriminate E.
  - rewrite orb_true_iff, andb_true_iff, IH. unfold is_hyphen.
    split.
    + intros [[Hp Hc]|[[Hc Hs]|(a & b & ->)]].
      * left. apply Ascii.eqb_eq in Hc. now subst c.
      * right. apply Ascii.eqb_eq in Hc. subst c.
        destruct s as [|d s]; [discriminate Hs|]. cbn in Hs.
        injection Hs as ->. now exists "", s.
      * right. now exists (String c a), b.
    + intros [[Hp Hc]|(a & b & E)].
      * injection Hc as ->. left. now rewrite Ascii.eqb_refl.
      * destruct a as [|d a]; cbn in E.
        -- injection E as -> ->. right; left.
           now rewrite Ascii.eqb_refl.
        -- injection E as -> ->. right; right. now exists a, b.
Qed.

Lemma no_pair_iff (s : string) :
  pair_after false s = false <-> ~ PyStr.Substring "--" s.
Proof.
  rewrite <- not_true_iff_false, pair_after_Substring.
  split; intros Hn Hs; apply Hn; [now right|].
  destruct Hs as [[E _]|Hs]; [discriminate E | exact Hs].
Qed.

Lemma sub_runs_hyphen_no_pair (s : string) :
  forall p b : bool,
    (p = true -> b = true) ->
    pair_after p (sub_runs is_hyphen b s) = false.
Proof.
  induction s as [|c s IH]; intros p b Hpb; cbn [sub_runs pair_after].
  - reflexivity.
  - destruct (is_hyphen c) eqn:Hc.
    + destruct b.
      * now apply IH.
      * cbn [pair_after]. destruct p; [now discriminate (Hpb eq_refl)|].
        cbn. now apply IH.
    + cbn [pair_after]. rewrite Hc, andb_false_r. cbn. apply IH. discriminate.
Qed.

Lemma lstrip_by_no_pair (cls : ascii -> bool) (s : string) :
  forall p, pair_after p s = false -> pair_after false (lstrip_by cls s) = false.
Proof.
  induction s as [|c s IH]; intros p; cbn [lstrip_by]; [reflexivity|].
  intros E. destruct (cls c); [|exact (pair_after_weaken _ _ E)].
  cbn [pair_after] in E. apply orb_false_iff in E. destruct E as [_ E].
  exact (IH _ E).
Qed.

Lemma rstrip_by_no_pair (cls : ascii -> bool) (s : string) :
  forall p, pair_after p s = false -> pair_after p (rstrip_by cls s) = false.
Proof.
  induction s as [|c s IH]; intros p; cbn [rstrip_by]; [reflexivity|].
  intros E. cbn [pair_after] in E. apply orb_false_iff in E.
  destruct E as [E1 E2]. specialize (IH _ E2).
  destruct (rstrip_by cls s) as [|d r].
  - destruct (cls c); cbn [pair_after]; [reflexivity|].
    now rewrite E1.
  - cbn [pair_after] in *. now rewrite E1, IH.
Qed.

Lemma take_no_pair (n : nat) (s : string) :
  forall p, pair_after p s = false -> pair_after p (PyStr.take n s) = false.
Proof.
  unfold PyStr.take. revert s.
  induction n as [|n IH]; intros [|c s] p; cbn [substring pair_after];
    try reflexivity.
  intros E. apply orb_false_iff in E. destruct E as [-> E]. now rewrite IH.
Qed.

Lemma lstrip_by_head (cls : ascii -> bool) (s : string) (c : ascii) :
  head (lstrip_by cls s) = Some c -> cls c = false.
Proof.
  induction s as [|d s IH]; cbn [lstrip_by]; [discriminate|].
  destruct (cls d) eqn:E; [exact IH|]. cbn. now intros [= <-].
Qed.

Lemma rstrip_by_head (cls : ascii -> bool) (s : string) (c : ascii) :
  head (rstrip_by cls s) = Some c -> head s = Some c.
Proof.
  destruct s as [|d s]; cbn [rstrip_by]; [discriminate|].
  destruct (rstrip_by cls s); [destruct (cls d)|]; cbn; auto; discriminate.
Qed.

Lemma take_head (n : nat) (s : string) (c : ascii) :
  head (PyStr.take n s) = Some c -> head s = Some c.
Proof.
  unfold PyStr.take. destruct n, s; cbn; auto; discriminate.
Qed.
End HyphenFacts.

(** X2.  In a file name made by [sanitize_filename] no two hyphens stand
    side by side, and the name does not start with a hyphen. *)
Theorem sanitize_filename_hyphens :
  forall text : string,
    ~ PyStr.Substring "--" (Filename.sanitize_filename text)
    /\ Filename.head (Filename.sanitize_filename text) <> Some Filename.hyphen.
Proof.
  intros text. unfold Filename.sanitize_filename, Filename.strip_by. split.
  - apply no_pair_iff, take_no_pair, rstrip_by_no_pair.
    apply (lstrip_by_no_pair _ _ false), sub_runs_hyphen_no_pair. discriminate.
  - intros E. apply take_head, rstrip_by_head, lstrip_by_head in E.
    discriminate E.
Qed.

Section CleanNameFacts.
Import Filename.

Lemma replace_forbidden_clean (s : string) :
  Re.all_chars (fun c => negb (forbidden c)) s = true -> replace_forbidden s = s.
Proof.
  induction s as [|c s IH]; cbn [replace_forbidden Re.all_chars]; [reflexivity|].
  intros Hall. apply andb_true_iff in Hall. destruct Hall as [Hc Hall].
  apply negb_true_iff in Hc. now rewrite Hc, IH.
Qed.

Lemma sub_runs_clean (cls : ascii -> bool) (s : string) :
  Re.all_chars (fun c => negb (cls c)) s = true ->
  forall b, sub_runs cls b s = s.
Proof.
  induction s as [|c s IH]; cbn [sub_runs Re.all_chars]; [reflexivity|].
  intros Hall b. apply andb_true_iff in Hall. destruct Hall as [Hc Hall].
  apply negb_true_iff in Hc. now rewrite Hc, IH.
Qed.

Lemma sub_runs_hyphen_clean (s : string) :
  forall p, pair_after p s = false -> sub_runs is_hyphen p s = s.
Proof.
  induction s as [|c s IH]; intros p; cbn [sub_runs pair_after]; [reflexivity|].
  intros E. apply orb_false_iff in E. destruct E as [E1 E2].
  destruct (is_hyphen c) eqn:Hc.
  - destruct p; [discriminate E1|].
    apply Ascii.eqb_eq in Hc. subst c. now rewrite (IH true E2).
  - now rewrite (IH false E2).
Qed.

Lemma lstrip_by_clean (cls : ascii -> bool) (s : string) :
  (forall c, head s = Some c -> cls c = false) -> lstrip_by cls s = s.
Proof.
  destruct s as [|c s]; cbn [lstrip_by head]; [reflexivity|].
  intros Hh. now rewrite (Hh c eq_refl).
Qed.

Lemma rstrip_by_clean (cls : ascii -> bool) (s : string) :
  (forall c, last_char s = Some c -> cls c = false) -> rstrip_by cls s = s.
Proof.
  induction s as [|c s IH]; cbn [rstrip_by]; [reflexivity|].
  intros Hl. destruct s as [|d s].
  - cbn. now rewrite (Hl c eq_refl).
  - rewrite IH; [reflexivity|]. intros e He. apply Hl. exact He.
Qed.

Lemma take_all (n : nat) (s : string) :
  String.length s <= n -> PyStr.take n s = s.
Proof.
  unfold PyStr.take. revert s.
  induction n as [|n IH]; intros [|c s]; cbn [substring String.length];
    try reflexivity; [lia|].
  intros Hl. rewrite IH; [reflexivity | lia].
Qed.
End CleanNameFacts.

(** X3.  [sanitize_filename] leaves a name as it is when the name has at
    most 100 characters, all of them allowed in a file name, no two hyphens
    side by side, and no hyphen at its start or at its end. *)
Theorem sanitize_filename_keeps_clean :
  forall text : string,
    String.length text <= 100 ->
    Re.all_chars Filename.safe_char text = true ->
    ~ PyStr.Substring "--" text ->
    Filename.head text <> Some Filename.hyphen ->
    Filename.last_char text <> Some Filename.hyphen ->
    Filename.sanitize_filename text = text.
Proof.
  intros text Hlen Hsafe Hpair Hhead Hlast.
  unfold Filename.sanitize_filename, Filename.strip_by.
  rewrite replace_forbidden_clean.
  2:{ revert Hsafe. apply all_chars_impl. unfold Filename.safe_char.
      intros c Hc. apply andb_true_iff in Hc. tauto. }
  rewrite (sub_runs_clean PyStr.is_space).
  2:{ revert Hsafe. apply all_chars_impl. unfold Filename.safe_char.
      intros c Hc. apply andb_true_iff in Hc. tauto. }
  rewrite sub_runs_hyphen_clean by now apply no_pair_iff.
  rewrite lstrip_by_clean.
  2:{ intros c Hc. unfold Filename.is_hyphen.
      apply Ascii.eqb_neq. intros ->. now apply Hhead. }
  rewrite rstrip_by_clean.
  2:{ intros c Hc. unfold Filename.is_hyphen.
      apply Ascii.eqb_neq. intros ->. now apply Hlast. }
  now apply take_all.
Qed.

Lemma sanitize_filename_keeps_clean_witness :
  Filename.sanitize_filename "Engineering-Manager" = "Engineering-Manager".
Proof.
  apply sanitize_filename_keeps_clean.
  - vm_compute. repeat constructor.
  - reflexivity.
  - apply no_pair_iff. reflexivity.
  - discriminate.
  - discriminate.
Defined.

(** ** Greedy runs, white space, and what the url functions accept *)

Section ScanFacts.
Import Re Scan.
Context {R : Type}.
Variable ok : ascii -> bool.

Lemma leading_trailing (s : string) : s = leading ok s ++ trailing ok s.
Proof.
  induction s as [|c s IH]; cbn [leading trailing]; [reflexivity|].
  destruct (ok c); [|reflexivity]. cbn [append]. now rewrite <- IH.
Qed.

Lemma all_chars_leading (s : string) : all_chars ok (leading ok s) = true.
Proof.
  induction s as [|c s IH]; cbn [leading]; [reflexivity|].
  destruct (ok c) eqn:Hc; [|reflexivity]. cbn [all_chars]. now rewrite Hc, IH.
Qed.

Lemma head_in_trailing (s : string) : head_in ok (trailing ok s) = false.
Proof.
  induction s as [|c s IH]; cbn [trailing]; [reflexivity|].
  destruct (ok c) eqn:Hc; [exact IH | cbn; exact Hc].
Qed.

Lemma leading_none (s : string) : head_in ok s = false -> leading ok s = "".
Proof. destruct s as [|c s]; cbn; [reflexivity|]. now intros ->. Qed.

Lemma leading_app (a b : string) :
  all_chars ok a = true -> head_in ok b = false ->
  leading ok (a ++ b) = a /\ trailing ok (a ++ b) = b.
Proof.
  intros Hall Hb. induction a as [|c a IH]; cbn [append].
  - split; [now apply leading_none|].
    destruct b as [|d b]; cbn in *; [reflexivity | now rewrite Hb].
  - cbn [all_chars] in Hall. apply andb_true_iff in Hall.
    destruct Hall as [Hc Hall]. cbn [leading trailing]. rewrite Hc.
    destruct (IH Hall) as [-> ->]. now split.
Qed.

Lemma head_in_app (a b : string) :
  a <> "" -> all_chars ok a = true -> head_in ok (a ++ b) = true.
Proof.
  destruct a as [|c a]; [now intros []|]. intros _ Hall.
  cbn in *. apply andb_true_iff in Hall. tauto.
Qed.

(** A greedy repetition whose continuation accepts whatever it is given
    takes the longest run and gives nothing back. *)
Lemma star_leading :
  forall (s : string) (k : string -> string -> option R),
    (forall m r, k m r <> None) ->
    star ok k s = k (leading ok s) (trailing ok s).
Proof.
  induction s as [|c s IH]; intros k Hk; cbn [star leading trailing].
  - reflexivity.
  - destruct (ok c) eqn:Hc; [|reflexivity].
    rewrite (IH (fun m r => k (String c m) r)) by (intros m r; apply Hk).
    destruct (k (String c (leading ok s)) (trailing ok s)) eqn:E; [reflexivity|].
    now destruct (Hk _ _ E).
Qed.

Lemma plus_leading (s : string) (k : string -> string -> option R) :
  (forall m r, k m r <> None) ->
  plus ok k s
  = if head_in ok s then k (leading ok s) (trailing ok s) else None.
Proof.
  intros Hk. unfold plus. destruct s as [|c s]; cbn [head_in]; [reflexivity|].
  cbn [leading trailing]. destruct (ok c); [|reflexivity].
  now rewrite star_leading by (intros m r; apply Hk).
Qed.
End ScanFacts.

Section StripFacts.
Import Re Scan.

Lemma rstrip_cons (c : ascii) (r : string) :
  PyStr.is_space c = false ->
  PyStr.rstrip (String c r) = String c (PyStr.rstrip r).
Proof. intros Hc. cbn [PyStr.rstrip]. rewrite Hc. now destruct (PyStr.rstrip r). Qed.

Lemma rstrip_app (a r : string) :
  all_chars (fun c => negb (PyStr.is_space c)) a = true ->
  PyStr.rstrip (a ++ r) = a ++ PyStr.rstrip r.
Proof.
  induction a as [|c a IH]; cbn [append all_chars]; [reflexivity|].
  intros Hall. apply andb_true_iff in Hall. destruct Hall as [Hc Hall].
  apply negb_true_iff in Hc. now rewrite rstrip_cons, IH.
Qed.

(** [rstrip] takes white space off the end only. *)
Lemma rstrip_split (r : string) :
  exists w, r = PyStr.rstrip r ++ w /\ all_chars PyStr.is_space w = true.
Proof.
  induction r as [|c r (w & Hw & Hsp)]; [now exists ""|].
  cbn [PyStr.rstrip]. destruct (PyStr.rstrip r) as [|d r'] eqn:E.
  - cbn [append] in Hw. subst w. destruct (PyStr.is_space c) eqn:Hc.
    + exists (String c r). cbn. now rewrite Hc, Hsp.
    + exists r. now split.
  - exists w. split; [|exact Hsp]. cbn [append] in *. now f_equal.
Qed.

Lemma rstrip_head (ok : ascii -> bool) (r : string) :
  head_in ok r = false -> head_in ok (PyStr.rstrip r) = false.
Proof.
  destruct r as [|c r]; [reflexivity|]. cbn [head_in PyStr.rstrip].
  intros Hc. destruct (PyStr.rstrip r); [|exact Hc].
  destruct (PyStr.is_space c); [reflexivity | exact Hc].
Qed.

Lemma rstrip_idem (s : string) : PyStr.rstrip (PyStr.rstrip s) = PyStr.rstrip s.
Proof.
  induction s as [|c s IH]; [reflexivity|].
  cbn [PyStr.rstrip]. destruct (PyStr.rstrip s) as [|d r] eqn:E.
  - destruct (PyStr.is_space c) eqn:Hc; [reflexivity|]. cbn. now rewrite Hc.
  - cbn [PyStr.rstrip] in *. now rewrite IH.
Qed.

Lemma lstrip_head (s : string) : head_in PyStr.is_space (PyStr.lstrip s) = false.
Proof.
  induction s as [|c s IH]; [reflexivity|]. cbn [PyStr.lstrip].
  destruct (PyStr.is_space c) eqn:Hc; [exact IH | cbn; exact Hc].
Qed.

Lemma lstrip_keeps (s : string) :
  head_in PyStr.is_space s = false -> PyStr.lstrip s = s.
Proof. destruct s as [|c s]; cbn; [reflexivity|]. now intros ->. Qed.

Lemma strip_idem (s : string) : PyStr.strip (PyStr.strip s) = PyStr.strip s.
Proof.
  unfold PyStr.strip.
  rewrite (lstrip_keeps (PyStr.rstrip (PyStr.lstrip s))).
  - apply rstrip_idem.
  - apply rstrip_head, lstrip_head.
Qed.
End StripFacts.

(** X4.  [normalize_job_url] gives the same answer for a url and for the
    url without the white space around it, as long as something is left:
    the text that it records as the original url is the stripped one. *)
Theorem normalize_ignores_outer_space :
  forall url : string,
    PyStr.strip url <> "" ->
    UrlUtils.normalize_job_url (PyStr.strip url) = UrlUtils.normalize_job_url url.
Proof.
  intros url Hne. unfold UrlUtils.normalize_job_url.
  rewrite strip_idem.
  destruct (PyStr.strip url) as [|c s] eqn:E; [now destruct Hne|].
  destruct url as [|d u]; [discriminate E|]. reflexivity.
Qed.

Lemma normalize_ignores_outer_space_witness :
  UrlUtils.normalize_job_url
    (PyStr.strip "  https://www.linkedin.com/jobs/view/4300371471 ")
  = UrlUtils.normalize_job_url "  https://www.linkedin.com/jobs/view/4300371471 ".
Proof.
  apply normalize_ignores_outer_space. vm_compute. discriminate.
Defined.

Section TrackingFacts.
Import Re Scan UrlUtils.

Lemma digit_chars (c : ascii) :
  digit c = true ->
  no_space c = true
  /\ PyStr.lower_char c = c
  /\ atom_matches true (Lit "l") c = false
  /\ atom_matches true (Lit "i") c = false.
Proof.
  destruct c as [[] [] [] [] [] [] [] []]; vm_compute; intros E;
    try discriminate E; repeat split.
Qed.

Lemma hex_chars (c : ascii) :
  hex_any_case c = true ->
  no_space c = true
  /\ atom_matches true (Lit "l") c = false
  /\ atom_matches false (OneOf [("?", "?"); ("&", "&")]%char) c = false
  /\ (PyStr.lower_char c = c -> hex_lower_case c = true).
Proof.
  destruct c as [[] [] [] [] [] [] [] []]; vm_compute; intros E;
    try discriminate E; repeat split; intros E'; try discriminate E'.
Qed.

(** The capture of a pattern that ends in its group, at the place where
    the literals before the group have matched. *)
Lemma group_takes_run (ic : bool) (a : atom) (g : match_object) (s : string) :
  match_here ic [GroupPlus a] g s
  = if head_in (atom_matches ic a) s
    then Some (Some (leading (atom_matches ic a) s))
    else None.
Proof.
  cbn [match_here]. rewrite plus_leading; [reflexivity|]. discriminate.
Qed.

Lemma group_takes_id (ic : bool) (a : atom) (g : match_object)
    (id rest : string) :
  id <> "" ->
  all_chars (atom_matches ic a) id = true ->
  head_in (atom_matches ic a) rest = false ->
  match_here ic [GroupPlus a] g (id ++ rest) = Some (Some id).
Proof.
  intros Hne Hall Hrest. rewrite group_takes_run.
  rewrite head_in_app by assumption.
  now rewrite (proj1 (leading_app _ _ _ Hall Hrest)).
Qed.

(** A pattern that starts with a single atom does not match inside a run
    of characters that the atom refuses. *)
Lemma search_past (ic : bool) (a : atom) (p : pattern) (run rest : string) :
  all_chars (fun c => negb (atom_matches ic a c)) run = true ->
  search ic (One a :: p) (run ++ rest) = search ic (One a :: p) rest.
Proof.
  induction run as [|c run IH]; cbn [all_chars append]; [reflexivity|].
  intros Hall. apply andb_true_iff in Hall. destruct Hall as [Hc Hall].
  apply negb_true_iff in Hc.
  rewrite search_skip; [now apply IH|]. cbn [match_here]. now rewrite Hc.
Qed.

Lemma found_prefix_false (ic : bool) (p a b : string) :
  found ic (lits p) (a ++ b) = false -> found ic (lits p) a = false.
Proof.
  intros E. destruct (found ic (lits p) a) eqn:Ea; [|reflexivity].
  now rewrite (found_lits_app ic p a b Ea) in E.
Qed.

Lemma strip_tracked (prefix id rest : string) :
  head_in PyStr.is_space (prefix ++ id ++ rest) = false ->
  all_chars no_space prefix = true ->
  all_chars no_space id = true ->
  PyStr.strip (prefix ++ id ++ rest) = prefix ++ id ++ PyStr.rstrip rest.
Proof.
  intros Hh Hp Hi. unfold PyStr.strip.
  rewrite lstrip_keeps by exact Hh.
  now rewrite !rstrip_app.
Qed.
End TrackingFacts.

(** X5.  Whatever follows the digits of a LinkedIn job url is dropped:
    when the text after [/jobs/view/] is a run of digits followed by
    nothing or by a character that is not a digit, [normalize_job_url]
    returns that run as the job id and the clean url as the canonical url,
    and keeps the given url, without the white space at its end, as the
    original one. *)
Theorem linkedin_tracking_dropped :
  forall id rest : string,
    id <> "" ->
    Re.all_chars Scan.digit id = true ->
    Scan.head_in Scan.digit rest = false ->
    UrlUtils.normalize_job_url ("https://www.linkedin.com/jobs/view/" ++ id ++ rest)
    = inr (UrlUtils.mkJobURL UrlUtils.LINKEDIN id
             ("https://www.linkedin.com/jobs/view/" ++ id ++ PyStr.rstrip rest)
             ("https://www.linkedin.com/jobs/view/" ++ id)).
Proof.
  intros id rest Hne Hall Hrest.
  assert (Hsp : Re.all_chars Scan.no_space id = true).
  { revert Hall. apply all_chars_impl. intros c Hc.
    exact (proj1 (digit_chars c Hc)). }
  assert (Hrest' : Scan.head_in Scan.digit (PyStr.rstrip rest) = false)
    by now apply rstrip_head.
  unfold UrlUtils.normalize_job_url.
  change (PyStr.truthy ("https://www.linkedin.com/jobs/view/" ++ id ++ rest))
    with true.
  cbn [negb].
  rewrite strip_tracked by (reflexivity || assumption).
  set (rest' := PyStr.rstrip rest) in *.
  assert (Hdet : UrlUtils.detect_job_site
                   ("https://www.linkedin.com/jobs/view/" ++ id ++ rest')
                 = Some UrlUtils.LINKEDIN).
  { unfold UrlUtils.detect_job_site. rewrite lower_app.
    cbn [UrlUtils.first_domain_match UrlUtils.SITE_PATTERNS_keys
         UrlUtils.SITE_PATTERNS UrlUtils.domain_pattern].
    rewrite found_lits_app; [reflexivity|]. vm_compute. reflexivity. }
  assert (Hext : UrlUtils.extract_job_id
                   ("https://www.linkedin.com/jobs/view/" ++ id ++ rest')
                   UrlUtils.LINKEDIN = Some id).
  { unfold UrlUtils.extract_job_id.
    cbn [UrlUtils.SITE_PATTERNS UrlUtils.job_id_pattern Re.lits app append].
    repeat (rewrite search_skip by reflexivity).
    rewrite (search_here _ _ _ (Some id)); [reflexivity|].
    repeat (rewrite match_here_one by reflexivity).
    now apply group_takes_id. }
  rewrite Hdet, Hext.
  destruct id as [|c id]; [now destruct Hne|]. reflexivity.
Qed.

Lemma linkedin_tracking_dropped_witness :
  UrlUtils.normalize_job_url
    ("https://www.linkedin.com/jobs/view/" ++ "4300371471"
     ++ "/?alternateChannel=search&trk=d_flagship3 ")
  = inr (UrlUtils.mkJobURL UrlUtils.LINKEDIN "4300371471"
           ("https://www.linkedin.com/jobs/view/" ++ "4300371471"
            ++ PyStr.rstrip "/?alternateChannel=search&trk=d_flagship3 ")
           ("https://www.linkedin.com/jobs/view/" ++ "4300371471")).
Proof.
  apply linkedin_tracking_dropped.
  - discriminate.
  - reflexivity.
  - reflexivity.
Defined.

(** X6.  The same for Indeed, where the job id is the run of hexadecimal
    digits, of either case, after [?jk=]: what follows the run is dropped,
    provided that it does not mention [linkedin.com], the domain that is
    looked for first. *)
Theorem indeed_tracking_dropped :
  forall id rest : string,
    id <> "" ->
    Re.all_chars Scan.hex_any_case id = true ->
    Scan.head_in Scan.hex_any_case rest = false ->
    Re.found true (Re.lits "linkedin.com") (PyStr.lower rest) = false ->
    UrlUtils.normalize_job_url ("https://www.indeed.com/viewjob?jk=" ++ id ++ rest)
    = inr (UrlUtils.mkJobURL UrlUtils.INDEED id
             ("https://www.indeed.com/viewjob?jk=" ++ id ++ PyStr.rstrip rest)
             ("https://www.indeed.com/viewjob?jk=" ++ id)).
Proof.
  intros id rest Hne Hall Hrest Hlinked.
  assert (Hsp : Re.all_chars Scan.no_space id = true).
  { revert Hall. apply all_chars_impl. intros c Hc.
    exact (proj1 (hex_chars c Hc)). }
  assert (Hrest' : Scan.head_in Scan.hex_any_case (PyStr.rstrip rest) = false)
    by now apply rstrip_head.
  assert (Hlinked' : Re.found true (Re.lits "linkedin.com")
                       (PyStr.lower (PyStr.rstrip rest)) = false).
  { destruct (rstrip_split rest) as (w & Hw & _).
    rewrite Hw, lower_app in Hlinked.
    now apply found_prefix_false in Hlinked. }
  unfold UrlUtils.normalize_job_url.
  change (PyStr.truthy ("https://www.indeed.com/viewjob?jk=" ++ id ++ rest))
    with true.
  cbn [negb].
  rewrite strip_tracked by (reflexivity || assumption).
  set (rest' := PyStr.rstrip rest) in *.
  assert (Hdet : UrlUtils.detect_job_site
                   ("https://www.indeed.com/viewjob?jk=" ++ id ++ rest')
                 = Some UrlUtils.INDEED).
  { unfold UrlUtils.detect_job_site. rewrite !lower_app.
    cbn [UrlUtils.first_domain_match UrlUtils.SITE_PATTERNS_keys
         UrlUtils.SITE_PATTERNS UrlUtils.domain_pattern].
    assert (Hl : Re.found true (Re.lits "linkedin.com")
                   (PyStr.lower "https://www.indeed.com/viewjob?jk="
                    ++ PyStr.lower id ++ PyStr.lower rest') = false).
    { unfold Re.found in *.
      change (PyStr.lower "https://www.indeed.com/viewjob?jk=")
        with "https://www.indeed.com/viewjob?jk=".
      cbn [Re.lits append].
      repeat (rewrite search_skip by reflexivity).
      rewrite search_past; [exact Hlinked'|].
      rewrite <- all_chars_lower. revert Hall. apply all_chars_impl.
      intros c Hc. rewrite lit_matches_lower.
      now rewrite (proj1 (proj2 (hex_chars c Hc))). }
    rewrite Hl.
    rewrite found_lits_app; [reflexivity|]. vm_compute. reflexivity. }
  assert (Hext : UrlUtils.extract_job_id
                   ("https://www.indeed.com/viewjob?jk=" ++ id ++ rest')
                   UrlUtils.INDEED = Some id).
  { unfold UrlUtils.extract_job_id.
    cbn [UrlUtils.SITE_PATTERNS UrlUtils.job_id_pattern Re.lits app append].
    repeat (rewrite search_skip by reflexivity).
    rewrite (search_here _ _ _ (Some id)); [reflexivity|].
    repeat (rewrite match_here_one by reflexivity).
    now apply group_takes_id. }
  rewrite Hdet, Hext.
  destruct id as [|c id]; [now destruct Hne|]. reflexivity.
Qed.

Lemma indeed_tracking_dropped_witness :
  UrlUtils.normalize_job_url
    ("https://www.indeed.com/viewjob?jk=" ++ "d7a8476f98b7ec44"
     ++ "&from=serp&vjs=3")
  = inr (UrlUtils.mkJobURL UrlUtils.INDEED "d7a8476f98b7ec44"
           ("https://www.indeed.com/viewjob?jk=" ++ "d7a8476f98b7ec44"
            ++ PyStr.rstrip "&from=serp&vjs=3")
           ("https://www.indeed.com/viewjob?jk=" ++ "d7a8476f98b7ec44")).
Proof.
  apply indeed_tracking_dropped.
  - discriminate.
  - reflexivity.
  - reflexivity.
  - reflexivity.
Defined.

Section AcceptedFacts.
Import Re Scan.

Lemma append_assoc (a b c : string) : (a ++ b) ++ c = a ++ (b ++ c).
Proof. induction a as [|x a IH]; cbn [append]; [reflexivity | now rewrite IH]. Qed.

(** The text of the group is a piece of the text that was searched. *)
Lemma match_here_group_piece (ic : bool) (a : atom) :
  forall (pre : pattern) (g : match_object) (s : string) (m : match_object),
    match_here ic (pre ++ [GroupPlus a])%list g s = Some m ->
    exists id, m = Some id /\ PyStr.Substring id s.
Proof.
  induction pre as [|[b|b|b] pre IH]; intros g s m; cbn [app match_here].
  - intros Hp.
    destruct (plus_inv _ _ _ _ Hp) as (taken & rest & -> & _ & _ & Hk).
    injection Hk as <-. exists taken. split; [reflexivity|]. now exists "", rest.
  - destruct s as [|c s]; [discriminate|].
    destruct (atom_matches ic b c); [|discriminate].
    intros Hp. destruct (IH _ _ _ Hp) as (id & -> & x & y & ->).
    exists id. split; [reflexivity|]. now exists (String c x), y.
  - intros Hp.
    destruct (plus_inv _ _ _ _ Hp) as (taken & rest & -> & _ & _ & Hk).
    destruct (IH _ _ _ Hk) as (id & -> & x & y & ->).
    exists id. split; [reflexivity|]. exists (taken ++ x), y.
    now rewrite append_assoc.
  - intros Hp.
    destruct (plus_inv _ _ _ _ Hp) as (taken & rest & -> & _ & _ & Hk).
    destruct (IH _ _ _ Hk) as (id & -> & x & y & ->).
    exists id. split; [reflexivity|]. exists (taken ++ x), y.
    now rewrite append_assoc.
Qed.

Lemma search_group_piece (ic : bool) (a : atom) (pre : pattern) (s : string)
    (m : match_object) :
  search ic (pre ++ [GroupPlus a])%list s = Some m ->
  exists id, m = Some id /\ PyStr.Substring id s.
Proof.
  intros Hs. destruct (search_inv _ _ _ _ Hs) as (before & after & -> & Hm).
  destruct (match_here_group_piece ic a pre None after m Hm)
    as (id & -> & x & y & ->).
  exists id. split; [reflexivity|]. exists (before ++ x), y.
  now rewrite append_assoc.
Qed.

Lemma job_id_pattern_ends_in_group (s : UrlUtils.JobSite) :
  exists pre a,
    UrlUtils.job_id_pattern (UrlUtils.SITE_PATTERNS s)
    = (pre ++ [GroupPlus a])%list.
Proof.
  destruct s; cbn [UrlUtils.SITE_PATTERNS UrlUtils.job_id_pattern].
  - now exists (lits "/jobs/view/"), Digit.
  - now exists (One (OneOf [("?", "?"); ("&", "&")]%char) :: lits "jk="),
               (OneOf hex_ranges).
  - exists (lits "job-listing/" ++ [Plus (NoneOf [("/", "/")]%char)]
            ++ lits "-JV_IC")%list, Digit.
    now rewrite <- !app_assoc.
Qed.

Lemma found_lits_lower (p s : string) :
  found true (lits p) (PyStr.lower s) = found true (lits p) s.
Proof.
  induction s as [|c s IH]; [reflexivity|].
  change (PyStr.lower (String c s))
    with (String (PyStr.lower_char c) (PyStr.lower s)) at 1.
  rewrite !found_cons.
  change (String (PyStr.lower_char c) (PyStr.lower s))
    with (PyStr.lower (String c s)).
  now rewrite match_here_lits_lower, IH.
Qed.

Lemma lower_idem (s : string) : PyStr.lower (PyStr.lower s) = PyStr.lower s.
Proof.
  induction s as [|c s IH]; cbn [PyStr.lower]; [reflexivity|].
  now rewrite lower_char_idem, IH.
Qed.
End AcceptedFacts.

(** X7.  What an accepted url gives: the original url of the result is
    the given url without the white space around it; the job id is not
    empty and is a piece of that text, made of digits, or for Indeed of
    hexadecimal digits of either case; the canonical url is the template
    of the site followed by the job id. *)
Theorem normalize_job_url_accepted :
  forall (url : string) (j : UrlUtils.JobURL),
    UrlUtils.normalize_job_url url = inr j ->
    UrlUtils.original_url j = PyStr.strip url
    /\ UrlUtils.job_id j <> ""
    /\ PyStr.Substring (UrlUtils.job_id j) (PyStr.strip url)
    /\ Re.all_chars
         (match UrlUtils.site j with
          | UrlUtils.INDEED => Scan.hex_any_case
          | _ => Scan.digit
          end) (UrlUtils.job_id j) = true
    /\ UrlUtils.canonical_url j
       = UrlUtils.canonical_template (UrlUtils.SITE_PATTERNS (UrlUtils.site j))
         ++ UrlUtils.job_id j.
Proof.
  intros url j Hj.
  destruct (normalize_accepts url j Hj) as (Hc & Hne & Hall).
  assert (Hpiece : UrlUtils.original_url j = PyStr.strip url
                   /\ PyStr.Substring (UrlUtils.job_id j) (PyStr.strip url)).
  { revert Hj. unfold UrlUtils.normalize_job_url.
    destruct (negb (PyStr.truthy url)); [discriminate|].
    destruct (UrlUtils.detect_job_site (PyStr.strip url)) as [s|]; [|discriminate].
    unfold UrlUtils.extract_job_id.
    destruct (job_id_pattern_ends_in_group s) as (pre & a & ->).
    destruct (Re.search true (pre ++ [Re.GroupPlus a])%list (PyStr.strip url))
      as [m|] eqn:Hs; [|discriminate].
    destruct (search_group_piece _ _ _ _ _ Hs) as (id & -> & Hsub).
    cbn [Re.group1]. destruct (negb (PyStr.truthy id)); [discriminate|].
    intros [= <-]. now split. }
  destruct Hpiece as [Ho Hsub].
  repeat split; try assumption.
  destruct (UrlUtils.site j); exact Hall.
Qed.

Lemma normalize_job_url_accepted_witness :
  let j := UrlUtils.mkJobURL UrlUtils.INDEED "d7a8476f98b7ec44"
             "https://www.indeed.com/viewjob?jk=d7a8476f98b7ec44&from=serp"
             "https://www.indeed.com/viewjob?jk=d7a8476f98b7ec44" in
  UrlUtils.original_url j
  = PyStr.strip " https://www.indeed.com/viewjob?jk=d7a8476f98b7ec44&from=serp "
  /\ UrlUtils.job_id j <> ""
  /\ PyStr.Substring (UrlUtils.job_id j)
       (PyStr.strip " https://www.indeed.com/viewjob?jk=d7a8476f98b7ec44&from=serp ")
  /\ Re.all_chars
       (match UrlUtils.site j with
        | UrlUtils.INDEED => Scan.hex_any_case
        | _ => Scan.digit
        end) (UrlUtils.job_id j) = true
  /\ UrlUtils.canonical_url j
     = UrlUtils.canonical_template (UrlUtils.SITE_PATTERNS (UrlUtils.site j))
       ++ UrlUtils.job_id j.
Proof.
  exact (normalize_job_url_accepted
           " https://www.indeed.com/viewjob?jk=d7a8476f98b7ec44&from=serp "
           _ eq_refl).
Defined.

(** X8.  For a url whose characters are code points below 256, the
    letter case does not change the site that it is classified as,
    neither by [ai_parser.detect_job_site], as [validate_site_url] reads
    it, nor by [url_utils.detect_job_site]: the url and its lowering are
    classified alike. *)
Theorem site_detection_ignores_case :
  forall (url : string),
    (forall s, AiParser.validate_site_url (PyStr.lower url) s
               = AiParser.validate_site_url url s)
    /\ UrlUtils.detect_job_site (PyStr.lower url) = UrlUtils.detect_job_site url.
Proof.
  intros url. split.
  - intros s. unfold AiParser.validate_site_url, AiParser.detect_job_site.
    cbn [AiParser.first_url_match AiParser.SITE_CONFIGS_keys
         AiParser.SITE_CONFIGS AiParser.url_pattern].
    rewrite !found_lits_lower.
    destruct (Re.found true (Re.lits "linkedin.com/jobs") url); [reflexivity|].
    destruct (Re.found true (Re.lits "indeed.com/viewjob") url); [reflexivity|].
    destruct (Re.found true (Re.lits "glassdoor.com/job-listing") url);
      reflexivity.
  - unfold UrlUtils.detect_job_site. now rewrite lower_idem.
Qed.

(** ** The canonical url in the hands of [ai_parser] *)

Section DiscoverFacts.
Import Re Scan.

Lemma ai_linkedin_canonical (id : string) :
  id <> "" ->
  all_chars digit id = true ->
  AiParser.detect_job_site ("https://www.linkedin.com/jobs/view/" ++ id)
  = inr AiParser.LINKEDIN
  /\ AiParser.extract_job_id ("https://www.linkedin.com/jobs/view/" ++ id)
       (Some AiParser.LINKEDIN) = Some id.
Proof.
  intros Hne Hall. split.
  - unfold AiParser.detect_job_site.
    cbn [AiParser.first_url_match AiParser.SITE_CONFIGS_keys
         AiParser.SITE_CONFIGS AiParser.url_pattern].
    rewrite found_lits_app; [reflexivity|]. vm_compute. reflexivity.
  - unfold AiParser.extract_job_id.
    cbn [AiParser.get_site_config AiParser.SITE_CONFIGS AiParser.job_id_pattern
         lits app append].
    repeat (rewrite search_skip by reflexivity).
    rewrite (search_here _ _ _ (Some id)); [reflexivity|].
    repeat (rewrite match_here_one by reflexivity).
    now apply match_here_group_end.
Qed.

Lemma ai_glassdoor_canonical (id : string) :
  id <> "" ->
  all_chars digit id = true ->
  AiParser.detect_job_site ("https://www.glassdoor.com/job-listing/-JV_IC" ++ id)
  = inr AiParser.GLASSDOOR
  /\ AiParser.extract_job_id ("https://www.glassdoor.com/job-listing/-JV_IC" ++ id)
       (Some AiParser.GLASSDOOR) = Some id.
Proof.
  intros Hne Hall. split.
  - unfold AiParser.detect_job_site.
    cbn [AiParser.first_url_match AiParser.SITE_CONFIGS_keys
         AiParser.SITE_CONFIGS AiParser.url_pattern].
    assert (Hl : found true (lits "linkedin.com/jobs")
                   ("https://www.glassdoor.com/job-listing/-JV_IC" ++ id) = false).
    { unfold found. cbn [lits append].
      repeat (rewrite search_skip by reflexivity).
      rewrite search_none_first; [reflexivity|].
      revert Hall. apply all_chars_impl. intros c Hc.
      now rewrite (proj1 (proj2 (proj2 (digit_chars c Hc)))). }
    assert (Hi : found true (lits "indeed.com/viewjob")
                   ("https://www.glassdoor.com/job-listing/-JV_IC" ++ id) = false).
    { unfold found. cbn [lits append].
      repeat (rewrite search_skip by reflexivity).
      rewrite search_none_first; [reflexivity|].
      revert Hall. apply all_chars_impl. intros c Hc.
      now rewrite (proj2 (proj2 (proj2 (digit_chars c Hc)))). }
    rewrite Hl, Hi.
    rewrite found_lits_app; [reflexivity|]. vm_compute. reflexivity.
  - unfold AiParser.extract_job_id.
    cbn [AiParser.get_site_config AiParser.SITE_CONFIGS AiParser.job_id_pattern
         lits app append].
    repeat (rewrite search_skip by reflexivity).
    rewrite (search_here _ _ _ (Some id)); [reflexivity|].
    repeat (rewrite match_here_one by reflexivity).
    now apply match_here_group_end.
Qed.

(** Without [re.IGNORECASE] the group stops at the first capital. *)
Lemma ai_indeed_canonical (id : string) :
  all_chars hex_any_case id = true ->
  AiParser.detect_job_site ("https://www.indeed.com/viewjob?jk=" ++ id)
  = inr AiParser.INDEED
  /\ AiParser.extract_job_id ("https://www.indeed.com/viewjob?jk=" ++ id)
       (Some AiParser.INDEED)
     = if head_in hex_lower_case id then Some (leading hex_lower_case id)
       else None.
Proof.
  intros Hall. split.
  - unfold AiParser.detect_job_site.
    cbn [AiParser.first_url_match AiParser.SITE_CONFIGS_keys
         AiParser.SITE_CONFIGS AiParser.url_pattern].
    assert (Hl : found true (lits "linkedin.com/jobs")
                   ("https://www.indeed.com/viewjob?jk=" ++ id) = false).
    { unfold found. cbn [lits append].
      repeat (rewrite search_skip by reflexivity).
      rewrite search_none_first; [reflexivity|].
      revert Hall. apply all_chars_impl. intros c Hc.
      now rewrite (proj1 (proj2 (hex_chars c Hc))). }
    rewrite Hl.
    rewrite found_lits_app; [reflexivity|]. vm_compute. reflexivity.
  - unfold AiParser.extract_job_id.
    cbn [AiParser.get_site_config AiParser.SITE_CONFIGS AiParser.job_id_pattern
         lits app append].
    repeat (rewrite search_skip by reflexivity).
    rewrite search_unfold.
    repeat (rewrite match_here_one by reflexivity).
    rewrite group_takes_run.
    fold hex_lower_case.
    destruct (head_in hex_lower_case id); [reflexivity|].
    repeat (rewrite search_skip by reflexivity).
    rewrite search_none_first; [reflexivity|].
    revert Hall. apply all_chars_impl. intros c Hc.
    now rewrite (proj1 (proj2 (proj2 (hex_chars c Hc)))).
Qed.

Lemma leading_all (ok : ascii -> bool) (s : string) :
  all_chars ok s = true -> leading ok s = s.
Proof.
  induction s as [|c s IH]; cbn [all_chars leading]; [reflexivity|].
  intros Hall. apply andb_true_iff in Hall. destruct Hall as [-> Hall].
  now rewrite IH.
Qed.

Lemma hex_lower_of_lower (id : string) :
  all_chars hex_any_case id = true ->
  id = PyStr.lower id ->
  all_chars hex_lower_case id = true.
Proof.
  induction id as [|c id IH]; cbn [all_chars PyStr.lower]; [reflexivity|].
  intros Hall [= Hc Hid]. apply andb_true_iff in Hall. destruct Hall as [Hh Hall].
  rewrite (proj2 (proj2 (proj2 (hex_chars c Hh))) (eq_sym Hc)).
  now apply IH.
Qed.
End DiscoverFacts.

(** X9.  The discovery mode of [ai_parser] first normalises the url with
    [url_utils] and then reads the site and the job id off the canonical
    url with its own patterns.  For every url that [url_utils] accepts and
    whose job id has no capital letter the two modules agree: the
    discovery starts on the canonical url, for the site of the same name,
    with the same job id.  This includes the Glassdoor canonical urls that
    [url_utils] itself would not accept again. *)
Theorem discover_keeps_site_and_id :
  forall (url : string) (j : UrlUtils.JobURL),
    UrlUtils.normalize_job_url url = inr j ->
    UrlUtils.job_id j = PyStr.lower (UrlUtils.job_id j) ->
    exists s,
      Cli.discover url None
      = inr (Cli.mkStart (UrlUtils.canonical_url j) s (UrlUtils.job_id j))
      /\ AiParser.value s = UrlUtils.value (UrlUtils.site j).
Proof.
  intros url j Hj Hlow.
  destruct (normalize_accepts url j Hj) as (Hc & Hne & Hall).
  unfold Cli.discover, Cli.normalized_url. rewrite Hj, Hc.
  destruct (UrlUtils.job_id j) as [|c id] eqn:Hid; [now destruct Hne|].
  destruct (UrlUtils.site j);
    cbn [UrlUtils.SITE_PATTERNS UrlUtils.canonical_template].
  - destruct (ai_linkedin_canonical (String c id) Hne Hall) as [-> ->].
    now exists AiParser.LINKEDIN.
  - destruct (ai_indeed_canonical (String c id) Hall) as [-> ->].
    assert (Hl := hex_lower_of_lower _ Hall Hlow).
    rewrite (leading_all _ _ Hl).
    cbn [Re.all_chars] in Hl. apply andb_true_iff in Hl. destruct Hl as [Hh _].
    cbn [Scan.head_in]. rewrite Hh.
    now exists AiParser.INDEED.
  - destruct (ai_glassdoor_canonical (String c id) Hne Hall) as [-> ->].
    now exists AiParser.GLASSDOOR.
Qed.

Lemma discover_keeps_site_and_id_witness :
  exists s,
    Cli.discover
      "https://www.glassdoor.com/job-listing/software-engineer-acme-JV_IC1147401_KO0,17.htm"
      None
    = inr (Cli.mkStart "https://www.glassdoor.com/job-listing/-JV_IC1147401" s
             "1147401")
    /\ AiParser.value s = UrlUtils.value UrlUtils.GLASSDOOR.
Proof.
  exact (discover_keeps_site_and_id
           "https://www.glassdoor.com/job-listing/software-engineer-acme-JV_IC1147401_KO0,17.htm"
           (UrlUtils.mkJobURL UrlUtils.GLASSDOOR "1147401"
              "https://www.glassdoor.com/job-listing/software-engineer-acme-JV_IC1147401_KO0,17.htm"
              "https://www.glassdoor.com/job-listing/-JV_IC1147401")
           eq_refl eq_refl).
Defined.

(** X10.  For an Indeed url the two modules read the job id differently:
    [url_utils] takes the hexadecimal digits of either case, [ai_parser]
    only those in lower case.  The discovery of an accepted Indeed url
    therefore works with the lower-case head of the job id that
    [url_utils] found, and it stops with an error when that job id starts
    with a capital. *)
Theorem discover_indeed_job_id :
  forall (url : string) (j : UrlUtils.JobURL),
    UrlUtils.normalize_job_url url = inr j ->
    UrlUtils.site j = UrlUtils.INDEED ->
    Cli.discover url None
    = if Scan.head_in Scan.hex_lower_case (UrlUtils.job_id j)
      then inr (Cli.mkStart (UrlUtils.canonical_url j) AiParser.INDEED
                  (Scan.leading Scan.hex_lower_case (UrlUtils.job_id j)))
      else inl ("Could not extract job ID from URL: " ++ UrlUtils.canonical_url j).
Proof.
  intros url j Hj Hsite.
  destruct (normalize_accepts url j Hj) as (Hc & Hne & Hall).
  unfold Cli.discover, Cli.normalized_url. rewrite Hj, Hc.
  rewrite Hsite in *.
  cbn [UrlUtils.SITE_PATTERNS UrlUtils.canonical_template].
  destruct (ai_indeed_canonical (UrlUtils.job_id j) Hall) as [-> ->].
  destruct (UrlUtils.job_id j) as [|c id]; [now destruct Hne|].
  cbn [Scan.head_in Scan.leading].
  destruct (Scan.hex_lower_case c); reflexivity.
Qed.

Lemma discover_indeed_job_id_witness :
  Cli.discover "https://www.indeed.com/viewjob?jk=d7a8C6F98b7ec44&from=serp" None
  = inr (Cli.mkStart "https://www.indeed.com/viewjob?jk=d7a8C6F98b7ec44"
           AiParser.INDEED "d7a8").
Proof.
  exact (discover_indeed_job_id
           "https://www.indeed.com/viewjob?jk=d7a8C6F98b7ec44&from=serp"
           (UrlUtils.mkJobURL UrlUtils.INDEED "d7a8C6F98b7ec44"
              "https://www.indeed.com/viewjob?jk=d7a8C6F98b7ec44&from=serp"
              "https://www.indeed.com/viewjob?jk=d7a8C6F98b7ec44")
           eq_refl eq_refl).
Defined.

(** ** From the probes of the discovery to the snippets of the generation *)

Section ProbeFacts.
Import AiParser Discovery.
Context {sigma : Type} `{Page sigma}.

(** [find] does not depend on the order of the list when at most one
    element of the list passes the test. *)
Lemma find_unique_perm {A : Type} (P : A -> bool) (l l' : list A) :
  Permutation l l' ->
  (forall x y, In x l -> In y l -> P x = true -> P y = true -> x = y) ->
  find P l = find P l'.
Proof.
  intros Hperm Huniq.
  destruct (find P l) as [x|] eqn:Ex, (find P l') as [y|] eqn:Ey.
  - apply find_some in Ex, Ey. destruct Ex as [Hx Px], Ey as [Hy Py].
    f_equal. apply Huniq; auto.
    now apply (Permutation_in _ (Permutation_sym Hperm)).
  - apply find_some in Ex. destruct Ex as [Hx Px].
    apply (Permutation_in _ Hperm) in Hx.
    now rewrite (find_none _ _ Ey _ Hx) in Px.
  - apply find_some in Ey. destruct Ey as [Hy Py].
    apply (Permutation_in _ (Permutation_sym Hperm)) in Hy.
    now rewrite (find_none _ _ Ex _ Hy) in Py.
  - reflexivity.
Qed.

Lemma css_results_not_js (page : sigma) (selectors : list string) :
  Forall (fun r => is_js r = false) (css_results page selectors).
Proof.
  eapply Forall_impl; [|apply css_results_scored].
  intros r (Hk & _). unfold is_js. now rewrite Hk.
Qed.

(** The scripted-evaluation result of a field, if the probe has one. *)
Lemma find_js_sorted (page : sigma) (field : string)
    (P : strategy_result -> bool) :
  (forall r, P r = true -> is_js r = true) ->
  find P (test_extraction_strategies page field)
  = find P (js_results page field).
Proof.
  intros HP. unfold test_extraction_strategies, discovered.
  assert (Hcss := css_results_not_js page (css_selectors field)).
  set (css := css_results page (css_selectors field)) in *.
  assert (Hnone : find P css = None).
  { destruct (find P css) as [x|] eqn:E; [|reflexivity].
    apply find_some in E. destruct E as [Hx Px].
    apply (proj1 (Forall_forall _ _) Hcss) in Hx.
    now rewrite (HP _ Px) in Hx. }
  rewrite (find_unique_perm P _ _ (sort_reverse_perm sort_key _)).
  - destruct (js_results_scored page field) as [->|(r & -> & _)];
      cbn [app find]; [exact Hnone|].
    now rewrite Hnone.
  - intros x y Hx Hy Px Py.
    apply (Permutation_in _ (sort_reverse_perm sort_key _)) in Hx, Hy.
    assert (Hjs : forall z, In z (js_results page field ++ css)%list ->
                            P z = true -> In z (js_results page field)).
    { intros z Hz Pz. apply in_app_or in Hz. destruct Hz as [Hz|Hz]; [exact Hz|].
      apply (proj1 (Forall_forall _ _) Hcss) in Hz.
      now rewrite (HP _ Pz) in Hz. }
    apply Hjs in Hx, Hy; try assumption.
    destruct (js_results_scored page field) as [E|(r & E & _)];
      rewrite E in Hx, Hy; [now destruct Hx|].
    destruct Hx as [<-|[]], Hy as [<-|[]]. reflexivity.
Qed.

(** The loops over the strategies of a probed field never raise: the
    scripted result of the probe carries its script. *)
Lemma first_code_probed (page : sigma) (field : string)
    (P : strategy_result -> bool) :
  (forall r, P r = true -> is_js r = true) ->
  exists entry, first_code P (test_extraction_strategies page field) = inr entry.
Proof.
  intros HP. unfold first_code. rewrite (find_js_sorted page field P HP).
  unfold js_results.
  destruct (js_strategies field) as [js|]; [|now exists None].
  destruct (evaluate page _) as [|v]; [now exists None|].
  destruct (js_truthy v && _); [|now exists None].
  cbn [find]. destruct (P _); cbn [code]; eexists; reflexivity.
Qed.

Lemma collect_codes_probed (page : sigma) (P : strategy_result -> bool)
    (fields : list string) :
  (forall r, P r = true -> is_js r = true) ->
  exists snippets,
    collect_codes P
      (map (fun field => (field, test_extraction_strategies page field)) fields)
    = inr snippets
    /\ forall field c,
         In (field, c) snippets <->
         In field fields
         /\ first_code P (test_extraction_strategies page field) = inr (Some c).
Proof.
  intros HP. induction fields as [|f rest IH]; cbn [map collect_codes].
  - exists []. split; [reflexivity|]. intros field c. cbn. tauto.
  - destruct (first_code_probed page f P HP) as [entry E]. rewrite E.
    destruct IH as (snippets & -> & Hs).
    eexists. split; [reflexivity|]. intros field c.
    destruct entry as [c0|]; cbn [In]; rewrite Hs; split.
    + intros [[= <- <-]|[Hin Hc]]; [now split; [left|] | now split; [right|]].
    + intros [[<-|Hin] Hc]; [left; congruence | now right].
    + intros [Hin Hc]. now split; [right|].
    + intros [[<-|Hin] Hc]; [congruence | now split].
Qed.

(** Two tests that find the same strategy in every field build the same
    dict. *)
Lemma collect_codes_ext (P Q : strategy_result -> bool)
    (tested : list (string * list strategy_result)) :
  (forall field strategies,
      In (field, strategies) tested -> find P strategies = find Q strategies) ->
  collect_codes P tested = collect_codes Q tested.
Proof.
  induction tested as [|[f sts] rest IH]; intros Hext; cbn [collect_codes];
    [reflexivity|].
  unfold first_code. rewrite (Hext f sts) by now left.
  rewrite IH; [reflexivity|].
  intros field strategies Hin. apply (Hext field). now right.
Qed.

Lemma pick_snippet_probed (page : sigma) (only_high : bool)
    (field c : string) :
  pick_snippet only_high (test_extraction_strategies page field)
  = inr (Some c) <->
  js_strategies field = Some c
  /\ exists v,
       evaluate page ("() => { return " ++ c ++ "; }") = EvalValue v
       /\ js_truthy v = true
       /\ 10 < String.length (PyStr.strip (py_str v))
       /\ (only_high = true -> 100 < String.length (py_str v)).
Proof.
  unfold pick_snippet, first_code, snippet_test.
  rewrite find_js_sorted
    by (intros r Hr; apply andb_true_iff in Hr; tauto).
  unfold js_results.
  destruct (js_strategies field) as [js|];
    [|split; [discriminate | now intros [E _]]].
  destruct (evaluate page ("() => { return " ++ js ++ "; }")) as [|v] eqn:Ev.
  - split; [discriminate|].
    intros ([= <-] & v & Ev' & _). congruence.
  - destruct (js_truthy v) eqn:Ht; cbn [andb].
    2:{ split; [discriminate|].
        intros ([= <-] & v' & Ev' & Ht' & _). congruence. }
    destruct (Nat.ltb_spec 10 (String.length (PyStr.strip (py_str v))))
      as [H10|H10].
    2:{ split; [discriminate|].
        intros ([= <-] & v' & Ev' & _ & H10' & _).
        assert (v' = v) by congruence. subst v'. lia. }
    cbn [find is_js strategy confidence andb].
    destruct only_high; cbn [negb orb].
    + destruct (Nat.ltb_spec 100 (String.length (py_str v))) as [H100|H100];
        cbn [tier_eqb code].
      * split.
        -- intros [= <-]. split; [reflexivity|]. exists v. auto.
        -- now intros ([= <-] & _).
      * split; [discriminate|].
        intros ([= <-] & v' & Ev' & _ & _ & H100').
        assert (v' = v) by congruence. subst v'.
        specialize (H100' eq_refl). lia.
    + cbn [code]. split.
      * intros [= <-]. split; [reflexivity|]. exists v.
        repeat split; auto. discriminate.
      * now intros ([= <-] & _).
Qed.

Lemma js_strategies_field (field c : string) :
  js_strategies field = Some c -> In field discovery_fields.
Proof.
  unfold js_strategies, discovery_fields.
  destruct (String.eqb_spec field "title") as [->|_]; [cbn; auto|].
  destruct (String.eqb_spec field "company") as [->|_]; [cbn; auto|].
  destruct (String.eqb_spec field "location") as [->|_]; [cbn; auto|].
  destruct (String.eqb_spec field "description") as [->|_]; [cbn; auto 6|].
  discriminate.
Qed.
End ProbeFacts.

(** X11.  The script that the generation mode (with [only_high]) and the
    fix request (without) hand to the service for a field of a log that
    the discovery has probed is the fixed script of that field, and the
    field has an entry exactly when that script, evaluated on the page of
    the discovery, gave a value whose text has more than 10 characters
    after stripping, and more than 100 characters when only strategies of
    high confidence are asked for.  What the selectors found plays no
    part. *)
Theorem snippets_of_probed_log :
  forall (sigma : Type) (P : AiParser.Page sigma) (page : sigma)
         (only_high : bool),
    exists snippets,
      AiParser.js_code_snippets only_high (Discovery.probe_fields page)
      = inr snippets
      /\ forall field c,
           In (field, c) snippets
           <->
           AiParser.js_strategies field = Some c
           /\ exists v,
                AiParser.evaluate page ("() => { return " ++ c ++ "; }")
                = AiParser.EvalValue v
                /\ AiParser.js_truthy v = true
                /\ 10 < String.length (PyStr.strip (AiParser.py_str v))
                /\ (only_high = true ->
                    100 < String.length (AiParser.py_str v)).
Proof.
  intros sigma P page only_high.
  destruct (collect_codes_probed page (AiParser.snippet_test only_high)
              Discovery.discovery_fields) as (snippets & E & Hs).
  { intros r Hr. apply andb_true_iff in Hr. tauto. }
  exists snippets. split; [exact E|]. intros field c.
  rewrite <- pick_snippet_probed. rewrite Hs. unfold AiParser.pick_snippet.
  split; [tauto|]. intros Hp. split; [|exact Hp].
  apply (js_strategies_field field c).
  now apply (proj1 (pick_snippet_probed page only_high field c)).
Qed.

Section ReportedFacts.
Import AiParser Discovery.
Context {sigma : Type} `{Page sigma}.

Lemma lstrip_length (s : string) :
  String.length (PyStr.lstrip s) <= String.length s.
Proof.
  induction s as [|c s IH]; cbn [PyStr.lstrip String.length]; [lia|].
  destruct (PyStr.is_space c); cbn [String.length]; lia.
Qed.

Lemma strip_length (s : string) :
  String.length (PyStr.strip s) <= String.length s.
Proof.
  unfold PyStr.strip.
  destruct (rstrip_split (PyStr.lstrip s)) as (w & Hw & _).
  assert (Hl := lstrip_length s). rewrite Hw, length_app in Hl. lia.
Qed.

Lemma js_results_reported (page : sigma) (field : string) :
  Forall (reported field) (js_results page field).
Proof.
  unfold js_results.
  destruct (js_strategies field) as [js|] eqn:Ejs; [|constructor].
  destruct (evaluate page _) as [|v]; [constructor|].
  destruct (js_truthy v); cbn [andb]; [|constructor].
  destruct (Nat.ltb_spec 10 (String.length (PyStr.strip (py_str v))))
    as [H10|H10]; [|constructor].
  constructor; [|constructor]. unfold reported. cbn.
  assert (Hs := strip_length (py_str v)). repeat split; lia || auto.
Qed.

Lemma css_results_reported (page : sigma) (field : string) :
  forall selectors,
    incl selectors (css_selectors field) ->
    Forall (reported field) (css_results page selectors).
Proof.
  induction selectors as [|sel rest IH]; intros Hincl; cbn [css_results];
    [constructor|].
  apply Forall_app. split.
  - unfold css_result.
    destruct (wait_for_selector page sel 3000); try constructor.
    destruct (text_content page sel) as [|[text|]]; try constructor.
    destruct (PyStr.truthy text); cbn [andb]; [|constructor].
    destruct (Nat.ltb_spec 10 (String.length (PyStr.strip text)))
      as [H10|H10]; [|constructor].
    constructor; [|constructor]. unfold reported. cbn.
    assert (Hs := strip_length text). repeat split; try lia.
    exists sel. split; [reflexivity|]. apply Hincl. now left.
  - apply IH. intros x Hx. apply Hincl. now right.
Qed.

Lemma css_results_length (page : sigma) (selectors : list string) :
  List.length (css_results page selectors) <= List.length selectors.
Proof.
  induction selectors as [|sel rest IH]; cbn [css_results List.length]; [lia|].
  rewrite List.length_app.
  assert (List.length (css_result page sel) <= 1); [|lia].
  unfold css_result.
  destruct (wait_for_selector page sel 3000); cbn; try lia.
  destruct (text_content page sel) as [|[text|]]; cbn; try lia.
  destruct (_ && _); cbn; lia.
Qed.

Lemma css_selectors_length (field : string) :
  List.length (css_selectors field) <= 4.
Proof.
  unfold css_selectors.
  repeat (match goal with |- context [String.eqb ?a ?b] =>
            destruct (String.eqb a b) end); cbn; lia.
Qed.
End ReportedFacts.

Section ReportedAll.
Import AiParser Discovery.
Context {sigma : Type} `{Page sigma}.

Lemma discovered_reported (page : sigma) (field : string) :
  Forall (reported field) (discovered page field).
Proof.
  unfold discovered. apply Forall_app. split.
  - apply js_results_reported.
  - apply css_results_reported. intros x Hx. exact Hx.
Qed.
End ReportedAll.

(** X12.  Every result that [test_extraction_strategies] returns for a
    field is marked as a success, has a text of more than 10 characters,
    and names either the fixed script of the field or one of the fixed
    selectors of the field; there are at most five results, one for the
    script and one for each selector. *)
Theorem probe_reports_working_candidates :
  forall (sigma : Type) (P : AiParser.Page sigma) (page : sigma)
         (field : string),
    Forall (Discovery.reported field)
           (AiParser.test_extraction_strategies page field)
    /\ List.length (AiParser.test_extraction_strategies page field) <= 5.
Proof.
  intros sigma P page field. unfold AiParser.test_extraction_strategies.
  assert (Hperm := sort_reverse_perm AiParser.sort_key
                     (AiParser.discovered page field)).
  split.
  - apply Forall_forall. intros r Hr. apply (Permutation_in _ Hperm) in Hr.
    exact (proj1 (Forall_forall _ _) (discovered_reported page field) _ Hr).
  - rewrite (Permutation_length Hperm). unfold AiParser.discovered.
    rewrite List.length_app.
    assert (Hc := css_results_length page (AiParser.css_selectors field)).
    assert (H4 := css_selectors_length field).
    destruct (js_results_scored page field) as [->|(r & -> & _)]; cbn; lia.
Qed.

Section FixRequestFacts.
Import AiParser Discovery.
Context {sigma : Type} `{Page sigma}.

Lemma find_ext_in {A : Type} (P Q : A -> bool) (l : list A) :
  (forall x, In x l -> P x = Q x) -> find P l = find Q l.
Proof.
  induction l as [|x l IH]; intros Hext; cbn [find]; [reflexivity|].
  rewrite (Hext x) by now left.
  destruct (Q x); [reflexivity|]. apply IH. intros y Hy. apply Hext. now right.
Qed.

Lemma working_js_entry (page : sigma) (field : string) :
  find (fun st => is_js st && success st)
       (test_extraction_strategies page field)
  = find (snippet_test false) (test_extraction_strategies page field).
Proof.
  apply find_ext_in. intros r Hr.
  unfold test_extraction_strategies in Hr.
  apply (Permutation_in _ (sort_reverse_perm sort_key _)) in Hr.
  destruct (proj1 (Forall_forall _ _) (discovered_reported page field) _ Hr)
    as (-> & _).
  reflexivity.
Qed.

(** The loops of the generation mode do not raise on a probed log. *)
Lemma prompt_snippets_probed (page : sigma) :
  exists before found,
    prompt_snippets (probe_fields page) = (before, inr found)
    /\ (before = [] \/ before = [NoHighConfidenceStrategies]).
Proof.
  assert (Hjs : forall only_high r,
            snippet_test only_high r = true -> is_js r = true).
  { intros only_high r Hr. apply andb_true_iff in Hr. tauto. }
  unfold prompt_snippets, js_code_snippets, probe_fields.
  destruct (collect_codes_probed page (snippet_test true) discovery_fields
              (Hjs true)) as (high_only & -> & _).
  destruct high_only as [|entry rest].
  - destruct (collect_codes_probed page (snippet_test false) discovery_fields
                (Hjs false)) as (any & -> & _).
    eexists _, _. split; [reflexivity | now right].
  - eexists _, _. split; [reflexivity | now left].
Qed.
End FixRequestFacts.

(** X13.  For a log that the discovery has probed, the scripts that
    [request_fix_from_ai] lists as working are those that the generation
    mode falls back to when it asks for any scripted strategy, of whatever
    confidence: the mark of success that the fix request looks at is set on
    every result. *)
Theorem working_js_of_probed_log :
  forall (sigma : Type) (P : AiParser.Page sigma) (page : sigma),
    AiParser.working_js (Discovery.probe_fields page)
    = AiParser.js_code_snippets false (Discovery.probe_fields page)
    /\ exists snippets,
         AiParser.working_js (Discovery.probe_fields page) = inr snippets.
Proof.
  intros sigma P page.
  assert (E : AiParser.working_js (Discovery.probe_fields page)
              = AiParser.js_code_snippets false (Discovery.probe_fields page)).
  { unfold AiParser.working_js, AiParser.js_code_snippets.
    apply collect_codes_ext. intros field strategies Hin.
    unfold Discovery.probe_fields in Hin. apply in_map_iff in Hin.
    destruct Hin as (f & [= <- <-] & _). apply working_js_entry. }
  split; [exact E|]. rewrite E.
  destruct (collect_codes_probed page (AiParser.snippet_test false)
              Discovery.discovery_fields) as (snippets & Hs & _).
  { intros r Hr. apply andb_true_iff in Hr. tauto. }
  now exists snippets.
Qed.

Section SampleFacts.
Import AiParser Discovery.
Context {sigma : Type} `{Page sigma}.

Lemma take_nonempty (n : nat) (s : string) :
  s <> "" -> PyStr.take (S n) s <> "".
Proof. destruct s as [|c s]; [now intros []|]. intros _. discriminate. Qed.

Lemma capture_one_entry (page : sigma)
    (tested : list (string * list strategy_result))
    (field selector f html : string) :
  In (f, html) (capture_one page tested (field, selector)) ->
  f = field
  /\ html <> ""
  /\ String.length html <= 500
  /\ (exists text,
        evaluate page (outer_html_script selector) = EvalValue (JStr text)
        /\ html = PyStr.take 500 text)
  /\ exists st sts, lookup field tested = Some (st :: sts).
Proof.
  unfold capture_one.
  destruct (lookup field tested) as [[|st sts]|]; try now intros [].
  destruct (evaluate page (outer_html_script selector)) as [|v];
    [now intros []|].
  destruct (js_truthy v) eqn:Ht; [|now intros []].
  destruct v as [|text|n]; try now intros [].
  intros [[= <- <-]|[]]. repeat split.
  - apply take_nonempty. cbn in Ht. now destruct text.
  - rewrite take_length. lia.
  - now exists text.
  - now exists st, sts.
Qed.

Lemma capture_one_length (page : sigma)
    (tested : list (string * list strategy_result)) (entry : string * string) :
  List.length (capture_one page tested entry) <= 1.
Proof.
  destruct entry as [field selector]. unfold capture_one.
  destruct (lookup field tested) as [[|st sts]|]; cbn; try lia.
  destruct (evaluate page _) as [|v]; cbn; try lia.
  destruct (js_truthy v); cbn; try lia.
  destruct v; cbn; lia.
Qed.
End SampleFacts.

(** X14.  [capture_html_samples] keeps a sample only for a field of its
    table that has at least one tested strategy in the log it is given,
    and only when the script of that field gave a text that is not empty;
    the sample is the first 500 characters of that text.  There are at
    most four samples. *)
Theorem html_samples_bounded :
  forall (sigma : Type) (P : AiParser.Page sigma) (page : sigma)
         (tested : list (string * list AiParser.strategy_result)),
    (forall field html,
        In (field, html) (Discovery.capture_html_samples page tested) ->
        html <> ""
        /\ String.length html <= 500
        /\ (exists selector text,
              In (field, selector) Discovery.field_selectors
              /\ AiParser.evaluate page (Discovery.outer_html_script selector)
                 = AiParser.EvalValue (AiParser.JStr text)
              /\ html = PyStr.take 500 text)
        /\ exists st sts, Discovery.lookup field tested = Some (st :: sts))
    /\ List.length (Discovery.capture_html_samples page tested) <= 4.
Proof.
  intros sigma P page tested. unfold Discovery.capture_html_samples. split.
  - intros field html Hin. apply in_flat_map in Hin.
    destruct Hin as ([f selector] & Hsel & Hin).
    destruct (capture_one_entry _ _ _ _ _ _ Hin)
      as (-> & Hne & Hlen & (text & Ev & Ht) & Hst).
    repeat split; try assumption. now exists selector, text.
  - cbn [flat_map Discovery.field_selectors]. rewrite !List.length_app.
    cbn [List.length].
    assert (H1 := capture_one_length page tested ("title", "h1")).
    assert (H2 := capture_one_length page tested
                    ("company", "a[data-tracking-control-name*='topcard']")).
    assert (H3 := capture_one_length page tested
                    ("location", ".topcard__flavor--bullet")).
    assert (H4 := capture_one_length page tested
                    ("description", "div.show-more-less-html__markup")).
    lia.
Qed.

Section HandshakeFacts.
Import AiParser.

Lemma value_round_trip (s : JobSite) :
  JobSite_of_value (value s) = Some s /\ PyStr.truthy (value s) = true.
Proof. destruct s; split; reflexivity. Qed.

Lemma extract_job_id_empty (s : JobSite) : extract_job_id "" (Some s) = None.
Proof. destruct s; reflexivity. Qed.

Lemma discover_start (url : string) (site_arg : option JobSite)
    (start : Cli.discovery_start) :
  Cli.discover url site_arg = inr start ->
  Cli.job_url start = Cli.normalized_url url
  /\ Cli.job_url start <> ""
  /\ Cli.start_job_id start <> ""
  /\ extract_job_id (Cli.job_url start) (Some (Cli.start_site start))
     = Some (Cli.start_job_id start)
  /\ match site_arg with
     | Some s => Cli.start_site start = s
     | None => detect_job_site (Cli.job_url start) = inr (Cli.start_site start)
     end.
Proof.
  unfold Cli.discover.
  set (u := Cli.normalized_url url).
  destruct (match site_arg with
            | Some s => inr s
            | None => detect_job_site u
            end) as [e|s] eqn:Es; [discriminate|].
  destruct (extract_job_id u (Some s)) as [id|] eqn:Eid; [|discriminate].
  destruct id as [|c id]; [discriminate|]. cbn [PyStr.truthy].
  intros [= <-]. cbn [Cli.job_url Cli.start_site Cli.start_job_id].
  repeat split; try discriminate; try assumption.
  - intros Eu. rewrite Eu, extract_job_id_empty in Eid. discriminate.
  - destruct site_arg as [s'|]; [now injection Es | exact Es].
Qed.
End HandshakeFacts.

(** X15.  A log that the discovery mode saves is one that the generation
    mode takes up: its site is the site of the discovery, whatever the
    analysis of the service holds and whatever its url is; its job id is
    the non-empty one that the discovery read off the url; and its url,
    the one that the page was sent to, is there for the validation run, so
    that the generation reaches the reply of the service and never warns
    that the log has no url to test with. *)
Theorem saved_log_starts_generation :
  forall (W : Type) (HW : AiParser.Host W) (w : W)
         (sigma : Type) (P : AiParser.Page sigma) (page : sigma)
         (now url path file : string) (site_arg : option AiParser.JobSite)
         (analysis log : AiParser.discovery_log),
    Discovery.discovered_log now url site_arg page analysis = inr (log, file) ->
    AiParser.load_discovery_log w path = log ->
    exists start,
      Cli.discover url site_arg = inr start
      /\ file = "discovery_logs/" ++ AiParser.value (Cli.start_site start)
                ++ "_discovery_" ++ now ++ ".json"
      /\ AiParser.resolve_site log None = inr (Cli.start_site start)
      /\ AiParser.log_job_id log = Some (Cli.start_job_id start)
      /\ AiParser.log_url log = Some (Cli.job_url start)
      /\ AiParser.tested_strategies log = Discovery.probe_fields page
      /\ let g := AiParser.run_generation_mode w path None in
         let script :=
           snd (AiParser.generation_reply w (Cli.start_site start) log) in
         ~ In AiParser.NoTestUrl (AiParser.warnings g)
         /\ match snd (AiParser.check_generated_script script) with
            | Some e => AiParser.returned g = inl e
            | None =>
                AiParser.artifact g
                = Some ("generated_scripts/"
                        ++ AiParser.value (Cli.start_site start) ++ "_scraper.py",
                        AiParser.shebang ++ script)
            end.
Proof.
  intros W HW w sigma P page now url path file site_arg analysis log Hd Hload.
  unfold Discovery.discovered_log in Hd.
  destruct (Cli.discover url site_arg) as [e|start] eqn:Hstart; [discriminate|].
  injection Hd as <- <-.
  destruct (discover_start _ _ _ Hstart) as (_ & Hurl & Hid & _ & _).
  destruct (value_round_trip (Cli.start_site start)) as [Hrt Htr].
  exists start.
  cbn [AiParser.log_job_id AiParser.log_url AiParser.tested_strategies
       Discovery.complete_log].
  assert (Hres : AiParser.resolve_site
                   (AiParser.mkLog (Some (AiParser.value (Cli.start_site start)))
                      (Some (Cli.job_url start)) (Some (Cli.start_job_id start))
                      (Discovery.probe_fields page)) None
                 = inr (Cli.start_site start)).
  { unfold AiParser.resolve_site. cbn [AiParser.log_site].
    now rewrite Htr, Hrt. }
  repeat split; try reflexivity; try exact Hres.
  - unfold AiParser.run_generation_mode. rewrite Hload, Hres.
    cbn [AiParser.log_job_id AiParser.log_url AiParser.tested_strategies].
    destruct (Cli.start_job_id start) as [|c id] eqn:Eid; [now destruct Hid|].
    cbn [PyStr.truthy negb].
    destruct (prompt_snippets_probed page) as (w0 & found & Eps & Hw0).
    rewrite Eps.
    destruct (AiParser.generation_reply w (Cli.start_site start) _)
      as [w1 script].
    destruct (AiParser.check_generated_script script) as [ws [e|]] eqn:Ec.
    + cbn [AiParser.warnings]. intros Hin. apply in_app_or in Hin.
      destruct Hin as [Hin|Hin].
      * destruct Hw0 as [->| ->];
          [now destruct Hin | destruct Hin as [Hin|[]]; discriminate Hin].
      * assert (Hw := check_warnings script AiParser.NoTestUrl).
        rewrite Ec in Hw. destruct (Hw Hin) as [Hw'|(i & Hw' & _)];
          discriminate Hw'.
    + destruct (Cli.job_url start) as [|d u] eqn:Eu; [now destruct Hurl|].
      cbn [PyStr.truthy].
      assert (Hno : ~ In AiParser.NoTestUrl (w0 ++ ws)%list).
      { intros Hin. apply in_app_or in Hin. destruct Hin as [Hin|Hin].
        * destruct Hw0 as [->| ->];
            [now destruct Hin | destruct Hin as [Hin|[]]; discriminate Hin].
        * assert (Hw := check_warnings script AiParser.NoTestUrl).
          rewrite Ec in Hw. destruct (Hw Hin) as [Hw'|(i & Hw' & _)];
            discriminate Hw'. }
      destruct (AiParser.raised _); [exact Hno|].
      destruct (AiParser.passed _); exact Hno.
  - unfold AiParser.run_generation_mode. rewrite Hload, Hres.
    cbn [AiParser.log_job_id AiParser.log_url AiParser.tested_strategies].
    destruct (Cli.start_job_id start) as [|c id] eqn:Eid; [now destruct Hid|].
    cbn [PyStr.truthy negb].
    destruct (prompt_snippets_probed page) as (w0 & found & Eps & Hw0).
    rewrite Eps.
    destruct (AiParser.generation_reply w (Cli.start_site start) _)
      as [w1 script].
    cbn [snd].
    destruct (AiParser.check_generated_script script) as [ws [e|]];
      cbn [snd]; [reflexivity|].
    destruct (Cli.job_url start) as [|d u] eqn:Eu; [now destruct Hurl|].
    cbn [PyStr.truthy].
    destruct (AiParser.raised _); [reflexivity|].
    destruct (AiParser.passed _); reflexivity.
Qed.

Lemma saved_log_starts_generation_witness :
  exists start,
    Cli.discover "https://www.linkedin.com/jobs/view/4300362234/?trk=x" None
    = inr start
    /\ "discovery_logs/linkedin_discovery_2025-09-29T12-00-00.json"
       = "discovery_logs/" ++ AiParser.value (Cli.start_site start)
         ++ "_discovery_" ++ "2025-09-29T12-00-00" ++ ".json"
    /\ AiParser.resolve_site
         (AiParser.mkLog (Some "linkedin")
            (Some "https://www.linkedin.com/jobs/view/4300362234")
            (Some "4300362234") (Discovery.probe_fields Sim.scenario_C)) None
       = inr (Cli.start_site start)
    /\ Some "4300362234" = Some (Cli.start_job_id start)
    /\ Some "https://www.linkedin.com/jobs/view/4300362234"
       = Some (Cli.job_url start)
    /\ Discovery.probe_fields Sim.scenario_C
       = Discovery.probe_fields Sim.scenario_C
    /\ let w := Sim.generation_setup "linkedin" Sim.script_with_fixed_id in
       let log :=
         AiParser.mkLog (Some "linkedin")
           (Some "https://www.linkedin.com/jobs/view/4300362234")
           (Some "4300362234") (Discovery.probe_fields Sim.scenario_C) in
       let w' := Sim.mkState (Sim.pending w) (Sim.output w) log (Sim.reply w)
                   (Sim.written w) in
       let g := AiParser.run_generation_mode w' "log.json" None in
       let script :=
         snd (AiParser.generation_reply w' (Cli.start_site start) log) in
       ~ In AiParser.NoTestUrl (AiParser.warnings g)
       /\ match snd (AiParser.check_generated_script script) with
          | Some e => AiParser.returned g = inl e
          | None =>
              AiParser.artifact g
              = Some ("generated_scripts/"
                      ++ AiParser.value (Cli.start_site start) ++ "_scraper.py",
                      AiParser.shebang ++ script)
          end.
Proof.
  exact (saved_log_starts_generation Sim.state Sim.host
           (let w := Sim.generation_setup "linkedin" Sim.script_with_fixed_id in
            Sim.mkState (Sim.pending w) (Sim.output w)
              (AiParser.mkLog (Some "linkedin")
                 (Some "https://www.linkedin.com/jobs/view/4300362234")
                 (Some "4300362234") (Discovery.probe_fields Sim.scenario_C))
              (Sim.reply w) (Sim.written w))
           Sim.doc Sim.page Sim.scenario_C
           "2025-09-29T12-00-00"
           "https://www.linkedin.com/jobs/view/4300362234/?trk=x"
           "log.json"
           "discovery_logs/linkedin_discovery_2025-09-29T12-00-00.json"
           None Sim.empty_log _ eq_refl eq_refl).
Defined.

(** X25.  When the site was detected from the url, the validation run of
    a generated script looks for its output under the job id of the
    discovery: for the url that the discovery visited, which is the test
    url of the log, [extract_job_id] without a site gives the job id of the
    log, so the files are looked for with the pattern made of that id
    between two stars. *)
Theorem validation_looks_for_discovered_job_id :
  forall (url : string) (start : Cli.discovery_start),
    Cli.discover url None = inr start ->
    AiParser.extract_job_id (Cli.job_url start) None
    = Some (Cli.start_job_id start)
    /\ AiParser.glob_pattern (AiParser.extract_job_id (Cli.job_url start) None)
       = "*" ++ Cli.start_job_id start ++ "*".
Proof.
  intros url start Hd.
  destruct (discover_start url None start Hd) as (_ & _ & _ & Hid & Hdet).
  assert (E : AiParser.extract_job_id (Cli.job_url start) None
              = Some (Cli.start_job_id start)).
  { unfold AiParser.extract_job_id in *. now rewrite Hdet. }
  split; [exact E|]. now rewrite E.
Qed.

Lemma validation_looks_for_discovered_job_id_witness :
  AiParser.extract_job_id "https://www.indeed.com/viewjob?jk=d7a8476f98b7ec44" None
  = Some "d7a8476f98b7ec44"
  /\ AiParser.glob_pattern
       (AiParser.extract_job_id
          "https://www.indeed.com/viewjob?jk=d7a8476f98b7ec44" None)
     = "*" ++ "d7a8476f98b7ec44" ++ "*".
Proof.
  exact (validation_looks_for_discovered_job_id
           "https://www.indeed.com/viewjob?jk=d7a8476f98b7ec44&from=serp"
           (Cli.mkStart "https://www.indeed.com/viewjob?jk=d7a8476f98b7ec44"
              AiParser.INDEED "d7a8476f98b7ec44")
           eq_refl).
Defined.

(** ** The stock scraper *)

Section StripPieceFacts.
Import Re.

Lemma lstrip_split (s : string) : exists w, s = w ++ PyStr.lstrip s.
Proof.
  induction s as [|c s (w & Hw)]; [now exists ""|].
  cbn [PyStr.lstrip]. destruct (PyStr.is_space c).
  - exists (String c w). cbn [append]. now rewrite <- Hw.
  - now exists "".
Qed.

Lemma strip_split (s : string) : exists v w, s = v ++ PyStr.strip s ++ w.
Proof.
  unfold PyStr.strip.
  destruct (lstrip_split s) as (v & Hv).
  destruct (rstrip_split (PyStr.lstrip s)) as (w & Hw & _).
  exists v, w. now rewrite <- Hw.
Qed.

Lemma strip_piece (p s : string) :
  PyStr.Substring p (PyStr.strip s) -> PyStr.Substring p s.
Proof.
  intros (x & y & Hxy). destruct (strip_split s) as (v & w & Hs).
  exists (v ++ x), (y ++ w). rewrite Hs at 1. rewrite Hxy.
  now rewrite !append_assoc.
Qed.

Lemma found_lits_app_l (ic : bool) (p a b : string) :
  found ic (lits p) b = true -> found ic (lits p) (a ++ b) = true.
Proof.
  intros Hb. induction a as [|c a IH]; cbn [append]; [exact Hb|].
  rewrite found_cons. now destruct (match_here ic (lits p) None _).
Qed.

Lemma detect_stripped (url : string) :
  UrlUtils.detect_job_site (PyStr.strip url) = Some UrlUtils.LINKEDIN ->
  UrlUtils.detect_job_site url = Some UrlUtils.LINKEDIN.
Proof.
  unfold UrlUtils.detect_job_site.
  cbn [UrlUtils.first_domain_match UrlUtils.SITE_PATTERNS_keys
       UrlUtils.SITE_PATTERNS UrlUtils.domain_pattern].
  destruct (found true (lits "linkedin.com") (PyStr.lower (PyStr.strip url)))
    eqn:E.
  - intros _. destruct (strip_split url) as (v & w & Hs).
    rewrite Hs at 1. rewrite !lower_app.
    rewrite found_lits_app_l; [reflexivity|]. now apply found_lits_app.
  - destruct (found true (lits "indeed.com") _); [discriminate|].
    destruct (found true (lits "glassdoor.com") _); discriminate.
Qed.
End StripPieceFacts.

Section ScraperFacts.
Import LinkedinJobScraper.
Context {B : Type} `{Browser B}.

(** The run visits nothing, or the canonical url of the accepted url and
    nothing else. *)
Lemma scrape_visits (b : B) (url output_dir : string) :
  (actions (scrape_linkedin_job b url output_dir) = []
   /\ result (scrape_linkedin_job b url output_dir) = None
   /\ browser (scrape_linkedin_job b url output_dir) = b)
  \/ exists j rest,
       UrlUtils.normalize_job_url url = inr j
       /\ UrlUtils.site j = UrlUtils.LINKEDIN
       /\ actions (scrape_linkedin_job b url output_dir)
          = Navigate (UrlUtils.canonical_url j) :: rest
       /\ match result (scrape_linkedin_job b url output_dir) with
          | Some d =>
              description d <> ""
              /\ rest = [ MakeDir output_dir;
                          Truncate output_dir
                            (sanitize_filename (title d) ++ "-"
                             ++ sanitize_filename (company d) ++ ".txt");
                          Save output_dir
                            (sanitize_filename (title d) ++ "-"
                             ++ sanitize_filename (company d) ++ ".txt")
                            (format_job_description d) ]
          | None =>
              rest = []
              \/ rest = [ MakeDir output_dir ]
              \/ exists d,
                   description d <> ""
                   /\ rest = [ MakeDir output_dir;
                               Truncate output_dir
                                 (sanitize_filename (title d) ++ "-"
                                  ++ sanitize_filename (company d) ++ ".txt") ]
          end.
Proof.
  unfold scrape_linkedin_job.
  destruct (UrlUtils.normalize_job_url url) as [e|j]; [now left|].
  destruct (UrlUtils.site j) eqn:Es; cbn [is_linkedin negb];
    try (now left).
  right. exists j.
  destruct (goto b (UrlUtils.canonical_url j)) as [b1|];
    [|exists []; cbn; auto].
  destruct (match wait_for_heading b1 with
            | Some b2 => Some b2
            | None => wait_for_timeout b1 5000
            end) as [b2|]; [|exists []; cbn; auto].
  destruct (evaluate_job (dismiss_modal b2)) as [[d|]|];
    try (exists []; cbn; now auto).
  destruct (description d) as [|c s] eqn:Ed; cbn [PyStr.truthy];
    [exists []; cbn; now auto|].
  destruct (mkdir _ _) as [b4|]; [|exists []; cbn; now auto].
  destruct (open_for_writing _ _ _) as [b5|];
    [|eexists; cbn [actions result]; repeat split;
      [exact Es | now right; left]].
  destruct (write_text _ _ _ _) as [b6|]; eexists; cbn [actions result].
  - repeat split; [exact Es | rewrite Ed; discriminate].
  - repeat split; [exact Es|]. right; right. exists d.
    split; [rewrite Ed; discriminate | reflexivity].
Qed.


End ScraperFacts.

(** X16.  [scrape_linkedin_job] sends the browser nowhere but to the
    canonical url of a LinkedIn posting: every url that it navigates to is
    [https://www.linkedin.com/jobs/view/] followed by a non-empty run of
    digits taken from the url it was given, whatever else that url held.
    A url of another site, or one that [normalize_job_url] refuses, is
    not visited at all. *)
Theorem scraper_visits_canonical_url_only :
  forall (B : Type) (HB : LinkedinJobScraper.Browser B) (b : B)
         (url output_dir visited : string),
    In (LinkedinJobScraper.Navigate visited)
       (LinkedinJobScraper.actions
          (LinkedinJobScraper.scrape_linkedin_job b url output_dir)) ->
    exists id,
      visited = "https://www.linkedin.com/jobs/view/" ++ id
      /\ id <> ""
      /\ Re.all_chars Scan.digit id = true
      /\ PyStr.Substring id url
      /\ UrlUtils.detect_job_site url = Some UrlUtils.LINKEDIN.
Proof.
  intros B HB b url output_dir visited Hin.
  destruct (scrape_visits b url output_dir)
    as [(E & _)|(j & rest & Hj & Hs & E & Hr)];
    rewrite E in Hin; [now destruct Hin|].
  assert (Hv : visited = UrlUtils.canonical_url j).
  { destruct Hin as [[= <-]|Hin]; [reflexivity|]. exfalso.
    destruct (LinkedinJobScraper.result _) as [d|].
    - destruct Hr as [_ ->]. cbn in Hin.
      destruct Hin as [Hin|[Hin|[Hin|[]]]]; discriminate Hin.
    - destruct Hr as [->|[->|(d & _ & ->)]]; cbn in Hin.
      + exact Hin.
      + destruct Hin as [Hin|[]]; discriminate Hin.
      + destruct Hin as [Hin|[Hin|[]]]; discriminate Hin. }
  subst visited.
  destruct (normalize_accepts url j Hj) as (Hc & Hne & Hall).
  rewrite Hs in Hc, Hall. cbn [UrlUtils.SITE_PATTERNS UrlUtils.canonical_template] in Hc.
  exists (UrlUtils.job_id j). repeat split; try assumption.
  - revert Hj. unfold UrlUtils.normalize_job_url.
    destruct (negb (PyStr.truthy url)); [discriminate|].
    destruct (UrlUtils.detect_job_site (PyStr.strip url)) as [s|]; [|discriminate].
    unfold UrlUtils.extract_job_id.
    destruct (job_id_pattern_ends_in_group s) as (pre & a & ->).
    destruct (Re.search true (pre ++ [Re.GroupPlus a])%list (PyStr.strip url))
      as [m|] eqn:Hsearch; [|discriminate].
    destruct (search_group_piece _ _ _ _ _ Hsearch) as (id & -> & x & y & Hxy).
    cbn [Re.group1]. destruct (negb (PyStr.truthy id)); [discriminate|].
    intros [= <-]. cbn [UrlUtils.job_id].
    apply strip_piece. now exists x, y.
  - revert Hj Hs. unfold UrlUtils.normalize_job_url.
    destruct (negb (PyStr.truthy url)); [discriminate|].
    destruct (UrlUtils.detect_job_site (PyStr.strip url)) as [s|] eqn:Ed;
      [|discriminate].
    destruct (UrlUtils.extract_job_id _ s) as [id|]; [|discriminate].
    destruct (negb (PyStr.truthy id)); [discriminate|].
    intros [= <-]. cbn [UrlUtils.site]. intros ->.
    now apply detect_stripped.
Qed.

Lemma scraper_visits_canonical_url_only_witness :
  exists id,
    "https://www.linkedin.com/jobs/view/4300362234"
    = "https://www.linkedin.com/jobs/view/" ++ id
    /\ id <> ""
    /\ Re.all_chars Scan.digit id = true
    /\ PyStr.Substring id
         " https://www.LinkedIn.com/jobs/view/4300362234/?trk=public_jobs"
    /\ UrlUtils.detect_job_site
         " https://www.LinkedIn.com/jobs/view/4300362234/?trk=public_jobs"
       = Some UrlUtils.LINKEDIN.
Proof.
  exact (scraper_visits_canonical_url_only Stage.state Stage.stage_browser
           (Stage.showing (Some Stage.posting))
           " https://www.LinkedIn.com/jobs/view/4300362234/?trk=public_jobs"
           "job_descriptions"
           "https://www.linkedin.com/jobs/view/4300362234"
           (or_introl eq_refl)).
Defined.


Section FormatFacts.
Import LinkedinJobScraper.

Lemma format_length (d : job_data) :
  String.length (format_job_description d)
  = 189 + (String.length (title d) + String.length (company d)
           + String.length (location d) + String.length (salary d)
           + String.length (url d) + String.length (description d)).
Proof.
  unfold format_job_description. rewrite !length_app.
  unfold rule. rewrite length_of_repeat. cbn [String.length PyStr.newline]. lia.
Qed.

Lemma format_has_heading (d : job_data) :
  PyStr.SubstringCI "description" (format_job_description d).
Proof.
  exists ("Job Title: " ++ title d ++ PyStr.newline
          ++ "Company: " ++ company d ++ PyStr.newline
          ++ "Location: " ++ location d ++ PyStr.newline
          ++ "Salary: " ++ salary d ++ PyStr.newline
          ++ "URL: " ++ url d ++ PyStr.newline
          ++ PyStr.newline
          ++ rule ++ PyStr.newline ++ "JOB "),
         "DESCRIPTION",
         (PyStr.newline ++ rule ++ PyStr.newline ++ PyStr.newline
          ++ description d ++ PyStr.newline).
  split; [|reflexivity].
  unfold format_job_description.
  change "JOB DESCRIPTION" with ("JOB " ++ "DESCRIPTION").
  now rewrite !append_assoc.
Qed.
End FormatFacts.

(** X18.  A file in the format of [format_job_description] always passes
    the key-word test of the validation loop, by its heading: the content
    test of [validate_generated_script] accepts it exactly when it has more
    than 500 characters, which is the test of the multi-job harness, and
    that is when the six fields of the posting have more than 311
    characters together. *)
Theorem stock_format_sufficient_by_length :
  forall d : LinkedinJobScraper.job_data,
    AiParser.content_sufficient (LinkedinJobScraper.format_job_description d)
    = Nat.ltb 500
        (String.length (LinkedinJobScraper.format_job_description d))
    /\ (AiParser.content_sufficient
          (LinkedinJobScraper.format_job_description d) = true
        <-> 311 < String.length (LinkedinJobScraper.title d)
                  + String.length (LinkedinJobScraper.company d)
                  + String.length (LinkedinJobScraper.location d)
                  + String.length (LinkedinJobScraper.salary d)
                  + String.length (LinkedinJobScraper.url d)
                  + String.length (LinkedinJobScraper.description d)).
Proof.
  intros d.
  assert (Hk : PyStr.contains "description"
                 (PyStr.lower (LinkedinJobScraper.format_job_description d))
               = true).
  { apply contains_lower_SubstringCI, format_has_heading. }
  assert (E : AiParser.content_sufficient
                (LinkedinJobScraper.format_job_description d)
              = Nat.ltb 500
                  (String.length (LinkedinJobScraper.format_job_description d))).
  { unfold AiParser.content_sufficient. rewrite Hk.
    now rewrite orb_true_r, andb_true_r. }
  split; [exact E|].
  rewrite E, format_length, Nat.ltb_lt. lia.
Qed.

(** X24.  The function [extract_job_id] that the stock scraper keeps for
    backward compatibility reads, off the canonical url of every LinkedIn
    url that [normalize_job_url] accepts, the job id that
    [normalize_job_url] found. *)
Theorem deprecated_extract_job_id_on_canonical :
  forall (url : string) (j : UrlUtils.JobURL),
    UrlUtils.normalize_job_url url = inr j ->
    UrlUtils.site j = UrlUtils.LINKEDIN ->
    LinkedinJobScraper.extract_job_id (UrlUtils.canonical_url j)
    = Some (UrlUtils.job_id j).
Proof.
  intros url j Hj Hs.
  destruct (normalize_accepts url j Hj) as (Hc & Hne & Hall).
  rewrite Hs in Hc, Hall.
  cbn [UrlUtils.SITE_PATTERNS UrlUtils.canonical_template] in Hc.
  rewrite Hc.
  exact (proj2 (ai_linkedin_canonical (UrlUtils.job_id j) Hne Hall)).
Qed.

Lemma deprecated_extract_job_id_on_canonical_witness :
  LinkedinJobScraper.extract_job_id "https://www.linkedin.com/jobs/view/4300371471"
  = Some "4300371471".
Proof.
  exact (deprecated_extract_job_id_on_canonical
           "https://WWW.LINKEDIN.COM/JOBS/VIEW/4300371471/?refId=tracking"
           (UrlUtils.mkJobURL UrlUtils.LINKEDIN "4300371471"
              "https://WWW.LINKEDIN.COM/JOBS/VIEW/4300371471/?refId=tracking"
              "https://www.linkedin.com/jobs/view/4300371471")
           eq_refl eq_refl).
Defined.

(** ** The results of the multi-job harness *)

Section HarnessFacts.
Import AiParser Harness.
Context {W : Type} `{Host W}.

Lemma test_one_well_formed (w : W) (script_path : string) (s : JobSite)
    (url : string) :
  tr_url (snd (test_one w script_path s url)) = url
  /\ well_formed s (snd (test_one w script_path s url)).
Proof.
  unfold test_one, well_formed.
  destruct (subprocess_run w script_path url) as [w1 [|returncode stderr]];
    cbn [snd tr_url tr_job_id tr_success].
  - repeat split; cbn; (discriminate || lia).
  - destruct (Z.eqb returncode 0).
    + destruct (glob_job_descriptions w1 _) as [|output_file others].
      * repeat split; cbn; (discriminate || lia).
      * destruct (Nat.ltb_spec 500 (String.length (read_file w1 output_file)));
          repeat split; cbn; (discriminate || lia).
    + repeat split; cbn; (discriminate || lia).
Qed.

Lemma test_each_well_formed (script_path : string) (s : JobSite)
    (urls : list string) :
  forall w : W,
    map tr_url (snd (test_each w script_path s urls)) = urls
    /\ Forall (well_formed s) (snd (test_each w script_path s urls)).
Proof.
  induction urls as [|url rest IH]; intros w; cbn [test_each].
  - split; [reflexivity | constructor].
  - destruct (test_one_well_formed w script_path s url) as [Hu Hw].
    destruct (test_one w script_path s url) as [w1 r].
    destruct (IH w1) as [Hus Hws].
    destruct (test_each w1 script_path s rest) as [w2 rs].
    cbn [snd map] in *. split; [now rewrite Hu, Hus | now constructor].
Qed.
End HarnessFacts.

(** X19.  [validate_scraper_multi_job] returns one result for each test
    url, in the order of the urls, each with the job id that
    [extract_job_id] reads off its url for the site.  A result marked as a
    success names an output file of more than 500 characters and carries
    no error; a result that is not a success carries the text of an
    error, and an output file of at most 500 characters if it names
    one. *)
Theorem multi_job_results_well_formed :
  forall (W : Type) (HW : AiParser.Host W) (w w' : W) (script_path : string)
         (s : AiParser.JobSite) (test_urls : option (list string))
         (rate : spec_float) (results : list AiParser.test_result),
    AiParser.validate_scraper_multi_job w script_path s test_urls
    = (w', Some (rate, results)) ->
    map AiParser.tr_url results
    = match test_urls with
      | None => AiParser.TEST_URLS s
      | Some urls => urls
      end
    /\ Forall (Harness.well_formed s) results.
Proof.
  intros W HW w w' script_path s test_urls rate results.
  unfold AiParser.validate_scraper_multi_job.
  set (urls := match test_urls with
               | None => AiParser.TEST_URLS s
               | Some l => l
               end).
  destruct urls as [|url rest] eqn:Eu.
  - intros [= <- <- <-]. split; [reflexivity | constructor].
  - destruct (test_each_well_formed script_path s (url :: rest) w) as [Hu Hw].
    destruct (AiParser.test_each w script_path s (url :: rest)) as [w1 rs].
    cbn [snd] in Hu, Hw.
    destruct (AiParser.success_rate_of rs); [|discriminate].
    intros [= <- <- <-]. now split.
Qed.

Lemma multi_job_results_well_formed_witness :
  map AiParser.tr_url
    [ AiParser.mkTest "https://www.linkedin.com/jobs/view/4305267405"
        (Some "4305267405") true (Some "job_descriptions/output.txt") 613 None;
      AiParser.mkTest "https://www.linkedin.com/jobs/view/4300362234"
        (Some "4300362234") false None 0 (Some "Timeout (90s)") ]
  = [ "https://www.linkedin.com/jobs/view/4305267405";
      "https://www.linkedin.com/jobs/view/4300362234" ]
  /\ Forall (Harness.well_formed AiParser.LINKEDIN)
       [ AiParser.mkTest "https://www.linkedin.com/jobs/view/4305267405"
           (Some "4305267405") true (Some "job_descriptions/output.txt") 613 None;
         AiParser.mkTest "https://www.linkedin.com/jobs/view/4300362234"
           (Some "4300362234") false None 0 (Some "Timeout (90s)") ].
Proof.
  exact (multi_job_results_well_formed Sim.state Sim.host
           (Sim.start [ (AiParser.Completed 0 "",
                         Some (Sim.padded "About the job" 600)) ])
           _ "generated_scripts/linkedin_scraper.py" AiParser.LINKEDIN
           (Some [ "https://www.linkedin.com/jobs/view/4305267405";
                   "https://www.linkedin.com/jobs/view/4300362234" ])
           _ _ eq_refl).
Defined.

Section StructureFacts.
Import AiParser Harness.
Context {W : Type} `{Host W}.

Lemma import_issues_nil (n : import_node) :
  import_issues n = [] <-> clean_import n.
Proof.
  destruct n as [names|[m|]]; cbn [import_issues clean_import].
  - split.
    + intros E a Ha. destruct (mentions_ai a) eqn:Em; [|reflexivity].
      assert (Hin : In a (filter mentions_ai names))
        by (apply filter_In; now split).
      destruct (filter mentions_ai names); [now destruct Hin | discriminate E].
    + intros Hc. induction names as [|a names IH]; [reflexivity|].
      cbn [filter]. rewrite (Hc a) by now left.
      apply IH. intros b Hb. apply Hc. now right.
  - destruct (mentions_ai m) eqn:Em; [|now rewrite andb_false_r].
    rewrite andb_true_r. destruct m as [|c m]; [discriminate Em|].
    cbn [PyStr.truthy]. split; discriminate.
  - tauto.
Qed.

Lemma flat_map_nil {A C : Type} (f : A -> list C) (l : list A) :
  flat_map f l = [] <-> forall x, In x l -> f x = [].
Proof.
  induction l as [|x l IH]; cbn [flat_map].
  - split; [now intros _ x [] | reflexivity].
  - split.
    + intros E. apply app_eq_nil in E. destruct E as [Ex El].
      intros y [<-|Hy]; [exact Ex | now apply IH].
    + intros Hall. rewrite (Hall x) by now left.
      apply IH. intros y Hy. apply Hall. now right.
Qed.

Lemma missing_nil (found_functions : list string) (required : list string) :
  filter (fun f => negb (existsb (String.eqb f) found_functions)) required = []
  <-> forall f, In f required -> In f found_functions.
Proof.
  induction required as [|g required IH]; cbn [filter].
  - split; [now intros _ f [] | reflexivity].
  - destruct (existsb (String.eqb g) found_functions) eqn:Eg; cbn [negb].
    + apply existsb_exists in Eg. destruct Eg as (x & Hx & Egx).
      apply String.eqb_eq in Egx. subst x.
      rewrite IH. split.
      * intros Hall f [<-|Hf]; [exact Hx | now apply Hall].
      * intros Hall f Hf. apply Hall. now right.
    + split; [discriminate|]. intros Hall.
      assert (Hin : In g found_functions) by (apply Hall; now left).
      assert (Ht : existsb (String.eqb g) found_functions = true).
      { apply existsb_exists. exists g. split; [exact Hin|].
        apply String.eqb_refl. }
      congruence.
Qed.

End StructureFacts.

(** X20.  [validate_script_structure] accepts a script exactly when the
    script parses, defines each of the five required functions, among them
    [scrape_linkedin_job] whatever the site is, and has no import whose
    name mentions [anthropic] or [mcp] in any letter case; it accepts
    exactly when it reports no issue. *)
Theorem script_structure_valid_iff :
  forall (W : Type) (HW : AiParser.Host W) (code : string),
    (fst (AiParser.validate_script_structure code) = true <->
     exists tree,
       AiParser.ast_parse code = AiParser.Parsed tree
       /\ (forall f, In f [ "sanitize_filename"; "extract_job_id";
                            "scrape_linkedin_job"; "format_job_description";
                            "main" ] ->
                     In f (AiParser.function_defs tree))
       /\ (forall n, In n (AiParser.import_nodes tree) ->
                     Harness.clean_import n))
    /\ (fst (AiParser.validate_script_structure code) = true <->
        snd (AiParser.validate_script_structure code) = []).
Proof.
  intros W HW code. unfold AiParser.validate_script_structure.
  destruct (AiParser.ast_parse code) as [msg lineno|tree]; cbn [fst snd].
  - split; split; try discriminate. now intros (tree & E & _).
  - set (missing := filter _ AiParser.required_functions).
    assert (Hm := missing_nil (AiParser.function_defs tree) AiParser.required_functions).
    fold missing in Hm.
    assert (Hi := flat_map_nil AiParser.import_issues (AiParser.import_nodes tree)).
    set (imports := flat_map AiParser.import_issues (AiParser.import_nodes tree)) in *.
    split.
    + split.
      * intros E. exists tree. split; [reflexivity|].
        destruct missing as [|m ms]; [|discriminate E].
        cbn [app] in E. destruct imports as [|i others]; [|discriminate E].
        split; [now apply Hm|].
        intros n Hn. apply import_issues_nil. now apply (proj1 Hi).
      * intros (tree' & [= <-] & Hreq & Himp).
        rewrite (proj2 Hm Hreq). cbn [app].
        rewrite (proj2 Hi); [reflexivity|].
        intros n Hn. apply import_issues_nil. now apply Himp.
    + destruct (_ ++ imports)%list; split; (reflexivity || discriminate).
Qed.

(** ** Running code in a sub-process *)

Section ExecFacts.
Import AiParser Exec.

Lemma limit_output_length (out : string) :
  String.length (limit_output out) <= max_output + 23.
Proof.
  unfold limit_output. rewrite length_app.
  assert (Ht : String.length
                 (if PyStr.truthy out then PyStr.take max_output out else "")
               <= max_output).
  { destruct (PyStr.truthy out); [|cbn; lia].
    rewrite take_length. apply Nat.le_min_l. }
  assert (Hm : String.length
                 (if Nat.ltb max_output (String.length out)
                  then truncation_mark else "") <= 23).
  { destruct (Nat.ltb _ _); cbn; lia. }
  lia.
Qed.

Lemma append_nil_r (s : string) : s ++ "" = s.
Proof. induction s as [|c s IH]; cbn [append]; [reflexivity | now rewrite IH]. Qed.

Lemma limit_output_short (out : string) :
  String.length out <= max_output -> limit_output out = out.
Proof.
  intros Hl. unfold limit_output.
  destruct (Nat.ltb_spec max_output (String.length out)) as [Hlt|_]; [lia|].
  rewrite append_nil_r.
  destruct out as [|c out]; [reflexivity|]. cbn [PyStr.truthy].
  now apply take_all.
Qed.

Lemma limit_output_long (out : string) :
  max_output < String.length out ->
  limit_output out = PyStr.take max_output out ++ truncation_mark.
Proof.
  intros Hl. unfold limit_output.
  destruct (Nat.ltb_spec max_output (String.length out)) as [_|Hge]; [|lia].
  destruct out as [|c out]; [cbn in Hl; lia | reflexivity].
Qed.
End ExecFacts.

(** X21.  [execute_python_code] hands a text to the sub-process only
    after [ast.parse] has accepted it, and then exactly once; a text with
    a syntax error is answered without a run.  It reports success exactly
    when the text parses and the process ends with exit code 0.  Each of
    the two streams that it returns is the stream of the process when
    that has at most 10240 characters, and otherwise its first 10240
    characters followed by the truncation mark of 23 characters.  The
    verdict of the safety check reaches the log only. *)
Theorem execute_python_code_guarded :
  forall (W : Type) (HW : AiParser.Host W) (HR : Exec.Runner W)
         (check_code_safety : string -> bool * option string)
         (w : W) (code : string) (timeout : Z),
    let run := Exec.execute_python_code check_code_safety w code timeout in
    let r := Exec.returned_dict run in
    Exec.ran run
    = (if fst (AiParser.validate_python_syntax code) then [code] else [])
    /\ (fst (AiParser.validate_python_syntax code) = false ->
        Exec.after run = w /\ Exec.ex_success r = false)
    /\ (Exec.ex_success r = true <->
        fst (AiParser.validate_python_syntax code) = true
        /\ exists out err,
             snd (Exec.run_code w code timeout) = Exec.ExecCompleted 0 out err)
    /\ (forall returncode out err,
           fst (AiParser.validate_python_syntax code) = true ->
           snd (Exec.run_code w code timeout)
           = Exec.ExecCompleted returncode out err ->
           Exec.ex_stdout r = Exec.limit_output out
           /\ Exec.ex_stderr r = Exec.limit_output err
           /\ (String.length out <= Exec.max_output -> Exec.ex_stdout r = out)
           /\ (Exec.max_output < String.length out ->
               Exec.ex_stdout r
               = PyStr.take Exec.max_output out ++ Exec.truncation_mark))
    /\ String.length (Exec.ex_stdout r) <= Exec.max_output + 23
    /\ (forall other_check,
           let run' := Exec.execute_python_code other_check w code timeout in
           Exec.returned_dict run' = r /\ Exec.after run' = Exec.after run
           /\ Exec.ran run' = Exec.ran run).
Proof.
  intros W HW HR check w code timeout run r. subst r run.
  unfold Exec.execute_python_code.
  destruct (AiParser.validate_python_syntax code) as [[|] error]; cbn [fst].
  - destruct (Exec.run_code w code timeout) as [w1 [|message|rc out err]];
      cbn [snd Exec.ran Exec.after Exec.returned_dict Exec.ex_success
           Exec.ex_stdout Exec.ex_stderr].
    + split; [reflexivity|]. split; [discriminate|]. split.
      { split; [discriminate|]. intros (_ & out & err & E). discriminate E. }
      split; [discriminate|]. split; [cbn; lia|]. now intros other.
    + split; [reflexivity|]. split; [discriminate|]. split.
      { split; [discriminate|]. intros (_ & out & err & E). discriminate E. }
      split; [discriminate|]. split; [cbn; lia|]. now intros other.
    + split; [reflexivity|]. split; [discriminate|]. split.
      { split.
        - intros E. apply Z.eqb_eq in E. subst rc.
          split; [reflexivity|]. now exists out, err.
        - intros (_ & out' & err' & E). injection E as -> _ _. reflexivity. }
      split.
      { intros rc' out' err' _ E. injection E as <- <- <-.
        split; [reflexivity|]. split; [reflexivity|]. split.
        - apply limit_output_short.
        - apply limit_output_long. }
      split; [apply limit_output_length|]. now intros other.
  - cbn [Exec.ran Exec.after Exec.returned_dict Exec.ex_success
         Exec.ex_stdout Exec.ex_stderr].
    split; [reflexivity|]. split; [now split|]. split.
    { split; [discriminate|]. now intros [E _]. }
    split; [discriminate|]. split; [cbn; lia|]. now intros other.
Qed.

(** ** The code block of a reply *)

Section FenceFacts.
Import Fence.

Lemma fence_search_unfold (p : pattern) (s : string) :
  search p s =
  match match_here p None s with
  | Some m => Some m
  | None =>
      match s with
      | String _ s' => search p s'
      | EmptyString => None
      end
  end.
Proof. destruct s; reflexivity. Qed.

Lemma fence_search_inv (p : pattern) (s : string) (m : Re.match_object) :
  search p s = Some m ->
  exists before after, s = before ++ after /\ match_here p None after = Some m.
Proof.
  induction s as [|c s IH]; rewrite fence_search_unfold.
  - destruct (match_here p None "") eqn:E; [|discriminate].
    intros [= <-]. now exists "", "".
  - destruct (match_here p None (String c s)) eqn:E.
    + intros [= <-]. now exists "", (String c s).
    + intros Hs. destruct (IH Hs) as (before & after & -> & Hm).
      now exists (String c before), after.
Qed.

Lemma fence_lits_prefix (q : string) (rest : pattern) (g : Re.match_object) :
  forall s m,
    match_here (lits q ++ rest)%list g s = Some m -> exists b, s = q ++ b.
Proof.
  induction q as [|c q IH]; intros s m; cbn [lits app match_here].
  - intros _. now exists s.
  - destruct s as [|d s]; [discriminate|].
    destruct (Ascii.eqb_spec c d) as [<-|_]; [|discriminate].
    intros Hm. destruct (IH _ _ Hm) as (b & ->). now exists b.
Qed.

Lemma fence_search_none (q : string) (rest : pattern) (s : string) :
  ~ PyStr.Substring q s -> search (lits q ++ rest)%list s = None.
Proof.
  intros Hno. destruct (search (lits q ++ rest)%list s) as [m|] eqn:E;
    [|reflexivity].
  destruct (fence_search_inv _ _ _ E) as (before & after & -> & Hm).
  destruct (fence_lits_prefix _ _ _ _ _ Hm) as (b & ->).
  destruct Hno. now exists before, b.
Qed.

Lemma fence_search_here (p : pattern) (s : string) (m : Re.match_object) :
  match_here p None s = Some m -> search p s = Some m.
Proof. intros E. rewrite fence_search_unfold. now rewrite E. Qed.

Lemma fence_match_lit (c : ascii) (p : pattern) (g : Re.match_object)
    (s : string) :
  match_here (Lit c :: p) g (String c s) = match_here p g s.
Proof. cbn [match_here]. now rewrite Ascii.eqb_refl. Qed.

Lemma lits_fence_app (q : string) :
  lits (fence ++ q) = (lits fence ++ lits q)%list.
Proof. reflexivity. Qed.

Lemma fence_search_past (c : ascii) (p : pattern) (run rest : string) :
  Re.all_chars (fun d => negb (Ascii.eqb c d)) run = true ->
  search (Lit c :: p) (run ++ rest) = search (Lit c :: p) rest.
Proof.
  induction run as [|d run IH]; cbn [Re.all_chars append]; [reflexivity|].
  intros Hall. apply andb_true_iff in Hall. destruct Hall as [Hd Hall].
  apply negb_true_iff in Hd.
  rewrite fence_search_unfold. cbn [match_here]. rewrite Hd. now apply IH.
Qed.

Section Repetition.
Context {R : Type}.
Variable ok : ascii -> bool.

(** A greedy repetition in front of a text that it cannot enter takes the
    whole run before it, if the continuation accepts that. *)
Lemma star_takes_run (r : R) :
  forall (run rest : string) (k0 : string -> string -> option R),
    Re.all_chars ok run = true ->
    Scan.head_in ok rest = false ->
    k0 run rest = Some r ->
    Re.star ok k0 (run ++ rest) = Some r.
Proof.
  induction run as [|c run IH]; intros rest k0; cbn [Re.all_chars append].
  - intros _ Hrest Hk. destruct rest as [|d rest]; cbn [Re.star]; [exact Hk|].
    cbn [Scan.head_in] in Hrest. now rewrite Hrest.
  - intros Hall Hrest Hk. apply andb_true_iff in Hall. destruct Hall as [Hc Hall].
    cbn [Re.star]. rewrite Hc.
    now rewrite (IH rest (fun m r0 => k0 (String c m) r0) Hall Hrest Hk).
Qed.

(** It fails when the continuation refuses every text that starts with a
    character of the run or with the character that ends the run. *)
Lemma star_blocked (bad : ascii -> bool) :
  forall (run : string) (c : ascii) (rest : string)
         (k0 : string -> string -> option R),
    (forall m d r, bad d = true -> k0 m (String d r) = None) ->
    Re.all_chars ok run = true ->
    Re.all_chars bad run = true ->
    ok c = false -> bad c = true ->
    Re.star ok k0 (run ++ String c rest) = None.
Proof.
  induction run as [|d run IH]; intros c rest k0 Hbad;
    cbn [Re.all_chars append Re.star].
  - intros _ _ Hc Hb. rewrite Hc. now apply Hbad.
  - intros Hok Hb Hc Hbc.
    apply andb_true_iff in Hok, Hb. destruct Hok as [Hd Hok], Hb as [Hbd Hb].
    rewrite Hd.
    rewrite (IH c rest (fun m r0 => k0 (String d m) r0)); auto.
Qed.

(** A lazy repetition stops at the first place where the continuation
    accepts. *)
Lemma lazy_stops (r : R) :
  forall (taken tail : string) (k0 : string -> string -> option R),
    Re.all_chars ok taken = true ->
    (forall a b, taken = a ++ b -> b <> "" -> k0 a (b ++ tail) = None) ->
    k0 taken tail = Some r ->
    lazy_star ok k0 (taken ++ tail) = Some r.
Proof.
  induction taken as [|c taken IH]; intros tail k0; cbn [Re.all_chars append].
  - intros _ _ Hk. destruct tail; cbn [lazy_star]; now rewrite Hk.
  - intros Hall Hnone Hk. apply andb_true_iff in Hall. destruct Hall as [Hc Hall].
    cbn [lazy_star].
    assert (E := Hnone "" (String c taken) eq_refl ltac:(discriminate)).
    cbn [append] in E. rewrite E, Hc. apply IH; [exact Hall| |exact Hk].
    intros a b -> Hb. now apply (Hnone (String c a) b).
Qed.
End Repetition.

Lemma rstrip_spaces (b : string) :
  Re.all_chars PyStr.is_space b = true -> PyStr.rstrip b = "".
Proof.
  induction b as [|c b IH]; cbn [Re.all_chars PyStr.rstrip]; [reflexivity|].
  intros Hall. apply andb_true_iff in Hall. destruct Hall as [Hc Hall].
  now rewrite IH, Hc.
Qed.

Lemma rstrip_app_spaces (a b : string) :
  Re.all_chars PyStr.is_space b = true ->
  PyStr.rstrip (a ++ b) = PyStr.rstrip a.
Proof.
  intros Hall. induction a as [|c a IH]; cbn [append].
  - cbn [PyStr.rstrip]. now apply rstrip_spaces.
  - cbn [PyStr.rstrip]. now rewrite IH.
Qed.

Lemma rstrip_length (s : string) :
  String.length (PyStr.rstrip s) <= String.length s.
Proof.
  destruct (rstrip_split s) as (w & Hw & _).
  rewrite Hw at 2. rewrite length_app. lia.
Qed.

(** A text without white space at its end does not end in a run of white
    space. *)
Lemma suffix_not_spaces (code a b : string) :
  PyStr.rstrip code = code ->
  code = a ++ b -> b <> "" ->
  Re.all_chars PyStr.is_space b = false.
Proof.
  intros Hr -> Hb.
  destruct (Re.all_chars PyStr.is_space b) eqn:E; [|reflexivity].
  rewrite (rstrip_app_spaces a b E) in Hr.
  assert (Hl := rstrip_length a). rewrite Hr, length_app in Hl.
  destruct b as [|c b]; [now destruct Hb|]. cbn [String.length] in Hl. lia.
Qed.

Lemma trailing_of_spaces (b : string) :
  Scan.trailing PyStr.is_space b = "" -> Re.all_chars PyStr.is_space b = true.
Proof.
  induction b as [|c b IH]; cbn [Scan.trailing Re.all_chars]; [reflexivity|].
  destruct (PyStr.is_space c); [exact IH | discriminate].
Qed.

Lemma strip_fixed (code : string) :
  PyStr.strip code = code ->
  Scan.head_in PyStr.is_space code = false /\ PyStr.rstrip code = code.
Proof.
  intros Hs.
  assert (Hh : Scan.head_in PyStr.is_space code = false).
  { rewrite <- Hs. unfold PyStr.strip. apply rstrip_head, lstrip_head. }
  split; [exact Hh|].
  unfold PyStr.strip in Hs. now rewrite (lstrip_keeps code Hh) in Hs.
Qed.

Lemma closing_refuses (code a b tail : string) (g : Re.match_object) :
  PyStr.rstrip code = code ->
  Re.all_chars no_backtick code = true ->
  code = a ++ b -> b <> "" ->
  closing g (b ++ tail) = None.
Proof.
  intros Hr Hnb Hab Hb.
  assert (Hsp := suffix_not_spaces code a b Hr Hab Hb).
  assert (Hnbb : Re.all_chars no_backtick b = true).
  { rewrite Hab, all_chars_app in Hnb. apply andb_true_iff in Hnb. tauto. }
  rewrite (leading_trailing PyStr.is_space b) in Hnbb |- *.
  destruct (Scan.trailing PyStr.is_space b) as [|c rest] eqn:Et.
  { apply trailing_of_spaces in Et. congruence. }
  assert (Hc : PyStr.is_space c = false).
  { assert (Hh := head_in_trailing PyStr.is_space b). now rewrite Et in Hh. }
  rewrite all_chars_app in Hnbb. apply andb_true_iff in Hnbb.
  destruct Hnbb as [Hlead Htrail]. cbn [Re.all_chars] in Htrail.
  apply andb_true_iff in Htrail. destruct Htrail as [Hcb _].
  unfold closing. cbn [match_here lits fence].
  rewrite append_assoc. cbn [append].
  apply (star_blocked space no_backtick); auto.
  - intros m d r Hd. cbn [match_here].
    unfold no_backtick, backtick in Hd. apply negb_true_iff in Hd.
    rewrite Ascii.eqb_sym. now rewrite Hd.
  - apply all_chars_leading.
Qed.

Lemma closing_accepts (ws post : string) (g : Re.match_object) :
  Re.all_chars space ws = true ->
  closing g (ws ++ fence ++ post) = Some g.
Proof.
  intros Hws. unfold closing. cbn [match_here].
  apply star_takes_run; [exact Hws | reflexivity | reflexivity].
Qed.

Lemma block_body (ws code ws' post : string) :
  Re.all_chars space ws = true ->
  Re.all_chars space ws' = true ->
  Re.all_chars no_backtick code = true ->
  PyStr.strip code = code ->
  code <> "" ->
  match_here ([Star space; LazyGroup any; Star space] ++ lits fence)%list None
    (ws ++ code ++ ws' ++ fence ++ post) = Some (Some code).
Proof.
  intros Hws Hws' Hnb Hstrip Hne.
  destruct (strip_fixed code Hstrip) as [Hhead Hr].
  cbn [app match_here].
  apply star_takes_run; [exact Hws | |].
  - destruct code as [|c code]; [now destruct Hne|]. exact Hhead.
  - apply lazy_stops.
    + clear. induction code as [|c code IH]; [reflexivity | exact IH].
    + intros a b Hab Hb.
      exact (closing_refuses code a b (ws' ++ fence ++ post) (Some a) Hr Hnb Hab Hb).
    + exact (closing_accepts ws' post (Some code) Hws').
Qed.
End FenceFacts.

(** X22.  A reply without a fence of three backticks is taken as the
    script as it is, by the generation mode and by the fix request
    alike. *)
Theorem reply_without_fence_kept :
  forall response_text : string,
    ~ PyStr.Substring Fence.fence response_text ->
    Fence.extract_code response_text = response_text.
Proof.
  intros response_text Hno. unfold Fence.extract_code.
  unfold Fence.python_block. rewrite (lits_fence_app "python").
  rewrite <- app_assoc.
  rewrite (fence_search_none Fence.fence _ _ Hno).
  unfold Fence.plain_block.
  now rewrite (fence_search_none Fence.fence _ _ Hno).
Qed.

Lemma reply_without_fence_kept_witness :
  Fence.extract_code "import sys; print(sys.argv)" = "import sys; print(sys.argv)".
Proof.
  apply reply_without_fence_kept.
  intros Hc. apply contains_Substring in Hc. discriminate Hc.
Defined.

(** X23.  From a reply that holds a block opened by the fence with the
    tag [python], the script taken is the text of the block without the
    white space around it, whatever stands before the block (as long as it
    has no backtick) and whatever stands after its closing fence.  The
    text of the block is any text that is not empty and has no
    backtick. *)
Theorem python_block_extracted :
  forall before ws code ws' after_block : string,
    Re.all_chars Fence.no_backtick before = true ->
    Re.all_chars Fence.space ws = true ->
    Re.all_chars Fence.space ws' = true ->
    Re.all_chars Fence.no_backtick code = true ->
    PyStr.strip code = code ->
    code <> "" ->
    Fence.extract_code
      (before ++ (Fence.fence ++ "python") ++ ws ++ code ++ ws'
       ++ Fence.fence ++ after_block)
    = code.
Proof.
  intros before ws code ws' post Hb Hws Hws' Hnb Hstrip Hne.
  unfold Fence.extract_code.
  assert (E : Fence.search Fence.python_block
                (before ++ (Fence.fence ++ "python") ++ ws ++ code ++ ws'
                 ++ Fence.fence ++ post)
              = Some (Some code)).
  { unfold Fence.python_block.
    change (Fence.lits (Fence.fence ++ "python"))
      with (Fence.Lit Fence.backtick
              :: Fence.lits ("``" ++ "python")).
    cbn [app].
    rewrite fence_search_past.
    2:{ revert Hb. apply all_chars_impl. intros c Hc.
        unfold Fence.no_backtick in Hc. now rewrite Ascii.eqb_sym. }
    apply fence_search_here.
    unfold Fence.fence, Fence.backtick. cbn [append Fence.lits app].
    rewrite !fence_match_lit.
    exact (block_body ws code ws' post Hws Hws' Hnb Hstrip Hne). }
  now rewrite E.
Qed.

Lemma python_block_extracted_witness :
  Fence.extract_code
    ("Here is the script:" ++ PyStr.newline
     ++ (Fence.fence ++ "python") ++ PyStr.newline
     ++ "print('a b')" ++ PyStr.newline
     ++ Fence.fence ++ " Done.")
  = "print('a b')".
Proof.
  apply (python_block_extracted ("Here is the script:" ++ PyStr.newline)
           PyStr.newline "print('a b')" PyStr.newline " Done.");
    (reflexivity || discriminate).
Defined.
